(** * nativefier: the app-build orchestration pipeline

    A shallow embedding of the build module, the source file that defines
    [buildNativefierApp]: the helpers
    [copyIconsIfNecessary], [getAppPath], [isUpgrade],
    [trimUnprocessableOptions], [createLinuxDesktopLauncher],
    [installLinuxApp], [getOSRunHelp] and the orchestrator
    [buildNativefierApp].

    Conventions of the model
    - a JavaScript string is a Rocq [string] holding its UTF-8 encoding;
    - an optional property ([x?: T], [T | undefined]) is an [option];
    - the code runs against a [World]: the host, Node's [path] module and
      the collaborators of the build (options resolver, stager, packaging
      engine, file system, subprocesses).  Every call to the outside is
      appended to a trace of events, and the answer of the outside may
      depend on the whole trace so far;
    - a function that can throw is a computation [M A] returning
      [Threw e] or [Returned a] together with the extended trace;
      [try ... catch] is [tryCatch]. *)

From Stdlib Require Import String Ascii List ZArith Bool Lia DecimalString.
Import ListNotations.
Local Open Scope list_scope.
Local Open Scope string_scope.

(** ** JavaScript values as far as this file looks at them *)

Module Js.

(** [!!s] for [s : string | undefined] *)
Definition truthyStr (s : option string) : bool :=
  match s with
  | None => false
  | Some EmptyString => false
  | Some (String _ _) => true
  end.

(** [!!b] for [b : boolean | undefined] *)
Definition truthyBool (b : option bool) : bool :=
  match b with
  | Some true => true
  | _ => false
  end.

(** [x ?? d] *)
Definition nullish {A : Type} (x : option A) (d : A) : A :=
  match x with
  | Some a => a
  | None => d
  end.

(** a value held by a loosely typed property *)
Inductive value : Type :=
| VUndefined
| VBool (b : bool)
| VString (s : string)
| VObject.

Definition truthy (v : value) : bool :=
  match v with
  | VUndefined => false
  | VBool b => b
  | VString s => truthyStr (Some s)
  | VObject => true
  end.

Definition dquote : string := String (ascii_of_nat 34) EmptyString.

(** [`${n}`] for an integer [n] *)
Definition ofInt (z : Z) : string := NilZero.string_of_int (Z.to_int z).

(** [Array.prototype.join] *)
Fixpoint joinWith (sep : string) (l : list string) : string :=
  match l with
  | [] => ""
  | [x] => x
  | x :: rest => x ++ sep ++ joinWith sep rest
  end.

Definition byte (c : ascii) : nat := nat_of_ascii c.

(** the one-byte members of the regular expression class [\s] *)
Definition space1 (c : ascii) : bool :=
  let n := byte c in
  (((9 <=? n) && (n <=? 13)) || (n =? 32))%nat.

(** U+00A0, encoded on two bytes *)
Definition space2 (c1 c2 : ascii) : bool :=
  ((byte c1 =? 194) && (byte c2 =? 160))%nat.

(** U+1680, U+2000..U+200A, U+2028, U+2029, U+202F, U+205F, U+3000 and
    U+FEFF, encoded on three bytes *)
Definition space3 (c1 c2 c3 : ascii) : bool :=
  let a := byte c1 in
  let b := byte c2 in
  let c := byte c3 in
  (((a =? 225) && (b =? 154) && (c =? 128))
   || ((a =? 226) && (b =? 128)
       && (((128 <=? c) && (c <=? 138)) || (c =? 168) || (c =? 169) || (c =? 175)))
   || ((a =? 226) && (b =? 129) && (c =? 159))
   || ((a =? 227) && (b =? 128) && (c =? 128))
   || ((a =? 239) && (b =? 187) && (c =? 191)))%nat.

(** [s.replace(/\s+/g, '')] *)
Fixpoint removeWhitespace (s : string) : string :=
  match s with
  | EmptyString => EmptyString
  | String c1 r1 =>
    if space1 c1 then removeWhitespace r1
    else
      match r1 with
      | EmptyString => String c1 EmptyString
      | String c2 r2 =>
        if space2 c1 c2 then removeWhitespace r2
        else
          match r2 with
          | EmptyString => String c1 (removeWhitespace r1)
          | String c3 r3 =>
            if space3 c1 c2 c3 then removeWhitespace r3
            else String c1 (removeWhitespace r1)
          end
      end
  end.

End Js.

(** ** Node's [path] module

    The build calls [path.join], [path.dirname], [path.basename] and
    [path.extname]; which flavour it gets depends on the host, so the
    module is a field of the world.  [Posix] is the flavour of every host
    but Windows. *)

Record PathApi : Type := {
  join : list string -> string;
  dirname : string -> string;
  basename : string -> string;
  extname : string -> string
}.

Module Posix.

Definition slash : ascii := "/"%char.
Definition dot : ascii := "."%char.

Definition isSlash (c : ascii) : bool := Ascii.eqb c slash.

Definition chars (s : string) : list ascii := list_ascii_of_string s.
Definition str (l : list ascii) : string := string_of_list_ascii l.

(** the segments between separators, empty ones included *)
Fixpoint segments (s : string) : list string :=
  match s with
  | EmptyString => [EmptyString]
  | String c rest =>
    match segments rest with
    | [] => [String c EmptyString]
    | seg :: segs =>
      if isSlash c then EmptyString :: seg :: segs
      else String c seg :: segs
    end
  end.

(** one step of [normalizeString]: the stack holds the segments kept so
    far, the last one first *)
Definition pushSegment (allowAboveRoot : bool) (stack : list string)
           (seg : string) : list string :=
  if (seg =? "")%string then stack
  else if (seg =? ".")%string then stack
  else if (seg =? "..")%string then
    match stack with
    | top :: below =>
      if (top =? "..")%string
      then (if allowAboveRoot then ".." :: stack else stack)
      else below
    | [] => if allowAboveRoot then [".."] else []
    end
  else seg :: stack.

Definition normalizeString (p : string) (allowAboveRoot : bool) : string :=
  Js.joinWith "/" (rev (fold_left (pushSegment allowAboveRoot) (segments p) [])).

Definition startsWithSlash (p : string) : bool :=
  match p with
  | String c _ => isSlash c
  | EmptyString => false
  end.

Definition endsWithSlash (p : string) : bool :=
  match rev (chars p) with
  | c :: _ => isSlash c
  | [] => false
  end.

Definition normalize (p : string) : string :=
  match p with
  | EmptyString => "."
  | _ =>
    let isAbsolute := startsWithSlash p in
    let trailingSeparator := endsWithSlash p in
    let q := normalizeString p (negb isAbsolute) in
    match q with
    | EmptyString =>
      if isAbsolute then "/" else if trailingSeparator then "./" else "."
    | _ =>
      let q' := if trailingSeparator then q ++ "/" else q in
      if isAbsolute then "/" ++ q' else q'
    end
  end.

Definition nonEmpty (s : string) : bool :=
  match s with
  | EmptyString => false
  | _ => true
  end.

Definition join (parts : list string) : string :=
  match filter nonEmpty parts with
  | [] => "."
  | kept => normalize (Js.joinWith "/" kept)
  end.

Fixpoint dropWhile {A : Type} (f : A -> bool) (l : list A) : list A :=
  match l with
  | [] => []
  | x :: rest => if f x then dropWhile f rest else l
  end.

Fixpoint takeWhile {A : Type} (f : A -> bool) (l : list A) : list A :=
  match l with
  | [] => []
  | x :: rest => if f x then x :: takeWhile f rest else []
  end.

Definition notSlash (c : ascii) : bool := negb (isSlash c).
Definition notDot (c : ascii) : bool := negb (Ascii.eqb c dot).

(** the loop of [dirname] runs from the last index down to index 1: it
    skips the trailing separators, then the last segment, and stops on
    the separator before it *)
Definition dirname (p : string) : string :=
  match chars p with
  | [] => "."
  | first :: others =>
    let hasRoot := isSlash first in
    match dropWhile notSlash (dropWhile isSlash (rev others)) with
    | [] => if hasRoot then "/" else "."
    | _ :: before =>
      (* the separator found sits at index [1 + length before] *)
      match before with
      | [] => if hasRoot then "//" else str [first]
      | _ => str (first :: rev before)
      end
    end
  end.

Definition basename (p : string) : string :=
  str (rev (takeWhile notSlash (dropWhile isSlash (rev (chars p))))).

Definition extname (p : string) : string :=
  let base := rev (takeWhile notSlash (dropWhile isSlash (rev (chars p)))) in
  let afterDot := takeWhile notDot (rev base) in
  match dropWhile notDot (rev base) with
  | [] => ""                       (* no dot in the last segment *)
  | _ :: [] => ""                  (* the only dot opens the segment *)
  | _ :: _ :: _ =>
    if (str base =? "..")%string then ""
    else str (dot :: rev afterDot)
  end.

Definition api : PathApi :=
  Build_PathApi join dirname basename extname.

End Posix.

(** ** Data model *)

(** [upgrade?: string | boolean] of a raw request *)
Inductive UpgradeField : Type :=
| UpgradeUnset
| UpgradeFlag (b : bool)
| UpgradePath (p : string).

(** [RawOptions]: the properties of the user's request this pipeline reads
    or hands to the options resolver *)
Module RawOptions.

Record t : Type := mk {
  quiet : option bool;
  out : option string;
  upgrade : UpgradeField;
  upgradeFrom : option string;
  overwrite : option bool;
  verbose : option bool;
  name : option string;
  targetUrl : option string;
  platform : option string;
  icon : option string;
  tray : option string
}.

Definition setOut (v : option string) (r : t) : t :=
  mk (quiet r) v (upgrade r) (upgradeFrom r) (overwrite r) (verbose r)
     (name r) (targetUrl r) (platform r) (icon r) (tray r).

Definition setUpgrade (v : UpgradeField) (r : t) : t :=
  mk (quiet r) (out r) v (upgradeFrom r) (overwrite r) (verbose r)
     (name r) (targetUrl r) (platform r) (icon r) (tray r).

Definition setUpgradeFrom (v : option string) (r : t) : t :=
  mk (quiet r) (out r) (upgrade r) v (overwrite r) (verbose r)
     (name r) (targetUrl r) (platform r) (icon r) (tray r).

End RawOptions.

(** [options.packager]: the configuration handed to the packaging engine *)
Module Packager.

Record t : Type := mk {
  dir : string;
  icon : option string;
  platform : option string;
  name : option string;
  targetUrl : option string;
  upgrade : option bool;
  upgradeFrom : option string;
  overwrite : option bool;
  quiet : option bool;
  (** the properties this file never names *)
  others : list (string * Js.value)
}.

Definition setDir (v : string) (p : t) : t :=
  mk v (icon p) (platform p) (name p) (targetUrl p) (upgrade p)
     (upgradeFrom p) (overwrite p) (quiet p) (others p).

Definition setQuiet (v : option bool) (p : t) : t :=
  mk (dir p) (icon p) (platform p) (name p) (targetUrl p) (upgrade p)
     (upgradeFrom p) (overwrite p) v (others p).

End Packager.

(** [options.nativefier]: the configuration of the wrapped app *)
Module Nativefier.

Record t : Type := mk {
  tray : option string;
  others : list (string * Js.value)
}.

End Nativefier.

(** [AppOptions] is declared with the two properties [nativefier] and
    [packager].  [trimUnprocessableOptions] casts it to a record keyed by
    strings and assigns properties by name, so the model also carries the
    own properties such an assignment creates ([stray]); the options
    resolver returns none. *)
Module AppOptions.

Record t : Type := mk {
  nativefier : Nativefier.t;
  packager : Packager.t;
  stray : list (string * Js.value)
}.

Definition setPackager (p : Packager.t) (o : t) : t :=
  mk (nativefier o) p (stray o).

(** [Object.entries(options)] *)
Definition entries (o : t) : list (string * Js.value) :=
  (("nativefier", Js.VObject) :: ("packager", Js.VObject) :: stray o)%list.

Fixpoint assign (k : string) (v : Js.value) (l : list (string * Js.value))
  : list (string * Js.value) :=
  match l with
  | [] => [(k, v)]
  | (k', v') :: rest =>
    if (k' =? k)%string then (k, v) :: rest else (k', v') :: assign k v rest
  end.

(** [(options as Record<string, undefined>)[k] = undefined], for a key
    other than the two declared ones *)
Definition setUndefined (k : string) (o : t) : t :=
  mk (nativefier o) (packager o) (assign k Js.VUndefined (stray o)).

End AppOptions.

(** [UpgradeAppInfo]: a prior install found on disk *)
Module UpgradeAppInfo.

Record t : Type := mk {
  appRoot : string;
  options : RawOptions.t
}.

End UpgradeAppInfo.

(** what the packaging engine resolves to, as [getAppPath] takes it:
    [string | string[]] *)
Inductive PathResult : Type :=
| OnePath (p : string)
| PathArray (l : list string).

(** a thrown [Error] *)
Inductive Error : Type :=
| mkError (message : string).

Inductive Outcome (A : Type) : Type :=
| Threw (e : Error)
| Returned (a : A).
Arguments Threw {A} e.
Arguments Returned {A} a.

(** ** Events: what the build does to the outside *)

Inductive Level : Type := Debug | Info | Warn.

Inductive LogArg : Type :=
| Text (s : string)
| Maybe (s : option string)
| Paths (l : list string)
| Caught (e : Error)
| ShowRaw (r : RawOptions.t)
| ShowOptions (o : AppOptions.t).

(** the options object of [fs.copy] *)
Record CopyOptions : Type := {
  copyOverwrite : option bool;
  preserveTimestamps : bool
}.

(** calls into [fs-extra] that resolve to nothing *)
Inductive FsOp : Type :=
| Copy (src dest : string) (opts : option CopyOptions)
| Remove (p : string)
| WriteFile (p content : string)
| Chmod (p : string) (mode : Z)
| EnsureDir (p : string).

Inductive Event : Type :=
| Log (lvl : Level) (args : list LogArg)
| SetLevel (lvl : string)
| Fs (op : FsOp)
| Readdir (p : string)
| SpawnSync (cmd : string) (args : list string)
| ImportModule (m : string)
| GetTempDir (prefix : string) (mode : Z)
| GetOptions (r : RawOptions.t)
| PrepareElectronApp (src dest : string) (o : AppOptions.t)
| ConvertIcon (o : AppOptions.t)
| InitializeProxy
| ElectronPackager (p : Packager.t).

Definition Trace : Type := list Event.

(** ** The world the build runs in

    The collaborators live in other modules of the repository or in
    libraries; the build only calls them, so they are parameters.  Each
    answer may depend on the trace so far. *)
Record World : Type := {
  path : PathApi;
  (** [os.platform()] *)
  osPlatform : string;
  (** [isWindowsAdmin()] and [hasWine()] of [helpers/helpers] *)
  isWindowsAdmin : bool;
  hasWine : bool;
  (** [process.cwd()], [os.homedir()] *)
  cwd : string;
  homedir : string;
  (** [process.getuid()] and [process.getgid()]; [None] on a host whose
      [process] has no such function *)
  getuid : option Z;
  getgid : option Z;
  findUpgradeApp : string -> option UpgradeAppInfo.t;
  getTempDir : Trace -> string -> Z -> Outcome string;
  getOptions : Trace -> RawOptions.t -> Outcome AppOptions.t;
  prepareElectronApp : Trace -> string -> string -> AppOptions.t -> Outcome unit;
  (** [convertIconIfNecessary] updates the options in place *)
  convertIconIfNecessary : Trace -> AppOptions.t -> AppOptions.t;
  electronPackager : Trace -> Packager.t -> Outcome PathResult;
  fs : Trace -> FsOp -> Outcome unit;
  readdir : Trace -> string -> Outcome (list string);
  (** the [status] of the result of [spawnSync]: [None] is [null] *)
  spawnSync : Trace -> string -> list string -> Outcome (option Z);
  importModule : Trace -> string -> Outcome unit
}.

(** Modelled from the spec: [isWindows] of [helpers/helpers] is not part of
    the sources at hand; the spec speaks of the host OS being Windows, which
    Node reports as the platform [win32]. *)
Definition isWindows (w : World) : bool := (osPlatform w =? "win32")%string.

(** Modelled from the spec: [useOldAppOptions] of [helpers/upgrade/upgrade]
    is not part of the sources at hand.  The spec: merge the saved
    configuration of the prior install into the raw request as defaults,
    explicit new fields win. *)
Definition useOldAppOptions (rawOptions : RawOptions.t)
           (oldApp : UpgradeAppInfo.t) : RawOptions.t :=
  let saved := UpgradeAppInfo.options oldApp in
  let dflt {A : Type} (new old : option A) : option A :=
      match new with
      | Some v => Some v
      | None => old
      end in
  RawOptions.mk
    (dflt (RawOptions.quiet rawOptions) (RawOptions.quiet saved))
    (dflt (RawOptions.out rawOptions) (RawOptions.out saved))
    (match RawOptions.upgrade rawOptions with
     | UpgradeUnset => RawOptions.upgrade saved
     | u => u
     end)
    (dflt (RawOptions.upgradeFrom rawOptions) (RawOptions.upgradeFrom saved))
    (dflt (RawOptions.overwrite rawOptions) (RawOptions.overwrite saved))
    (dflt (RawOptions.verbose rawOptions) (RawOptions.verbose saved))
    (dflt (RawOptions.name rawOptions) (RawOptions.name saved))
    (dflt (RawOptions.targetUrl rawOptions) (RawOptions.targetUrl saved))
    (dflt (RawOptions.platform rawOptions) (RawOptions.platform saved))
    (dflt (RawOptions.icon rawOptions) (RawOptions.icon saved))
    (dflt (RawOptions.tray rawOptions) (RawOptions.tray saved)).

(** ** Computations that log, call out and throw *)

Definition M (A : Type) : Type := Trace -> Outcome A * Trace.

Definition ret {A : Type} (a : A) : M A := fun tr => (Returned a, tr).

Definition throw {A : Type} (e : Error) : M A := fun tr => (Threw e, tr).

Definition bind {A B : Type} (c : M A) (k : A -> M B) : M B :=
  fun tr =>
    match c tr with
    | (Returned a, tr') => k a tr'
    | (Threw e, tr') => (Threw e, tr')
    end.

(** [try { body } catch (err) { handler }] *)
Definition tryCatch {A : Type} (body : M A) (handler : Error -> M A) : M A :=
  fun tr =>
    match body tr with
    | (Returned a, tr') => (Returned a, tr')
    | (Threw e, tr') => handler e tr'
    end.

(** a call to the outside: the event is recorded, the answer is the one the
    world gives after the trace so far *)
Definition perform {A : Type} (ev : Event) (answer : Trace -> Outcome A) : M A :=
  fun tr => (answer tr, (tr ++ [ev])%list).

(** a call of [log.debug], [log.info] or [log.warn]; whether it prints
    depends on the level set by [log.setLevel] *)
Definition log (lvl : Level) (args : list LogArg) : M unit :=
  fun tr => (Returned tt, (tr ++ [Log lvl args])%list).

Declare Scope build_scope.
Delimit Scope build_scope with build.
Notation "x <- c ;; k" := (bind c (fun x => k))
  (at level 61, c at next level, right associativity) : build_scope.
Notation "c ;; k" := (bind c (fun _ => k))
  (at level 61, right associativity) : build_scope.
Local Open Scope build_scope.

(** the events a computation adds to an empty trace, and its outcome *)
Definition run {A : Type} (c : M A) : Outcome A * Trace := c [].

(** ** The build, function by function

    Line numbers are those of the build module. *)

Definition OPTIONS_REQUIRING_WINDOWS_FOR_WINDOWS_BUILD : list string :=
  ["icon"; "appCopyright"; "appVersion"; "buildVersion"; "versionString";
   "win32metadata"].

(** [Array.prototype.includes] on strings *)
Definition includes (l : list string) (k : string) : bool :=
  existsb (String.eqb k) l.

(** [p === 'name'] for [p : string | undefined] *)
Definition isPlatform (p : option string) (name : string) : bool :=
  match p with
  | Some s => (s =? name)%string
  | None => false
  end.

(** [getAppPath]: checks the app path array to determine if packaging
    completed successfully; [None] is [undefined] *)
Definition getAppPath (appPath : PathResult) : M (option string) :=
  match appPath with
  | OnePath p => ret (Some p)
  | PathArray [] => ret None
  | PathArray (first :: rest) =>
    (match rest with
     | [] => ret tt
     | _ :: _ =>
       log Warn
           [Text "Warning: This should not be happening, packaged app path contains more than one element:";
            Paths (first :: rest)]
     end) ;;
    ret (Some first)
  end.

(** [isUpgrade]: the answer and the request as the function leaves it *)
Definition isUpgrade (rawOptions : RawOptions.t) : bool * RawOptions.t :=
  match RawOptions.upgrade rawOptions with
  | UpgradePath (String c s) =>
    let rawOptions := RawOptions.setUpgradeFrom (Some (String c s)) rawOptions in
    let rawOptions := RawOptions.setUpgrade (UpgradeFlag true) rawOptions in
    (true, rawOptions)
  | _ => (false, rawOptions)
  end.

(** [getOSRunHelp] *)
Definition getOSRunHelp (platform : option string) : string :=
  if isPlatform platform "win32" then "the contained .exe file."
  else if isPlatform platform "linux" then
    "the contained executable file (prefixing with ./ if necessary)
A .desktop launcher file has been created in the app folder for your convenience."
  else if isPlatform platform "darwin" then "the app bundle."
  else "".

Section Build.

Variable w : World.

Definition pathJoin (parts : list string) : string := join (path w) parts.

Definition fsCall (op : FsOp) : M unit :=
  perform (Fs op) (fun tr => fs w tr op).

Definition spawn (cmd : string) (args : list string) : M (option Z) :=
  perform (SpawnSync cmd args) (fun tr => spawnSync w tr cmd args).

Definition import (m : string) : M unit :=
  perform (ImportModule m) (fun tr => importModule w tr m).

Definition tempDir (prefix : string) (mode : Z) : M string :=
  perform (GetTempDir prefix mode) (fun tr => getTempDir w tr prefix mode).

(** [copyIconsIfNecessary]: for Windows and Linux the icon is copied to
    the resources/app folder, which the window reads it from *)
Definition copyIconsIfNecessary (options : AppOptions.t) (appPath : string)
  : M unit :=
  log Debug [Text "Copying icons if necessary"] ;;
  match Packager.icon (AppOptions.packager options) with
  | None | Some EmptyString =>
    log Debug [Text "No icon specified in options; aborting"]
  | Some icon =>
    let platform := Packager.platform (AppOptions.packager options) in
    if isPlatform platform "darwin" || isPlatform platform "mas" then
      if negb (isPlatform (Nativefier.tray (AppOptions.nativefier options)) "false")
      then
        log Debug [Text "Copying icon for tray application"] ;;
        let trayIconFileName := "tray-icon.png" in
        let destIconPath := pathJoin [appPath; "icon.png"] in
        fsCall (Copy (dirname (path w) icon ++ "/" ++ trayIconFileName)
                     destIconPath None)
      else
        log Debug [Text "No copying necessary on macOS; aborting"]
    else
      let destFileName := "icon" ++ extname (path w) icon in
      let destIconPath := pathJoin [appPath; destFileName] in
      log Debug [Text ("Copying icon " ++ icon ++ " to"); Text destIconPath] ;;
      fsCall (Copy icon destIconPath None)
  end.

(** the keys [trimUnprocessableOptions] finds set *)
Definition optionsPresent (options : AppOptions.t) : list string :=
  map fst
      (filter (fun kv => includes OPTIONS_REQUIRING_WINDOWS_FOR_WINDOWS_BUILD (fst kv)
                         && Js.truthy (snd kv))
              (AppOptions.entries options)).

(** [trimUnprocessableOptions]; returns the options as the function
    leaves them *)
Definition trimUnprocessableOptions (options : AppOptions.t) : M AppOptions.t :=
  if isPlatform (Packager.platform (AppOptions.packager options)) "win32"
     && negb (isWindows w) && negb (hasWine w)
  then
    let present := optionsPresent options in
    match present with
    | [] => ret options
    | _ :: _ =>
      log Warn
          [Text ("*Not* setting [" ++ Js.joinWith ", " present
                 ++ "], as couldn't find Wine.");
           Text "Wine is required when packaging a Windows app under on non-Windows platforms.";
           Text "Also, note that Windows apps built under non-Windows platforms without Wine *will lack* certain";
           Text "features, like a correct icon and process name. Do yourself a favor and install Wine, please."] ;;
      ret (fold_left (fun o keyToUnset => AppOptions.setUndefined keyToUnset o)
                     present options)
    end
  else ret options.

(** the body of the [try] of [createLinuxDesktopLauncher] *)
Definition createLinuxDesktopLauncherBody (appPath appName targetUrl : string)
  : M unit :=
  files <- perform (Readdir appPath) (fun tr => readdir w tr appPath) ;;
  let executableName :=
      basename (path w) (Js.nullish (find (fun file => (file =? appName)%string) files) appName) in
  let iconPath := pathJoin [appPath; "resources"; "app"; "icon.png"] in
  let cleanName := Js.removeWhitespace appName in
  let desktopFileContent :=
      "[Desktop Entry]
Version=1.0
Type=Application
Name=" ++ appName ++ "
Comment=App for " ++ targetUrl ++ "
Exec=" ++ pathJoin [appPath; executableName] ++ " %U
Icon=" ++ iconPath ++ "
Terminal=false
Categories=Network;WebBrowser;
StartupWMClass=" ++ cleanName ++ "
StartupNotify=true
Actions=
Keywords=messenger;chat;
X-GNOME-UsesNotifications=true
" in
  let desktopFilePath := pathJoin [appPath; appName ++ ".desktop"] in
  fsCall (WriteFile desktopFilePath desktopFileContent) ;;
  fsCall (Chmod desktopFilePath 493) ;;       (* 0o755 *)
  log Info [Text ("Created desktop launcher at " ++ desktopFilePath)] ;;
  log Info [Text ("To install system-wide, run: cp " ++ Js.dquote ++ desktopFilePath
                  ++ Js.dquote ++ " ~/.local/share/applications/")].

Definition createLinuxDesktopLauncher (appPath appName targetUrl : string)
  : M unit :=
  tryCatch (createLinuxDesktopLauncherBody appPath appName targetUrl)
           (fun err => log Warn [Text "Failed to create desktop launcher:"; Caught err]).

(** [status !== 0] on the result of [spawnSync] *)
Definition statusNotZero (status : option Z) : bool :=
  match status with
  | Some z => negb (z =? 0)%Z
  | None => true
  end.

(** the body of the [try] of [installLinuxApp] *)
Definition installLinuxAppBody (appPath appName : string) : M unit :=
  import "child_process" ;;
  import "os" ;;
  let optPath := pathJoin ["/opt"; appName] in
  let homeDir := homedir w in
  let desktopDir := pathJoin [homeDir; ".local"; "share"; "applications"] in
  let desktopFileDest := pathJoin [desktopDir; appName ++ ".desktop"] in
  log Info [Text ("Installing " ++ appName ++ " to " ++ optPath ++ "...")] ;;
  (* process.getuid && process.getuid() !== 0 *)
  let needsSudo :=
      match getuid w with
      | Some uid => negb (uid =? 0)%Z
      | None => false
      end in
  (if needsSudo then
     rmResult <- spawn "sudo" ["rm"; "-rf"; optPath] ;;
     (if statusNotZero rmResult
      then log Warn [Text ("Failed to remove old installation at " ++ optPath)]
      else ret tt) ;;
     cpResult <- spawn "sudo" ["cp"; "-r"; appPath; optPath] ;;
     (if statusNotZero cpResult
      then throw (mkError ("Failed to copy app to " ++ optPath))
      else ret tt) ;;
     let uid := Js.nullish (getuid w) 1000%Z in
     let gid := Js.nullish (getgid w) 1000%Z in
     _ <- spawn "sudo" ["chown"; "-R"; Js.ofInt uid ++ ":" ++ Js.ofInt gid; optPath] ;;
     ret tt
   else
     fsCall (Remove optPath) ;;
     fsCall (Copy appPath optPath
                  (Some {| copyOverwrite := None; preserveTimestamps := true |}))) ;;
  let executableName := appName in
  let iconPath := pathJoin [optPath; "resources"; "app"; "icon.png"] in
  let cleanName := Js.removeWhitespace appName in
  let updatedDesktopContent :=
      "[Desktop Entry]
Version=1.0
Type=Application
Name=" ++ appName ++ "
Comment=App for " ++ appName ++ "
Exec=" ++ pathJoin [optPath; executableName] ++ " %U
Icon=" ++ iconPath ++ "
Terminal=false
Categories=Network;WebBrowser;
StartupWMClass=" ++ cleanName ++ "
StartupNotify=true
Actions=
Keywords=messenger;chat;
X-GNOME-UsesNotifications=true
" in
  fsCall (EnsureDir desktopDir) ;;
  fsCall (WriteFile desktopFileDest updatedDesktopContent) ;;
  fsCall (Chmod desktopFileDest 493) ;;
  log Info [Text ("✅ Installed " ++ appName ++ " to " ++ optPath)] ;;
  log Info [Text ("✅ Desktop launcher installed to " ++ desktopFileDest)] ;;
  log Info [Text ("You can now launch " ++ appName ++ " from your application menu!")].

Definition installLinuxApp (appPath appName : string) : M unit :=
  tryCatch (installLinuxAppBody appPath appName)
           (fun err =>
              log Warn [Text "Failed to install app to /opt:"; Caught err] ;;
              log Info [Text "You can manually copy the app to /opt and the .desktop file to ~/.local/share/applications/"]).

(** *** The orchestrator [buildNativefierApp], stage by stage *)

Definition emit (ev : Event) : M unit :=
  fun tr => (Returned tt, (tr ++ [ev])%list).

Definition greeting : string :=
  "

    Hi! Nativefier is minimally maintained these days, and needs more hands.
" ++ "    If you have the time & motivation, help with bugfixes and maintenance is VERY welcome.
" ++ "    Please go to https://github.com/nativefier/nativefier and help how you can. Thanks.

".

(** [`${x}`] and [x as string] for [x : string | undefined] *)
Definition asString (x : option string) : string :=
  Js.nullish x "undefined".

(** lines 274-296: default output directory and upgrade detection;
    yields the request and [finalOutDirectory] *)
Definition upgradeStage (rawOptions : RawOptions.t)
  : M (RawOptions.t * string) :=
  let rawOptions :=
      if negb (Js.truthyStr (RawOptions.out rawOptions))
      then RawOptions.setOut (Some (pathJoin [cwd w; "output-apps"])) rawOptions
      else rawOptions in
  let finalOutDirectory := asString (RawOptions.out rawOptions) in
  let (upgrading, rawOptions) := isUpgrade rawOptions in
  if upgrading then
    log Debug [Text "Attempting to upgrade from";
               Maybe (RawOptions.upgradeFrom rawOptions)] ;;
    match findUpgradeApp w (asString (RawOptions.upgradeFrom rawOptions)) with
    | None =>
      throw (mkError ("Could not find an old Nativfier app in " ++ Js.dquote
                      ++ asString (RawOptions.upgradeFrom rawOptions) ++ Js.dquote))
    | Some oldApp =>
      let rawOptions := useOldAppOptions rawOptions oldApp in
      match RawOptions.out rawOptions with
      | None =>
        if Js.truthyBool (RawOptions.overwrite rawOptions) then
          tmp <- tempDir "appUpgrade" 493 ;;
          ret (RawOptions.setOut (Some tmp) rawOptions,
               UpgradeAppInfo.appRoot oldApp)
        else ret (rawOptions, finalOutDirectory)
      | Some _ => ret (rawOptions, finalOutDirectory)
      end
    end
  else ret (rawOptions, finalOutDirectory).

(** lines 261-300: everything up to the resolved options *)
Definition resolveStage (rawOptions : RawOptions.t)
  : M (RawOptions.t * string * AppOptions.t) :=
  (if Js.truthyBool (RawOptions.quiet rawOptions)
   then emit (SetLevel "silent") else ret tt) ;;
  log Warn [Text greeting] ;;
  log Info [Text "
Processing options..."] ;;
  upgraded <- upgradeStage rawOptions ;;
  let (rawOptions, finalOutDirectory) := upgraded in
  log Debug [Text "rawOptions"; ShowRaw rawOptions] ;;
  options <- perform (GetOptions rawOptions) (fun tr => getOptions w tr rawOptions) ;;
  log Debug [Text "options"; ShowOptions options] ;;
  ret (rawOptions, finalOutDirectory, options).

Definition needsAdmin : Error :=
  mkError "Building an app with a target platform of Mac on a Windows machine requires admin priveleges to perform. Please rerun this command in an admin command prompt.".

(** lines 302-316: extracting the Electron archive for a Mac target
    needs symbolic links, which on Windows only an administrator makes *)
Definition platformGuard (options : AppOptions.t) : M unit :=
  if isPlatform (Packager.platform (AppOptions.packager options)) "darwin"
     && isWindows w
  then
    if negb (isWindowsAdmin w) then throw needsAdmin else ret tt
  else ret tt.

(** lines 318-334: staging, icons, constraint filter, packaging *)
Definition packageStage (rawOptions : RawOptions.t) (options : AppOptions.t)
  : M (AppOptions.t * PathResult) :=
  log Info [Text "
Preparing Electron app..."] ;;
  tmpPath <- tempDir "app" 493 ;;
  perform (PrepareElectronApp (Packager.dir (AppOptions.packager options)) tmpPath options)
          (fun tr => prepareElectronApp w tr
                       (Packager.dir (AppOptions.packager options)) tmpPath options) ;;
  log Info [Text "
Converting icons..."] ;;
  let options :=
      AppOptions.setPackager (Packager.setDir tmpPath (AppOptions.packager options))
                             options in
  options <- perform (ConvertIcon options)
                     (fun tr => Returned (convertIconIfNecessary w tr options)) ;;
  copyIconsIfNecessary options tmpPath ;;
  let options :=
      AppOptions.setPackager
        (Packager.setQuiet
           (Some (negb (Js.truthyBool (RawOptions.verbose rawOptions))))
           (AppOptions.packager options))
        options in
  log Info [Text "
Packaging... This will take a few seconds, maybe minutes if the requested Electron isn't cached yet..."] ;;
  options <- trimUnprocessableOptions options ;;
  emit InitializeProxy ;;
  appPathArray <- perform (ElectronPackager (AppOptions.packager options))
                          (fun tr => electronPackager w tr (AppOptions.packager options)) ;;
  ret (options, appPathArray).

Definition noAppPath : Error := mkError "App Path could not be determined.".

(** lines 336-341: the path of the packaged app, or the failure of a
    packaging that produced none *)
Definition appPathStage (appPathArray : PathResult) : M string :=
  log Info [Text "
Finalizing build..."] ;;
  appPath <- getAppPath appPathArray ;;
  match appPath with
  | Some (String c s) => ret (String c s)
  | _ => throw noAppPath
  end.

(** [`${options.packager.name ?? ''}.app`] *)
Definition bundleName (options : AppOptions.t) : string :=
  Js.nullish (Packager.name (AppOptions.packager options)) "" ++ ".app".

(** the copy of lines 366-379 *)
Definition upgradeCopyOptions (options : AppOptions.t) : option CopyOptions :=
  Some {| copyOverwrite := Packager.overwrite (AppOptions.packager options);
          preserveTimestamps := true |}.

(** lines 343-382: an overwriting upgrade moves the build onto
    [finalOutDirectory]; yields the final [appPath] *)
Definition upgradeFinalize (options : AppOptions.t)
           (appPath finalOutDirectory : string) : M string :=
  let packager := AppOptions.packager options in
  if Js.truthyBool (Packager.upgrade packager)
     && Js.truthyStr (Packager.upgradeFrom packager)
     && Js.truthyBool (Packager.overwrite packager)
  then
    (if isPlatform (Packager.platform packager) "darwin" then
       tryCatch
         (fsCall (Remove (pathJoin [finalOutDirectory; bundleName options;
                                    "Contents"; "Frameworks"])))
         (fun err =>
            log Warn [Text "Encountered an error when attempting to pre-delete old frameworks:";
                      Caught err]) ;;
       fsCall (Copy (pathJoin [appPath; bundleName options])
                    (pathJoin [finalOutDirectory; bundleName options])
                    (upgradeCopyOptions options))
     else
       fsCall (Copy appPath finalOutDirectory (upgradeCopyOptions options))) ;;
    fsCall (Remove appPath) ;;
    ret finalOutDirectory
  else ret appPath.

(** lines 384-394: desktop launcher and install for a Linux target *)
Definition linuxFinalize (options : AppOptions.t) (appPath : string) : M unit :=
  let packager := AppOptions.packager options in
  if isPlatform (Packager.platform packager) "linux" then
    match Packager.name packager, Packager.targetUrl packager with
    | Some (String c n), Some (String d u) =>
      createLinuxDesktopLauncher appPath (String c n) (String d u) ;;
      installLinuxApp appPath (String c n)
    | _, _ => ret tt
    end
  else ret tt.

(** lines 384-401: the end of the build once [appPath] is final *)
Definition finishStage (options : AppOptions.t) (appPath : string) : M string :=
  linuxFinalize options appPath ;;
  let osRunHelp := getOSRunHelp (Packager.platform (AppOptions.packager options)) in
  log Info [Text ("App built to " ++ appPath
                  ++ ", move to wherever it makes sense for you and run " ++ osRunHelp)] ;;
  ret appPath.

(** lines 261-382: the build up to the final [appPath] *)
Definition packagedApp (rawOptions : RawOptions.t) : M (AppOptions.t * string) :=
  resolved <- resolveStage rawOptions ;;
  let '(rawOptions, finalOutDirectory, options) := resolved in
  platformGuard options ;;
  packaged <- packageStage rawOptions options ;;
  let (options, appPathArray) := packaged in
  appPath <- appPathStage appPathArray ;;
  appPath <- upgradeFinalize options appPath finalOutDirectory ;;
  ret (options, appPath).

Definition buildNativefierApp (rawOptions : RawOptions.t) : M string :=
  packaged <- packagedApp rawOptions ;;
  finishStage (fst packaged) (snd packaged).

End Build.

(** ** Concrete hosts and requests, used to run the build *)

Module Scenario.

(** a resolver that carries the request's properties over *)
Definition resolve (r : RawOptions.t) : AppOptions.t :=
  AppOptions.mk
    (Nativefier.mk (RawOptions.tray r) [])
    (Packager.mk "/usr/lib/node_modules/nativefier/app"
                 (RawOptions.icon r)
                 (Some (Js.nullish (RawOptions.platform r) "linux"))
                 (RawOptions.name r)
                 (RawOptions.targetUrl r)
                 (Some (match RawOptions.upgrade r with
                        | UpgradeUnset => false
                        | _ => true
                        end))
                 (RawOptions.upgradeFrom r)
                 (RawOptions.overwrite r)
                 None
                 [])
    [].

Definition blank : RawOptions.t :=
  RawOptions.mk None None UpgradeUnset None None None None None None None None.

(** the configuration saved inside the prior install at [/opt/OldApp] *)
Definition savedConfig : RawOptions.t :=
  RawOptions.mk None None UpgradeUnset None None None
                (Some "OldApp") (Some "https://example.com") (Some "linux")
                None None.

Definition oldApp : UpgradeAppInfo.t :=
  UpgradeAppInfo.mk "/opt/OldApp" savedConfig.

(** a host on which every call to the outside succeeds; the packaging
    engine answers [engine] *)
Definition host (os : string) (admin wine : bool) (engine : PathResult) : World :=
  {| path := Posix.api;
     osPlatform := os;
     isWindowsAdmin := admin;
     hasWine := wine;
     cwd := "/home/user";
     homedir := "/home/user";
     getuid := Some 1000%Z;
     getgid := Some 1000%Z;
     findUpgradeApp := fun p => if (p =? "/opt/OldApp")%string then Some oldApp else None;
     getTempDir := fun _ prefix _ => Returned ("/tmp/nativefier-" ++ prefix);
     getOptions := fun _ r => Returned (resolve r);
     prepareElectronApp := fun _ _ _ _ => Returned tt;
     convertIconIfNecessary := fun _ o => o;
     electronPackager := fun _ _ => Returned engine;
     fs := fun _ _ => Returned tt;
     readdir := fun _ _ => Returned ["MyApp"; "resources"];
     spawnSync := fun _ _ _ => Returned (Some 0%Z);
     importModule := fun _ _ => Returned tt |}.

Definition linuxHost : World :=
  host "linux" false false (PathArray ["/home/user/output-apps/OldApp-linux-x64"]).

(** a Linux host packaging the request [macRequest] *)
Definition linuxBuilder : World :=
  host "linux" false false (PathArray ["/home/user/output-apps/MyApp-darwin-x64"]).

(** the same host with a file system on which every operation fails *)
Definition brokenDisk : World :=
  {| path := Posix.api;
     osPlatform := "linux";
     isWindowsAdmin := false;
     hasWine := false;
     cwd := "/home/user";
     homedir := "/home/user";
     getuid := None;
     getgid := None;
     findUpgradeApp := fun _ => None;
     getTempDir := fun _ prefix _ => Returned ("/tmp/nativefier-" ++ prefix);
     getOptions := fun _ r => Returned (resolve r);
     prepareElectronApp := fun _ _ _ _ => Returned tt;
     convertIconIfNecessary := fun _ o => o;
     electronPackager := fun _ _ => Returned (PathArray ["/tmp/out/MyApp-linux-x64"]);
     fs := fun _ _ => Threw (mkError "EACCES: permission denied");
     readdir := fun _ _ => Threw (mkError "ENOENT: no such file or directory");
     spawnSync := fun _ _ _ => Returned (Some 1%Z);
     importModule := fun _ _ => Returned tt |}.

Definition windowsHost (admin : bool) : World :=
  host "win32" admin false (PathArray ["C:/out/MyApp-darwin-x64"]).

(** [nativefier --upgrade /opt/OldApp --overwrite] *)
Definition upgradeRequest : RawOptions.t :=
  RawOptions.mk None None (UpgradePath "/opt/OldApp") None (Some true) None
                None None None None None.

(** [nativefier https://example.com --name MyApp --platform darwin] *)
Definition macRequest : RawOptions.t :=
  RawOptions.mk None None UpgradeUnset None None None
                (Some "MyApp") (Some "https://example.com") (Some "darwin")
                None None.

(** [nativefier https://example.com --name MyApp --platform windows
    --icon /x/icon.ico], resolved *)
Definition windowsWithIcon : AppOptions.t :=
  AppOptions.mk
    (Nativefier.mk None [])
    (Packager.mk "/tmp/nativefier-app" (Some "/x/icon.ico") (Some "win32")
                 (Some "MyApp") (Some "https://example.com")
                 (Some false) None None (Some true)
                 [("appCopyright", Js.VString "(c) Example");
                  ("appVersion", Js.VString "1.0.0")])
    [].

Definition withIcon (platform : string) (icon : option string) (tray : option string)
  : AppOptions.t :=
  AppOptions.mk
    (Nativefier.mk tray [])
    (Packager.mk "/tmp/nativefier-app" icon (Some platform)
                 (Some "MyApp") (Some "https://example.com")
                 (Some false) None None (Some true) [])
    [].

(** [nativefier https://example.com --name MyApp --platform linux] *)
Definition linuxRequest : RawOptions.t :=
  RawOptions.mk None (Some "/tmp/out") UpgradeUnset None None None
                (Some "MyApp") (Some "https://example.com") (Some "linux")
                None None.

(** a Linux build for which no target URL was resolved *)
Definition linuxWithoutUrl : AppOptions.t :=
  AppOptions.mk
    (Nativefier.mk None [])
    (Packager.mk "/tmp/nativefier-app" None (Some "linux")
                 (Some "MyApp") None (Some false) None None (Some true) [])
    [].

(** an overwriting upgrade of the install at [/opt/OldApp], resolved for
    the target [platform] *)
Definition overwritingUpgrade (platform : string) : AppOptions.t :=
  AppOptions.mk
    (Nativefier.mk None [])
    (Packager.mk "/tmp/nativefier-app" None (Some platform)
                 (Some "OldApp") (Some "https://example.com")
                 (Some true) (Some "/opt/OldApp") (Some true) (Some true) [])
    [].

(** a host on which the frameworks of the old bundle cannot be removed *)
Definition stuckFrameworks : World :=
  {| path := Posix.api;
     osPlatform := "darwin";
     isWindowsAdmin := false;
     hasWine := false;
     cwd := "/Users/user";
     homedir := "/Users/user";
     getuid := Some 501%Z;
     getgid := Some 20%Z;
     findUpgradeApp := fun p => if (p =? "/opt/OldApp")%string then Some oldApp else None;
     getTempDir := fun _ prefix _ => Returned ("/tmp/nativefier-" ++ prefix);
     getOptions := fun _ r => Returned (resolve r);
     prepareElectronApp := fun _ _ _ _ => Returned tt;
     convertIconIfNecessary := fun _ o => o;
     electronPackager := fun _ _ => Returned (PathArray ["/tmp/nativefier-appUpgrade/OldApp-darwin-x64"]);
     fs := fun _ op =>
             match op with
             | Remove p =>
               if (p =? "/opt/OldApp/OldApp.app/Contents/Frameworks")%string
               then Threw (mkError "ELOOP: too many symbolic links encountered")
               else Returned tt
             | _ => Returned tt
             end;
     readdir := fun _ _ => Returned [];
     spawnSync := fun _ _ _ => Returned (Some 0%Z);
     importModule := fun _ _ => Returned tt |}.

End Scenario.

(** ** Observations on traces *)

Definition isStaging (ev : Event) : bool :=
  match ev with
  | PrepareElectronApp _ _ _ => true
  | _ => false
  end.

(** whether the app has been staged, that is [prepareElectronApp] called *)
Definition staged (tr : Trace) : bool := existsb isStaging tr.

(** no tab, line feed, vertical tab, form feed, carriage return or space *)
Definition noSpace1 (s : string) : bool :=
  forallb (fun c => negb (Js.space1 c)) (list_ascii_of_string s).

(** a file sits beside a directory when both have the same parent, and
    inside it when the directory is its parent *)
Definition besideDirectory (p : PathApi) (dir file : string) : Prop :=
  dirname p file = dirname p dir.

Definition insideDirectory (p : PathApi) (dir file : string) : Prop :=
  dirname p file = dir.

(** ** Footprints: the events a computation can add to the trace *)

(** [emits P c]: whatever the trace it starts from, [c] only appends
    events, and every event it appends satisfies [P] *)
Definition emits {A : Type} (P : Event -> bool) (c : M A) : Prop :=
  forall tr : Trace,
    exists evs : list Event,
      snd (c tr) = (tr ++ evs)%list /\ forallb P evs = true.

Definition isLog (ev : Event) : bool :=
  match ev with
  | Log _ _ | SetLevel _ => true
  | _ => false
  end.

(** a call of [log.debug], [log.info] or [log.warn] *)
Definition isLogCall (ev : Event) : bool :=
  match ev with
  | Log _ _ => true
  | _ => false
  end.

Definition isResolver (ev : Event) : bool :=
  match ev with
  | GetOptions _ => true
  | _ => false
  end.

Definition isEngine (ev : Event) : bool :=
  match ev with
  | ElectronPackager _ => true
  | _ => false
  end.

Definition isSpawn (ev : Event) : bool :=
  match ev with
  | SpawnSync _ _ => true
  | _ => false
  end.

(** a direct removal or copy through [fs-extra] *)
Definition isDirectCopy (ev : Event) : bool :=
  match ev with
  | Fs (Remove _) | Fs (Copy _ _ _) => true
  | _ => false
  end.

(** what only the Linux finalization does: reading the build directory,
    writing and marking desktop entries, creating the applications
    directory, loading [child_process] and [os], running [sudo] *)
Definition isFinalization (ev : Event) : bool :=
  match ev with
  | Readdir _ | SpawnSync _ _ | ImportModule _ => true
  | Fs (WriteFile _ _) | Fs (Chmod _ _) | Fs (EnsureDir _) => true
  | _ => false
  end.

(** writing or marking a desktop entry *)
Definition isDesktopEntryWrite (ev : Event) : bool :=
  match ev with
  | Fs (WriteFile _ _) | Fs (Chmod _ _) | Fs (EnsureDir _) => true
  | _ => false
  end.

(** the events of the stages that precede the Linux finalization *)
Definition isPackaging (ev : Event) : bool := negb (isFinalization ev).

(** the events of the icon copy *)
Definition isIconCopyEvent (ev : Event) : bool :=
  match ev with
  | Log _ _ | Fs (Copy _ _ _) => true
  | _ => false
  end.

(** the events of the packaging stage *)
Definition isPackageStageEvent (ev : Event) : bool :=
  match ev with
  | Log _ _ | GetTempDir _ _ | PrepareElectronApp _ _ _ | ConvertIcon _
  | Fs (Copy _ _ _) | InitializeProxy | ElectronPackager _ => true
  | _ => false
  end.

(** the events of the end of the build *)
Definition isFinishEvent (ev : Event) : bool :=
  isFinalization ev || isLog ev || isDirectCopy ev.

(** how many events of the kind [Q] *)
Definition count (Q : Event -> bool) (evs : list Event) : nat :=
  length (filter Q evs).

(** [tally Q n c]: [c] only appends events; a run of [c] that returns has
    appended exactly [n] events of the kind [Q], a run that throws at most
    [n] *)
Definition tally {A : Type} (Q : Event -> bool) (n : nat) (c : M A) : Prop :=
  forall tr : Trace,
    exists evs : list Event,
      snd (c tr) = (tr ++ evs)%list
      /\ count Q evs <= n
      /\ (forall a : A, fst (c tr) = Returned a -> count Q evs = n).

(** [follows P R c]: [c] only appends events, each of which satisfies
    [P], and what [c] returns satisfies [R] *)
Definition follows {A : Type} (P : Event -> Prop) (R : A -> Prop) (c : M A) : Prop :=
  forall tr : Trace,
    exists evs : list Event,
      snd (c tr) = (tr ++ evs)%list
      /\ Forall P evs
      /\ (forall a : A, fst (c tr) = Returned a -> R a).

(** the configuration the packaging engine may be called with once the
    app is staged for the request [rawOptions]: its directory is one that
    [getTempDir] answered for the prefix [app], and it is quiet unless the
    request is verbose *)
Definition engineConfigOk (w : World) (rawOptions : RawOptions.t) (ev : Event) : Prop :=
  forall pk : Packager.t,
    ev = ElectronPackager pk ->
    Packager.quiet pk = Some (negb (Js.truthyBool (RawOptions.verbose rawOptions)))
    /\ exists t : Trace, getTempDir w t "app" 493 = Returned (Packager.dir pk).

(** bytes below 128 that are no blank *)
Definition plainAscii (s : string) : bool :=
  forallb (fun c => (Js.byte c <? 128)%nat && negb (Js.space1 c))
          (list_ascii_of_string s).

(** the manual instructions [installLinuxApp] logs when it gives up *)
Definition manualInstall : Event :=
  Log Info [Text "You can manually copy the app to /opt and the .desktop file to ~/.local/share/applications/"].

(** the first path of what the packaging engine resolved to *)
Definition firstPath (r : PathResult) : option string :=
  match r with
  | OnePath p => Some p
  | PathArray [] => None
  | PathArray (p :: _) => Some p
  end.

(** the error of an upgrade whose prior install is not found *)
Definition upgradeNotFound (p : string) : Error :=
  mkError ("Could not find an old Nativfier app in " ++ Js.dquote ++ p ++ Js.dquote).

(** ** More hosts and requests *)

Module Cases.

(** [nativefier --upgrade /opt/Missing] where nothing is installed *)
Definition missingUpgrade : RawOptions.t :=
  RawOptions.mk (Some true) None (UpgradePath "/opt/Missing") None None None
                None None None None None.

(** a host whose options resolver rejects every request, whose stager
    fails, and on which [sudo cp] fails *)
Definition rejecting : World :=
  {| path := Posix.api;
     osPlatform := "linux";
     isWindowsAdmin := false;
     hasWine := false;
     cwd := "/home/user";
     homedir := "/home/user";
     getuid := Some 1000%Z;
     getgid := Some 1000%Z;
     findUpgradeApp := fun _ => None;
     getTempDir := fun _ prefix _ => Returned ("/tmp/nativefier-" ++ prefix);
     getOptions := fun _ _ => Threw (mkError "Unsupported platform");
     prepareElectronApp := fun _ _ _ _ => Threw (mkError "ENOSPC: no space left on device");
     convertIconIfNecessary := fun _ o => o;
     electronPackager := fun _ _ => Threw (mkError "Electron download failed");
     fs := fun _ op =>
             match op with
             | Copy _ _ _ => Threw (mkError "EACCES: permission denied")
             | _ => Returned tt
             end;
     readdir := fun _ _ => Returned [];
     spawnSync := fun _ _ args =>
                    match args with
                    | "cp" :: _ => Returned (Some 1%Z)
                    | "rm" :: _ => Returned None
                    | _ => Returned (Some 0%Z)
                    end;
     importModule := fun _ _ => Returned tt |}.

(** a host run by root *)
Definition asRoot : World :=
  {| path := Posix.api;
     osPlatform := "linux";
     isWindowsAdmin := false;
     hasWine := false;
     cwd := "/root";
     homedir := "/root";
     getuid := Some 0%Z;
     getgid := Some 0%Z;
     findUpgradeApp := fun _ => None;
     getTempDir := fun _ prefix _ => Returned ("/tmp/nativefier-" ++ prefix);
     getOptions := fun _ r => Returned (Scenario.resolve r);
     prepareElectronApp := fun _ _ _ _ => Returned tt;
     convertIconIfNecessary := fun _ o => o;
     electronPackager := fun _ _ => Returned (PathArray ["/tmp/out/MyApp-linux-x64"]);
     fs := fun _ _ => Returned tt;
     readdir := fun _ _ => Returned ["MyApp"];
     spawnSync := fun _ _ _ => Returned (Some 0%Z);
     importModule := fun _ _ => Returned tt |}.

(** a host on which [sudo rm] and [sudo chown] fail and [sudo cp] works *)
Definition stubbornOpt : World :=
  {| path := Posix.api;
     osPlatform := "linux";
     isWindowsAdmin := false;
     hasWine := false;
     cwd := "/home/user";
     homedir := "/home/user";
     getuid := Some 1000%Z;
     getgid := Some 1000%Z;
     findUpgradeApp := fun _ => None;
     getTempDir := fun _ prefix _ => Returned ("/tmp/nativefier-" ++ prefix);
     getOptions := fun _ r => Returned (Scenario.resolve r);
     prepareElectronApp := fun _ _ _ _ => Returned tt;
     convertIconIfNecessary := fun _ o => o;
     electronPackager := fun _ _ => Returned (PathArray ["/tmp/out/MyApp-linux-x64"]);
     fs := fun _ _ => Returned tt;
     readdir := fun _ _ => Returned ["MyApp"];
     spawnSync := fun _ _ args =>
                    Returned (match args with
                              | "cp" :: _ => Some 0%Z
                              | "rm" :: _ => Some 1%Z
                              | _ => None
                              end);
     importModule := fun _ _ => Returned tt |}.

(** [nativefier https://example.com --name MyApp --verbose] *)
Definition verboseRequest : RawOptions.t :=
  RawOptions.mk None (Some "/tmp/out") UpgradeUnset None None (Some true)
                (Some "MyApp") (Some "https://example.com") (Some "linux")
                None None.

End Cases.

(** * The app side: values that cross the process boundary

    The main process and the preload script exchange values they know
    nothing about ([unknown]): they test their type and pick properties.
    A number is carried around and never computed with, so its type is a
    parameter. *)

Module Dyn.

Section Values.

Variable number : Type.

Local Set Warnings "-register-all".

Inductive value : Type :=
| Undefined
| Null
| Bool (b : bool)
| Num (n : number)
| Str (s : string)
| Arr (items : list value)
| Obj (props : list (string * value))
| Other.                         (* a function, a symbol, a bigint *)

(** [typeof v === 'string'] *)
Definition isString (v : value) : bool :=
  match v with
  | Str _ => true
  | _ => false
  end.

(** [v && typeof v === 'object'] *)
Definition isObject (v : value) : bool :=
  match v with
  | Arr _ | Obj _ => true
  | _ => false
  end.

(** the first binding of a key among the own properties *)
Fixpoint lookup (k : string) (props : list (string * value)) : option value :=
  match props with
  | [] => None
  | (k', v) :: rest => if (k' =? k)%string then Some v else lookup k rest
  end.

(** [k in v] for a truthy object [v] and a key [k] that is neither an
    index nor defined by a prototype *)
Definition hasProp (k : string) (v : value) : bool :=
  match v with
  | Obj props =>
    match lookup k props with
    | Some _ => true
    | None => false
    end
  | _ => false
  end.

(** [v[k]] for such a key and a value other than [null] and [undefined] *)
Definition getProp (k : string) (v : value) : value :=
  match v with
  | Obj props =>
    match lookup k props with
    | Some x => x
    | None => Undefined
    end
  | _ => Undefined
  end.

(** [v ?? d] *)
Definition orElse (v d : value) : value :=
  match v with
  | Undefined | Null => d
  | _ => v
  end.

(** [v === undefined || v === null] *)
Definition isNullish (v : value) : bool :=
  match v with
  | Undefined | Null => true
  | _ => false
  end.

(** [{...props, [k]: v}] *)
Fixpoint setProp (k : string) (v : value) (props : list (string * value))
  : list (string * value) :=
  match props with
  | [] => [(k, v)]
  | (k', v') :: rest =>
    if (k' =? k)%string then (k, v) :: rest else (k', v') :: setProp k v rest
  end.

End Values.

Arguments Undefined {number}.
Arguments Null {number}.
Arguments Bool {number} b.
Arguments Num {number} n.
Arguments Str {number} s.
Arguments Arr {number} items.
Arguments Obj {number} props.
Arguments Other {number}.
Arguments isString {number} v.
Arguments isObject {number} v.
Arguments lookup {number} k props.
Arguments hasProp {number} k v.
Arguments getProp {number} k v.
Arguments orElse {number} v d.
Arguments isNullish {number} v.
Arguments setProp {number} k v props.

End Dyn.

(** computations over any kind of event, as [M] is over [Event] *)
Module Eff.

Section Over.

Variable E : Type.

Definition Run (A : Type) : Type := list E -> Outcome A * list E.

Definition ret {A : Type} (a : A) : Run A := fun tr => (Returned a, tr).

Definition throw {A : Type} (e : Error) : Run A := fun tr => (Threw e, tr).

Definition bind {A B : Type} (c : Run A) (k : A -> Run B) : Run B :=
  fun tr =>
    match c tr with
    | (Returned a, tr') => k a tr'
    | (Threw e, tr') => (Threw e, tr')
    end.

Definition tryCatch {A : Type} (body : Run A) (handler : Error -> Run A) : Run A :=
  fun tr =>
    match body tr with
    | (Returned a, tr') => (Returned a, tr')
    | (Threw e, tr') => handler e tr'
    end.

(** a call to the outside, recorded, whose answer may depend on the trace *)
Definition perform {A : Type} (ev : E) (answer : list E -> Outcome A) : Run A :=
  fun tr => (answer tr, (tr ++ [ev])%list).

(** an event without answer *)
Definition emit (ev : E) : Run unit :=
  fun tr => (Returned tt, (tr ++ [ev])%list).

(** [follows P R c]: [c] only appends events, each of which satisfies
    [P], and what [c] returns satisfies [R] *)
Definition follows {A : Type} (P : E -> Prop) (R : A -> Prop) (c : Run A) : Prop :=
  forall tr : list E,
    exists evs : list E,
      snd (c tr) = (tr ++ evs)%list
      /\ Forall P evs
      /\ (forall a : A, fst (c tr) = Returned a -> R a).

End Over.

Arguments follows {E A} P R c.
Arguments ret {E A} a.
Arguments throw {E A} e.
Arguments bind {E A B} c k.
Arguments tryCatch {E A} body handler.
Arguments perform {E A} ev answer.
Arguments emit {E} ev.

End Eff.

(** * The main window ([app/src/components/mainWindow.ts]) *)

Module MainWindow.

Section Main.

Variable number : Type.

Local Abbreviation value := (Dyn.value number).

(** [NormalizedNotificationPayload]; an absent [id] is [undefined] *)
Record NormalizedNotificationPayload : Type := {
  id : value;
  title : string;
  options : value
}.

(** [normalizeRendererNotificationPayload]; [None] is [null], and an
    absent [legacyOptions] is [undefined] *)
Definition normalizeRendererNotificationPayload (rawPayload legacyOptions : value)
  : option NormalizedNotificationPayload :=
  match rawPayload with
  | Dyn.Str s =>
    Some {| id := Dyn.Undefined;
            title := s;
            options := Dyn.orElse legacyOptions (Dyn.Obj []) |}
  | _ =>
    if Dyn.isObject rawPayload && Dyn.hasProp "title" rawPayload
    then
      match Dyn.getProp "title" rawPayload with
      | Dyn.Str t =>
        Some {| id := Dyn.getProp "id" rawPayload;
                title := t;
                options := Dyn.orElse (Dyn.getProp "options" rawPayload) (Dyn.Obj []) |}
      | _ => None
      end
    else None
  end.

(** [extractNotificationId]; [None] is [undefined] *)
Definition extractNotificationId (payload : value) : option number :=
  match payload with
  | Dyn.Num n => Some n
  | _ =>
    if Dyn.isObject payload then
      match Dyn.getProp "id" payload with
      | Dyn.Num n => Some n
      | _ => None
      end
    else None
  end.

(** [a || b] on strings *)
Definition orString (a b : string) : string :=
  match a with
  | EmptyString => b
  | _ => a
  end.

(** the title a native notification is created with: the [notification]
    handler passes [normalized.title || options.name || 'Notification'],
    and [showNativeNotification] applies
    [title || buildOptions.name || 'Notification'] to it *)
Definition nativeNotificationTitle (normalizedTitle : string) (name : option string)
  : string :=
  let passed := orString (orString normalizedTitle (Js.nullish name "")) "Notification" in
  orString (orString passed (Js.nullish name "")) "Notification".

(** *** The [session-interaction] handler *)

(** [SessionInteractionRequest], as it arrives *)
Record SessionInteractionRequest : Type := {
  requestId : value;
  func : value;
  funcArgs : value;
  property : value;
  propertyValue : value
}.

(** what a call on the session gives back: a value or a promise *)
Inductive CallResult : Type :=
| Value (v : value)
| Promise.

(** [SessionInteractionResult] *)
Record SessionInteractionResult : Type := {
  resultId : value;
  resultValue : CallResult;
  resultError : option Error
}.

Inductive SessionEvent : Type :=
| LogDebug (tag : string)
| LogError (tag : string) (e : Error)
| SessionCall (func args : value)
| SessionSet (property v : value)
| SessionGet (property : value)
| Reply (r : SessionInteractionResult).

(** the Electron session and the IPC reply channel *)
Record SessionWorld : Type := {
  sessionCall : list SessionEvent -> value -> value -> Outcome CallResult;
  sessionSet : list SessionEvent -> value -> value -> Outcome unit;
  sessionGet : list SessionEvent -> value -> Outcome value;
  (** [event.reply] serializes the result, which may throw *)
  reply : list SessionEvent -> SessionInteractionResult -> Outcome unit
}.

Variable sw : SessionWorld.

(** [typeof v[Symbol.iterator] === 'function'], for the plain data that
    IPC carries *)
Definition isIterable (v : value) : bool :=
  match v with
  | Dyn.Str _ | Dyn.Arr _ => true
  | _ => false
  end.

(** the arguments as the handler leaves them in [request.funcArgs] *)
Definition normalizedFuncArgs (funcArgs : value) : value :=
  let funcArgs := if Dyn.isNullish funcArgs then Dyn.Arr [] else funcArgs in
  if negb (isIterable funcArgs) then Dyn.Arr [funcArgs] else funcArgs.

Definition neitherFuncNorProperty : Error :=
  mkError "Received neither a func nor a property in the request. Unable to process.".

Definition sendReply (r : SessionInteractionResult) : Eff.Run SessionEvent unit :=
  Eff.perform (Reply r) (fun tr => reply sw tr r).

(** the body of the [try] of the handler; yields nothing, having replied
    unless a promise is awaited *)
Definition sessionInteractionBody (request : SessionInteractionRequest)
  : Eff.Run SessionEvent unit :=
  let result := {| resultId := requestId request;
                   resultValue := Value Dyn.Undefined;
                   resultError := None |} in
  Eff.bind
    (match func request with
     | Dyn.Undefined =>
       match property request with
       | Dyn.Undefined => Eff.throw neitherFuncNorProperty
       | _ =>
         Eff.bind
           (match propertyValue request with
            | Dyn.Undefined => Eff.ret tt
            | v => Eff.perform (SessionSet (property request) v)
                               (fun tr => sessionSet sw tr (property request) v)
            end)
           (fun _ =>
              Eff.bind
                (Eff.perform (SessionGet (property request))
                             (fun tr => sessionGet sw tr (property request)))
                (fun v => Eff.ret (Value v, false)))
       end
     | f =>
       let args := normalizedFuncArgs (funcArgs request) in
       Eff.bind
         (Eff.perform (SessionCall f args) (fun tr => sessionCall sw tr f args))
         (fun r =>
            match r with
            | Promise => Eff.ret (Promise, true)
            | Value v => Eff.ret (Value v, false)
            end)
     end)
    (fun outcome =>
       let (v, awaitingPromise) := outcome : CallResult * bool in
       if awaitingPromise then Eff.ret tt
       else
         Eff.bind (Eff.emit (LogDebug "session-interaction:result"))
                  (fun _ => sendReply {| resultId := resultId result;
                                         resultValue := v;
                                         resultError := None |})).

(** the handler of [session-interaction] *)
Definition onSessionInteraction (request : SessionInteractionRequest)
  : Eff.Run SessionEvent unit :=
  Eff.bind (Eff.emit (LogDebug "ipcMain.session-interaction"))
           (fun _ =>
              Eff.tryCatch
                (sessionInteractionBody request)
                (fun err =>
                   Eff.bind (Eff.emit (LogError "session-interaction:error" err))
                            (fun _ => sendReply {| resultId := requestId request;
                                                   resultValue := Value Dyn.Undefined;
                                                   resultError := Some err |}))).

(** an access to the Electron session *)
Definition isSessionAccess (ev : SessionEvent) : bool :=
  match ev with
  | SessionCall _ _ | SessionSet _ _ | SessionGet _ => true
  | _ => false
  end.

End Main.

Arguments id {number} n.
Arguments title {number} n.
Arguments options {number} n.
Arguments normalizeRendererNotificationPayload {number} rawPayload legacyOptions.
Arguments extractNotificationId {number} payload.
Arguments Value {number} v.
Arguments Promise {number}.
Arguments LogDebug {number} tag.
Arguments LogError {number} tag e.
Arguments SessionCall {number} func args.
Arguments SessionSet {number} property v.
Arguments SessionGet {number} property.
Arguments Reply {number} r.

Arguments isSessionAccess {number} ev.
Arguments isIterable {number} v.
Arguments normalizedFuncArgs {number} funcArgs.
Arguments neitherFuncNorProperty : clear implicits.
Arguments sessionInteractionBody {number} sw request.
Arguments onSessionInteraction {number} sw request.
Arguments requestId {number} s.
Arguments func {number} s.
Arguments funcArgs {number} s.
Arguments property {number} s.
Arguments propertyValue {number} s.
Arguments resultId {number} s.
Arguments resultValue {number} s.
Arguments resultError {number} s.

End MainWindow.

(** concrete sessions and requests *)
Module MainCases.

(** a session whose [getUserAgent] answers and whose [clearCache] gives a
    promise; the first reply cannot be serialized *)
Definition session : MainWindow.SessionWorld Z :=
  {| MainWindow.sessionCall :=
       fun _ f _ =>
         match f with
         | Dyn.Str "getUserAgent" => Returned (MainWindow.Value (Dyn.Str "Mozilla/5.0"))
         | Dyn.Str "clearCache" => Returned MainWindow.Promise
         | _ => Threw (mkError "TypeError: window.webContents.session[request.func] is not a function")
         end;
     MainWindow.sessionSet := fun _ _ _ => Returned tt;
     MainWindow.sessionGet := fun _ _ => Returned Dyn.Other;
     MainWindow.reply :=
       fun _ r =>
         match MainWindow.resultValue r with
         | MainWindow.Value Dyn.Other => Threw (mkError "An object could not be cloned.")
         | _ => Returned tt
         end |}.

Definition request (func funcArgs property propertyValue : Dyn.value Z)
  : MainWindow.SessionInteractionRequest Z :=
  {| MainWindow.requestId := Dyn.Str "req-1";
     MainWindow.func := func;
     MainWindow.funcArgs := funcArgs;
     MainWindow.property := property;
     MainWindow.propertyValue := propertyValue |}.

End MainCases.

(** * The preload script ([app/src/preload.ts]) *)

(** [String.prototype.trim] and [String.prototype.endsWith] on the UTF-8
    encoding: [trim] removes the members of [\s], which are the white
    space and line terminators of the language *)
Module Text.

Fixpoint trimStart (s : string) : string :=
  match s with
  | EmptyString => EmptyString
  | String c1 r1 =>
    if Js.space1 c1 then trimStart r1
    else
      match r1 with
      | EmptyString => s
      | String c2 r2 =>
        if Js.space2 c1 c2 then trimStart r2
        else
          match r2 with
          | EmptyString => s
          | String c3 r3 => if Js.space3 c1 c2 c3 then trimStart r3 else s
          end
      end
  end.

(** the same on the bytes read from the end *)
Fixpoint dropSpacesFromEnd (l : list ascii) : list ascii :=
  match l with
  | [] => []
  | c1 :: r1 =>
    if Js.space1 c1 then dropSpacesFromEnd r1
    else
      match r1 with
      | [] => l
      | c2 :: r2 =>
        if Js.space2 c2 c1 then dropSpacesFromEnd r2
        else
          match r2 with
          | [] => l
          | c3 :: r3 => if Js.space3 c3 c2 c1 then dropSpacesFromEnd r3 else l
          end
      end
  end.

Definition trimEnd (s : string) : string :=
  string_of_list_ascii (rev (dropSpacesFromEnd (rev (list_ascii_of_string s)))).

Definition trim (s : string) : string := trimEnd (trimStart s).

(** [s.endsWith(suffix)] *)
Definition endsWith (s suffix : string) : bool :=
  String.prefix (string_of_list_ascii (rev (list_ascii_of_string suffix)))
                (string_of_list_ascii (rev (list_ascii_of_string s))).

End Text.

Module Preload.

(** a function of the page (an event handler or listener), known by its
    identity only *)
Definition Handler : Type := nat.

(** the three sets of listeners of a notification, each in insertion
    order *)
Record Listeners : Type := {
  click : list Handler;
  close : list Handler;
  reply : list Handler
}.

(** [RendererNotificationRecord]: the handlers the page has put on the
    instance ([onclick], [onclose], [onreply]) and its listeners *)
Record NotificationRecord : Type := {
  onclick : option Handler;
  onclose : option Handler;
  onreply : option Handler;
  listeners : Listeners
}.

Definition freshRecord : NotificationRecord :=
  {| onclick := None; onclose := None; onreply := None;
     listeners := {| click := []; close := []; reply := [] |} |}.

(** the variables of the module *)
Record State : Type := {
  rendererNotifications : list (Z * NotificationRecord);
  notificationCounter : Z;
  lastNotificationTime : Z;
  lastWebNotification : option (string * Z);
  lastNotifiedSoundTime : Z;
  audioNotificationsEnabled : bool
}.

Definition initial : State :=
  {| rendererNotifications := [];
     notificationCounter := 1;
     lastNotificationTime := 0;
     lastWebNotification := None;
     lastNotifiedSoundTime := 0;
     audioNotificationsEnabled := false |}.

(** [Map.prototype.get], [set] and [delete] *)
Fixpoint mapGet (id : Z) (m : list (Z * NotificationRecord)) : option NotificationRecord :=
  match m with
  | [] => None
  | (k, r) :: rest => if (k =? id)%Z then Some r else mapGet id rest
  end.

Fixpoint mapSet (id : Z) (r : NotificationRecord) (m : list (Z * NotificationRecord))
  : list (Z * NotificationRecord) :=
  match m with
  | [] => [(id, r)]
  | (k, r') :: rest =>
    if (k =? id)%Z then (k, r) :: rest else (k, r') :: mapSet id r rest
  end.

Fixpoint mapDelete (id : Z) (m : list (Z * NotificationRecord))
  : list (Z * NotificationRecord) :=
  match m with
  | [] => []
  | (k, r) :: rest =>
    if (k =? id)%Z then mapDelete id rest else (k, r) :: mapDelete id rest
  end.

(** an entry of [fs.readdirSync(dir, {withFileTypes: true})] *)
Record Dirent : Type := {
  name : string;
  isFile : bool
}.

Section Bridge.

(** numbers as the page and the IPC channel carry them, with [String(n)],
    [Boolean(n)] and the embedding of the integers *)
Variable number : Type.
Variable showNumber : number -> string.
Variable numberTruthy : number -> bool.
Variable ofInt : Z -> number.

Local Abbreviation value := (Dyn.value number).

(** [String(v)] for an array, an object, a function, a symbol, a bigint *)
Variable stringOf : value -> string.

Inductive PEvent : Type :=
| Now
| Send (channel : string) (payload : value)
| Invoke (h : Handler) (eventName : string)
| LogError (tag : string) (e : option Error)
| LogDebug (tag : string) (arg : string)
| ExistsSync (dir : string)
| ReaddirSync (dir : string)
| Require (file : string).

(** the outside of the preload script *)
Record PreloadWorld : Type := {
  (** [Date.now()] *)
  clock : list PEvent -> Z;
  (** [ipcRenderer.send], which serializes the payload *)
  send : list PEvent -> string -> value -> Outcome unit;
  (** a call of a function of the page *)
  invoke : list PEvent -> Handler -> string -> Outcome unit;
  existsSync : list PEvent -> string -> bool;
  readdirSync : list PEvent -> string -> Outcome (list Dirent);
  require : list PEvent -> string -> Outcome unit;
  nodePath : PathApi;
  (** [__dirname] *)
  scriptDirectory : string
}.

Variable pw : PreloadWorld.

(** computations on the variables of the module: a thrown error leaves
    the assignments made before it in place *)
Definition P (A : Type) : Type :=
  State -> list PEvent -> Outcome A * State * list PEvent.

Definition pret {A : Type} (a : A) : P A := fun st tr => (Returned a, st, tr).

Definition pthrow {A : Type} (e : Error) : P A := fun st tr => (Threw e, st, tr).

Definition pbind {A B : Type} (c : P A) (k : A -> P B) : P B :=
  fun st tr =>
    match c st tr with
    | (Returned a, st', tr') => k a st' tr'
    | (Threw e, st', tr') => (Threw e, st', tr')
    end.

Definition ptry {A : Type} (body : P A) (handler : Error -> P A) : P A :=
  fun st tr =>
    match body st tr with
    | (Returned a, st', tr') => (Returned a, st', tr')
    | (Threw e, st', tr') => handler e st' tr'
    end.

Definition pcall {A : Type} (ev : PEvent) (answer : list PEvent -> Outcome A) : P A :=
  fun st tr => (answer tr, st, (tr ++ [ev])%list).

Definition pemit (ev : PEvent) : P unit :=
  fun st tr => (Returned tt, st, (tr ++ [ev])%list).

Definition pget : P State := fun st tr => (Returned st, st, tr).

Definition pmodify (f : State -> State) : P unit :=
  fun st tr => (Returned tt, f st, tr).

(** [Date.now()] *)
Definition now : P Z := pcall Now (fun tr => Returned (clock pw tr)).

(** [normalizeNotificationContent]; [None] is [undefined].  The two inner
    loops look up [props] in the value and [content] in the props. *)
Fixpoint normalizeNotificationContent (v : value) : option string :=
  match v with
  | Dyn.Str s => Some s
  | Dyn.Obj props =>
    (fix inValue (l : list (string * value)) : option string :=
       match l with
       | [] => None
       | (k, pv) :: rest =>
         if (k =? "props")%string then
           match pv with
           | Dyn.Obj pprops =>
             (fix inProps (l' : list (string * value)) : option string :=
                match l' with
                | [] => None
                | (k', cv) :: rest' =>
                  if (k' =? "content")%string then
                    match cv with
                    | Dyn.Arr items =>
                      Some (Text.trim
                              (String.concat
                                 ""
                                 (map (fun contentPiece =>
                                         Js.nullish
                                           (normalizeNotificationContent contentPiece) "")
                                      items)))
                    | _ => None
                    end
                  else inProps rest'
                end) pprops
           | _ => None
           end
         else inValue rest
       end) props
  | Dyn.Num n => Some (showNumber n)
  | Dyn.Bool b => Some (if b then "true" else "false")
  | _ => None
  end.

(** [String(title ?? '')] for a title that is no text *)
Definition fallbackTitle (title : value) : string :=
  if Dyn.isNullish title then "" else stringOf title.

(** the payload of the [notification] message *)
Definition notificationPayload (id : Z) (normalizedTitle : string)
           (options : list (string * value)) (normalizedBody : option string)
  : value :=
  Dyn.Obj
    [("id", Dyn.Num (ofInt id));
     ("title", Dyn.Str normalizedTitle);
     ("options",
      Dyn.Obj (Dyn.setProp "body"
                           (match normalizedBody with
                            | Some b => Dyn.Str b
                            | None => Dyn.Undefined
                            end)
                           options))].

(** the payload of the [notification-close] message *)
Definition closePayload (id : Z) : value :=
  Dyn.Obj [("id", Dyn.Num (ofInt id))].

(** [shouldSend] of the constructor *)
Definition shouldSend (last : option (string * Z)) (normalizedTitle : string) (t : Z)
  : bool :=
  match last with
  | None => true
  | Some (lastTitle, lastTime) =>
    negb (lastTitle =? normalizedTitle)%string || (1000 <=? t - lastTime)%Z
  end.

(** [new NativefierNotification(title, options)] for an [options] object
    with the given own properties; yields the id of the instance *)
Definition construct (title : value) (options : list (string * value)) : P Z :=
  pbind pget (fun st =>
  let id := notificationCounter st in
  pbind (pmodify (fun st =>
           {| rendererNotifications := rendererNotifications st;
              notificationCounter := notificationCounter st + 1;
              lastNotificationTime := lastNotificationTime st;
              lastWebNotification := lastWebNotification st;
              lastNotifiedSoundTime := lastNotifiedSoundTime st;
              audioNotificationsEnabled := audioNotificationsEnabled st |})) (fun _ =>
  let normalizedTitle :=
      Js.nullish (normalizeNotificationContent title) (fallbackTitle title) in
  let normalizedBody :=
      normalizeNotificationContent (Dyn.getProp "body" (Dyn.Obj options)) in
  pbind (pmodify (fun st =>
           {| rendererNotifications := mapSet id freshRecord (rendererNotifications st);
              notificationCounter := notificationCounter st;
              lastNotificationTime := lastNotificationTime st;
              lastWebNotification := lastWebNotification st;
              lastNotifiedSoundTime := lastNotifiedSoundTime st;
              audioNotificationsEnabled := audioNotificationsEnabled st |})) (fun _ =>
  pbind now (fun t =>
  pbind pget (fun st =>
  if shouldSend (lastWebNotification st) normalizedTitle t then
    pbind (pmodify (fun st =>
             {| rendererNotifications := rendererNotifications st;
                notificationCounter := notificationCounter st;
                lastNotificationTime := t;
                lastWebNotification := Some (normalizedTitle, t);
                lastNotifiedSoundTime := lastNotifiedSoundTime st;
                audioNotificationsEnabled := audioNotificationsEnabled st |})) (fun _ =>
    let payload := notificationPayload id normalizedTitle options normalizedBody in
    pbind (pcall (Send "notification" payload)
                 (fun tr => send pw tr "notification" payload)) (fun _ =>
    pret id))
  else pret id))))).

(** a [TypeError]; its message is not modelled *)
Definition typeError : Error := mkError "TypeError".

(** [record.listeners[eventName]], when it is one of the three sets *)
Definition listenersFor (r : NotificationRecord) (eventName : string)
  : option (list Handler) :=
  if (eventName =? "click")%string then Some (click (listeners r))
  else if (eventName =? "close")%string then Some (close (listeners r))
  else if (eventName =? "reply")%string then Some (reply (listeners r))
  else None.

(** the loop over the listeners: an error of one is logged *)
Fixpoint notifyListeners (eventName : string) (l : list Handler) : P unit :=
  match l with
  | [] => pret tt
  | listener :: rest =>
    pbind (ptry (pcall (Invoke listener eventName)
                       (fun tr => invoke pw tr listener eventName))
                (fun err => pemit (LogError "Notification listener error" (Some err))))
          (fun _ => notifyListeners eventName rest)
  end.

(** [emitNotificationEvent]; the handlers and listeners it calls are taken
    not to call back into the bridge *)
Definition emitNotificationEvent (id : Z) (eventName : string) : P unit :=
  pbind pget (fun st =>
  match mapGet id (rendererNotifications st) with
  | None => pret tt
  | Some record =>
    let handler :=
        if (eventName =? "click")%string then onclick record
        else if (eventName =? "close")%string then onclose record
        else onreply record in
    pbind (match handler with
           | Some h => pcall (Invoke h eventName) (fun tr => invoke pw tr h eventName)
           | None => pret tt
           end) (fun _ =>
    pbind (match listenersFor record eventName with
           | Some l => notifyListeners eventName l
           | None => pthrow typeError
           end) (fun _ =>
    if (eventName =? "close")%string then
      pmodify (fun st =>
        {| rendererNotifications := mapDelete id (rendererNotifications st);
           notificationCounter := notificationCounter st;
           lastNotificationTime := lastNotificationTime st;
           lastWebNotification := lastWebNotification st;
           lastNotifiedSoundTime := lastNotifiedSoundTime st;
           audioNotificationsEnabled := audioNotificationsEnabled st |})
    else pret tt))
  end).

(** [NativefierNotification.prototype.close] *)
Definition closeNotification (id : Z) : P unit :=
  pbind (pcall (Send "notification-close" (closePayload id))
               (fun tr => send pw tr "notification-close" (closePayload id)))
        (fun _ => emitNotificationEvent id "close").

(** the handler of [play] on an audio element (lines 487-499 and
    506-517), and with another title and body the patched [start] of a
    buffer source (lines 561-573); [window.Notification] is the bridge *)
Definition onAudioPlay (title body : string) : P unit :=
  pbind pget (fun st =>
  if negb (audioNotificationsEnabled st) then pret tt
  else
    pbind now (fun t =>
    pbind pget (fun st =>
    if (2000 <? t - lastNotificationTime st)%Z && (1000 <? t - lastNotifiedSoundTime st)%Z
    then
      pbind (construct (Dyn.Str title) [("body", Dyn.Str body)]) (fun _ =>
      pmodify (fun st =>
        {| rendererNotifications := rendererNotifications st;
           notificationCounter := notificationCounter st;
           lastNotificationTime := t;
           lastWebNotification := lastWebNotification st;
           lastNotifiedSoundTime := t;
           audioNotificationsEnabled := audioNotificationsEnabled st |}))
    else pret tt))).

(** [Boolean(v)] *)
Definition truthy (v : value) : bool :=
  match v with
  | Dyn.Undefined | Dyn.Null => false
  | Dyn.Bool b => b
  | Dyn.Num n => numberTruthy n
  | Dyn.Str s => Js.truthyStr (Some s)
  | _ => true
  end.

(** lines 587-595 of the handler of [params]: the update of the flag from
    the parsed message *)
Definition onParams (windowOptions : value) : P unit :=
  if Dyn.isObject windowOptions && Dyn.hasProp "audioNotifications" windowOptions then
    pmodify (fun st =>
      {| rendererNotifications := rendererNotifications st;
         notificationCounter := notificationCounter st;
         lastNotificationTime := lastNotificationTime st;
         lastWebNotification := lastWebNotification st;
         lastNotifiedSoundTime := lastNotifiedSoundTime st;
         audioNotificationsEnabled :=
           truthy (Dyn.getProp "audioNotifications" windowOptions) |})
  else pret tt.

(** [INJECT_DIR] *)
Definition INJECT_DIR : string :=
  join (nodePath pw) [scriptDirectory pw; ".."; "inject"].

(** the scripts [injectScripts] loads, given the entries of the directory *)
Definition jsFiles (entries : list Dirent) : list string :=
  map (fun jsFileStat => join (nodePath pw) [".."; "inject"; name jsFileStat])
      (filter (fun injectFile => isFile injectFile && Text.endsWith (name injectFile) ".js")
              entries).

Fixpoint requireAll (files : list string) : P unit :=
  match files with
  | [] => pret tt
  | jsFile :: rest =>
    pbind (pemit (LogDebug "Injecting JS file" jsFile)) (fun _ =>
    pbind (pcall (Require jsFile) (fun tr => require pw tr jsFile)) (fun _ =>
    requireAll rest))
  end.

(** [injectScripts] *)
Definition injectScripts : P unit :=
  pbind (pcall (ExistsSync INJECT_DIR) (fun tr => Returned (existsSync pw tr INJECT_DIR)))
        (fun needToInject =>
  if negb needToInject then pret tt
  else
    ptry (pbind (pcall (ReaddirSync INJECT_DIR) (fun tr => readdirSync pw tr INJECT_DIR))
                (fun entries => requireAll (jsFiles entries)))
         (fun err => pemit (LogError "Error encoutered injecting JS files" (Some err)))).

(** every registered id is below the counter *)
Definition wellNumbered (st : State) : Prop :=
  forall (k : Z) (r : NotificationRecord),
    In (k, r) (rendererNotifications st) -> (k < notificationCounter st)%Z.

(** the state but for the registry and the counter *)
Definition sameTimes (st st' : State) : Prop :=
  lastNotificationTime st' = lastNotificationTime st
  /\ lastWebNotification st' = lastWebNotification st
  /\ lastNotifiedSoundTime st' = lastNotifiedSoundTime st
  /\ audioNotificationsEnabled st' = audioNotificationsEnabled st.

Definition isSend (ev : PEvent) : bool :=
  match ev with
  | Send _ _ => true
  | _ => false
  end.

Definition isInvoke (ev : PEvent) : bool :=
  match ev with
  | Invoke _ _ => true
  | _ => false
  end.

Definition requiredFile (ev : PEvent) : option string :=
  match ev with
  | Require file => Some file
  | _ => None
  end.

(** the files required, in order *)
Fixpoint requiredFiles (evs : list PEvent) : list string :=
  match evs with
  | [] => []
  | Require file :: rest => file :: requiredFiles rest
  | _ :: rest => requiredFiles rest
  end.

End Bridge.

Arguments Now {number}.
Arguments Send {number} channel payload.
Arguments Invoke {number} h eventName.
Arguments LogError {number} tag e.
Arguments LogDebug {number} tag arg.
Arguments ExistsSync {number} dir.
Arguments ReaddirSync {number} dir.
Arguments Require {number} file.
Arguments clock {number} p tr.
Arguments send {number} p tr channel payload.
Arguments invoke {number} p tr h eventName.
Arguments existsSync {number} p tr dir.
Arguments readdirSync {number} p tr dir.
Arguments require {number} p tr file.
Arguments nodePath {number} p.
Arguments scriptDirectory {number} p.
Arguments P number A : clear implicits.
Arguments pret {number A} a.
Arguments pbind {number A B} c k.
Arguments normalizeNotificationContent {number} showNumber v.
Arguments fallbackTitle {number} stringOf title.
Arguments notificationPayload {number} ofInt id normalizedTitle options normalizedBody.
Arguments closePayload {number} ofInt id.
Arguments construct {number} showNumber ofInt stringOf pw title options.
Arguments typeError : clear implicits.
Arguments notifyListeners {number} pw eventName l.
Arguments emitNotificationEvent {number} pw id eventName.
Arguments closeNotification {number} ofInt pw id.
Arguments onAudioPlay {number} showNumber ofInt stringOf pw title body.
Arguments truthy {number} numberTruthy v.
Arguments onParams {number} numberTruthy windowOptions.
Arguments INJECT_DIR {number} pw.
Arguments jsFiles {number} pw entries.
Arguments requireAll {number} pw files.
Arguments injectScripts {number} pw.
Arguments isSend {number} ev.
Arguments isInvoke {number} ev.
Arguments requiredFiles {number} evs.
Arguments pget {number}.
Arguments pmodify {number} f.
Arguments pcall {number A} ev answer.
Arguments pemit {number} ev.
Arguments ptry {number A} body handler.
Arguments pthrow {number A} e.
Arguments now {number} pw.

(** a page, a clock and a disk to run the preload script with; numbers
    are integers *)
Module Lab.

Definition world (time : Z) (entries : list Dirent) (broken : string)
  : PreloadWorld Z :=
  {| clock := fun tr => (time + Z.of_nat (length tr))%Z;
     send := fun _ _ _ => Returned tt;
     invoke := fun _ h _ =>
                 if (h =? 13)%nat then Threw (mkError "listener failed") else Returned tt;
     existsSync := fun _ _ => true;
     readdirSync := fun _ _ => Returned entries;
     require := fun _ file =>
                  if (file =? broken)%string
                  then Threw (mkError "SyntaxError: Unexpected token")
                  else Returned tt;
     nodePath := Posix.api;
     scriptDirectory := "/opt/MyApp/resources/app/lib" |}.

Definition showNumber (n : Z) : string := Js.ofInt n.

Definition stringOf (v : Dyn.value Z) : string := "[object Object]".

(** a React element *)
Definition element (content : list (Dyn.value Z)) : Dyn.value Z :=
  Dyn.Obj [("type", Dyn.Str "span");
           ("props", Dyn.Obj [("className", Dyn.Str "x"); ("content", Dyn.Arr content)])].

Definition inject : list Dirent :=
  [ {| name := "a.js"; isFile := true |};
    {| name := "style.css"; isFile := true |};
    {| name := "old.js"; isFile := false |};
    {| name := "b.js"; isFile := true |};
    {| name := "c.js"; isFile := true |} ].

(** a registered notification with an [onclose] handler and two [close]
    listeners, the first of which fails *)
Definition watched : State :=
  {| rendererNotifications :=
       [(1%Z, {| onclick := None; onclose := Some 7; onreply := Some 9;
                 listeners := {| click := []; close := [13; 21]; reply := [] |} |})];
     notificationCounter := 2;
     lastNotificationTime := 0;
     lastWebNotification := None;
     lastNotifiedSoundTime := 0;
     audioNotificationsEnabled := false |}.

End Lab.

End Preload.

(** ** Reasoning about computations *)

Ltac unfold_m :=
  unfold fsCall, spawn, import, tempDir in *;
  unfold bind, ret, throw, tryCatch, perform, log, emit in *.

Lemma app_two {A : Type} (l : list A) (a b : A) :
  ((l ++ [a]) ++ [b] = l ++ [a; b])%list.
Proof. now rewrite <- app_assoc. Qed.

Lemma find_or_self (files : list string) (appName : string) :
  Js.nullish (find (fun file => (file =? appName)%string) files) appName = appName.
Proof.
  destruct (find _ files) as [hit|] eqn:Hfind; simpl; [|reflexivity].
  apply find_some in Hfind. destruct Hfind as [_ Heq].
  now apply String.eqb_eq in Heq.
Qed.

Lemma removeWhitespace_bounded (n : nat) :
  forall s : string, String.length s <= n -> noSpace1 (Js.removeWhitespace s) = true.
Proof.
  induction n as [|n IH]; intros s Hlen.
  - destruct s; [reflexivity | simpl in Hlen; lia].
  - destruct s as [|c1 r1]; [reflexivity|].
    simpl in Hlen.
    assert (H1 : noSpace1 (Js.removeWhitespace r1) = true) by (apply IH; lia).
    cbn [Js.removeWhitespace].
    destruct (Js.space1 c1) eqn:Hc1.
    + destruct r1; exact H1.
    + destruct r1 as [|c2 r2].
      * unfold noSpace1. simpl. now rewrite Hc1.
      * simpl in Hlen.
        assert (H2 : noSpace1 (Js.removeWhitespace r2) = true) by (apply IH; lia).
        destruct (Js.space2 c1 c2).
        -- exact H2.
        -- destruct r2 as [|c3 r3].
           ++ unfold noSpace1 in *. cbn [list_ascii_of_string forallb].
              rewrite Hc1. exact H1.
           ++ simpl in Hlen.
              assert (H3 : noSpace1 (Js.removeWhitespace r3) = true) by (apply IH; lia).
              destruct (Js.space3 c1 c2 c3).
              ** exact H3.
              ** unfold noSpace1 in *. cbn [list_ascii_of_string forallb].
                 rewrite Hc1. exact H1.
Qed.

(** the class name derived from an app name holds no blank *)
Lemma removeWhitespace_no_space (s : string) :
  noSpace1 (Js.removeWhitespace s) = true.
Proof. apply (removeWhitespace_bounded (String.length s)). lia. Qed.

Example removeWhitespace_My_App :
  Js.removeWhitespace "My  App	2" = "MyApp2".
Proof. reflexivity. Qed.

(** a [try]/[catch] whose handler only logs returns normally *)
Lemma createLinuxDesktopLauncher_returns (w : World) (appPath appName targetUrl : string)
      (tr : Trace) :
  fst (createLinuxDesktopLauncher w appPath appName targetUrl tr) = Returned tt.
Proof.
  unfold createLinuxDesktopLauncher, tryCatch.
  destruct (createLinuxDesktopLauncherBody w appPath appName targetUrl tr)
    as [[e|[]] tr']; reflexivity.
Qed.

Lemma installLinuxApp_returns (w : World) (appPath appName : string) (tr : Trace) :
  fst (installLinuxApp w appPath appName tr) = Returned tt.
Proof.
  unfold installLinuxApp, tryCatch.
  destruct (installLinuxAppBody w appPath appName tr) as [[e|[]] tr']; reflexivity.
Qed.

Lemma linuxFinalize_returns (w : World) (options : AppOptions.t) (appPath : string)
      (tr : Trace) :
  fst (linuxFinalize w options appPath tr) = Returned tt.
Proof.
  unfold linuxFinalize.
  destruct (isPlatform _ "linux"); [|reflexivity].
  destruct (Packager.name _) as [[|c n]|]; try reflexivity.
  destruct (Packager.targetUrl _) as [[|d u]|]; try reflexivity.
  unfold bind.
  pose proof (createLinuxDesktopLauncher_returns w appPath (String c n) (String d u) tr) as H1.
  destruct (createLinuxDesktopLauncher w appPath (String c n) (String d u) tr) as [o1 tr1].
  simpl in H1. subst o1.
  apply installLinuxApp_returns.
Qed.

Lemma finishStage_returns (w : World) (options : AppOptions.t) (appPath : string)
      (tr : Trace) :
  fst (finishStage w options appPath tr) = Returned appPath.
Proof.
  unfold finishStage. unfold bind at 1.
  pose proof (linuxFinalize_returns w options appPath tr) as H.
  destruct (linuxFinalize w options appPath tr) as [o tr1].
  simpl in H. subst o. reflexivity.
Qed.

(** ** The claims *)

(** C5. Upgrade normalization: a request whose [upgrade] is a non-empty
    string [p] leaves [isUpgrade] with [upgradeFrom = p], [upgrade = true]
    and the answer [true], nothing else changed; a request whose [upgrade]
    is absent or the empty string is left as it is, with the answer
    [false]. *)
Theorem isUpgrade_normalizes (r : RawOptions.t) :
  (forall p : string,
      RawOptions.upgrade r = UpgradePath p -> p <> "" ->
      isUpgrade r
      = (true, RawOptions.setUpgrade (UpgradeFlag true)
                 (RawOptions.setUpgradeFrom (Some p) r))
      /\ RawOptions.upgradeFrom (snd (isUpgrade r)) = Some p
      /\ RawOptions.upgrade (snd (isUpgrade r)) = UpgradeFlag true)
  /\ (RawOptions.upgrade r = UpgradeUnset \/ RawOptions.upgrade r = UpgradePath "" ->
      isUpgrade r = (false, r)).
Proof.
  split.
  - intros p Hup Hne. unfold isUpgrade. rewrite Hup.
    destruct p as [|c s]; [congruence|]. repeat split.
  - intros [Hup|Hup]; unfold isUpgrade; rewrite Hup; reflexivity.
Qed.

(** the requests [{upgrade: '/some/path'}] and [{}] *)
Lemma isUpgrade_normalizes_witness :
  isUpgrade (RawOptions.setUpgrade (UpgradePath "/some/path") Scenario.blank)
  = (true,
     RawOptions.mk None None (UpgradeFlag true) (Some "/some/path")
                   None None None None None None None)
  /\ isUpgrade Scenario.blank = (false, Scenario.blank).
Proof.
  split.
  - apply (proj1 (isUpgrade_normalizes
                    (RawOptions.setUpgrade (UpgradePath "/some/path") Scenario.blank))
                 "/some/path").
    + reflexivity.
    + discriminate.
  - apply (proj2 (isUpgrade_normalizes Scenario.blank)). left. reflexivity.
Defined.

(** C4. Path-result normalization over the list the packaging engine
    returns: the empty list yields no path, which the build turns into the
    failure [noAppPath] (the directory exists already and no overwrite was
    asked for); a one-element list yields its element and logs nothing; a
    longer list yields its first element and logs one warning about the
    anomaly.  The build goes on with the path found when it is not the
    empty string. *)
Theorem getAppPath_normalizes (tr : Trace) (p q : string) (rest : list string)
        (c : ascii) (s : string) :
  let finalizing := Log Info [Text "
Finalizing build..."] in
  let anomaly (l : list string) :=
      Log Warn
          [Text "Warning: This should not be happening, packaged app path contains more than one element:";
           Paths l] in
  getAppPath (PathArray []) tr = (Returned None, tr)
  /\ appPathStage (PathArray []) tr = (Threw noAppPath, (tr ++ [finalizing])%list)
  /\ getAppPath (PathArray [p]) tr = (Returned (Some p), tr)
  /\ appPathStage (PathArray [String c s]) tr
     = (Returned (String c s), (tr ++ [finalizing])%list)
  /\ getAppPath (PathArray (p :: q :: rest)) tr
     = (Returned (Some p), (tr ++ [anomaly (p :: q :: rest)])%list)
  /\ appPathStage (PathArray (String c s :: q :: rest)) tr
     = (Returned (String c s),
        (tr ++ [finalizing; anomaly (String c s :: q :: rest)])%list).
Proof.
  intros finalizing anomaly. repeat split.
  unfold appPathStage, getAppPath, bind, log, ret. now rewrite app_two.
Qed.

(** C10. Linux finalization runs exactly when the target platform is
    [linux] and both the app name and the target URL are truthy: then the
    desktop launcher is created and the install is run, in this order;
    otherwise nothing is done, and the rest of the build only logs where
    the app was built and returns the path. *)
Theorem linuxFinalize_gate (w : World) (options : AppOptions.t) (appPath : string)
        (tr : Trace) :
  let packager := AppOptions.packager options in
  let gate := isPlatform (Packager.platform packager) "linux"
              && Js.truthyStr (Packager.name packager)
              && Js.truthyStr (Packager.targetUrl packager) in
  (gate = true ->
   linuxFinalize w options appPath tr
   = (createLinuxDesktopLauncher w appPath (asString (Packager.name packager))
                                 (asString (Packager.targetUrl packager)) ;;
      installLinuxApp w appPath (asString (Packager.name packager))) tr)
  /\ (gate = false ->
      linuxFinalize w options appPath tr = (Returned tt, tr)
      /\ finishStage w options appPath tr
         = (Returned appPath,
            (tr ++ [Log Info
                        [Text ("App built to " ++ appPath
                               ++ ", move to wherever it makes sense for you and run "
                               ++ getOSRunHelp (Packager.platform packager))]])%list)).
Proof.
  intros packager gate. subst gate packager.
  unfold finishStage, linuxFinalize, bind, log, ret.
  destruct (isPlatform _ "linux");
    destruct (Packager.name _) as [[|c n]|];
    destruct (Packager.targetUrl _) as [[|d u]|]; simpl;
      (split;
       [ first [discriminate | intros _; reflexivity]
       | first [discriminate | intros _; split; reflexivity] ]).
Qed.

(** a Linux build with name and URL, and one without URL *)
Lemma linuxFinalize_gate_witness :
  linuxFinalize Scenario.linuxHost (Scenario.resolve Scenario.linuxRequest) "/tmp/out/MyApp-linux-x64" []
  = (createLinuxDesktopLauncher Scenario.linuxHost "/tmp/out/MyApp-linux-x64" "MyApp"
                                "https://example.com" ;;
     installLinuxApp Scenario.linuxHost "/tmp/out/MyApp-linux-x64" "MyApp") []
  /\ finishStage Scenario.linuxHost Scenario.linuxWithoutUrl "/tmp/out/MyApp-linux-x64" []
     = (Returned "/tmp/out/MyApp-linux-x64",
        [Log Info
             [Text "App built to /tmp/out/MyApp-linux-x64, move to wherever it makes sense for you and run the contained executable file (prefixing with ./ if necessary)
A .desktop launcher file has been created in the app folder for your convenience."]]).
Proof.
  split.
  - apply (proj1 (linuxFinalize_gate Scenario.linuxHost
                                     (Scenario.resolve Scenario.linuxRequest)
                                     "/tmp/out/MyApp-linux-x64" [])).
    reflexivity.
  - apply (proj2 (linuxFinalize_gate Scenario.linuxHost Scenario.linuxWithoutUrl
                                     "/tmp/out/MyApp-linux-x64" [])).
    reflexivity.
Defined.

(** C9. Neither Linux finalization step can abort the build: an error
    thrown anywhere inside the desktop-launcher step is caught and logged
    as a warning, an error thrown anywhere inside the install step is
    caught, logged as a warning and followed by the instructions for a
    manual install; both steps, the Linux finalization and the end of the
    build return normally in every world, and a build whose app path is
    final returns that path. *)
Theorem linux_finalization_never_aborts
        (w : World) (options : AppOptions.t) (appPath appName targetUrl : string)
        (rawOptions : RawOptions.t) (tr : Trace) :
  createLinuxDesktopLauncher w appPath appName targetUrl tr
  = match createLinuxDesktopLauncherBody w appPath appName targetUrl tr with
    | (Returned _, tr') => (Returned tt, tr')
    | (Threw err, tr') =>
      (Returned tt,
       (tr' ++ [Log Warn [Text "Failed to create desktop launcher:"; Caught err]])%list)
    end
  /\ installLinuxApp w appPath appName tr
     = match installLinuxAppBody w appPath appName tr with
       | (Returned _, tr') => (Returned tt, tr')
       | (Threw err, tr') =>
         (Returned tt,
          (tr' ++ [Log Warn [Text "Failed to install app to /opt:"; Caught err];
                   Log Info [Text "You can manually copy the app to /opt and the .desktop file to ~/.local/share/applications/"]])%list)
       end
  /\ fst (linuxFinalize w options appPath tr) = Returned tt
  /\ fst (finishStage w options appPath tr) = Returned appPath
  /\ (forall (o : AppOptions.t) (p : string) (tr' : Trace),
         packagedApp w rawOptions tr = (Returned (o, p), tr') ->
         fst (buildNativefierApp w rawOptions tr) = Returned p).
Proof.
  repeat split.
  - unfold createLinuxDesktopLauncher, tryCatch, log.
    destruct (createLinuxDesktopLauncherBody w appPath appName targetUrl tr)
      as [[err|[]] tr']; reflexivity.
  - unfold installLinuxApp, tryCatch, bind, log.
    destruct (installLinuxAppBody w appPath appName tr) as [[err|[]] tr'];
      [rewrite app_two|]; reflexivity.
  - apply linuxFinalize_returns.
  - apply finishStage_returns.
  - intros o p tr' Hpackaged. unfold buildNativefierApp, bind.
    rewrite Hpackaged. simpl. apply finishStage_returns.
Qed.

(** a Linux build on a disk where every file operation fails still
    returns its path *)
Lemma linux_finalization_never_aborts_witness :
  fst (run (buildNativefierApp Scenario.brokenDisk Scenario.linuxRequest))
  = Returned "/tmp/out/MyApp-linux-x64".
Proof.
  eapply (proj2 (proj2 (proj2 (proj2
            (linux_finalization_never_aborts
               Scenario.brokenDisk Scenario.linuxWithoutUrl "" "" ""
               Scenario.linuxRequest []))))).
  vm_compute. reflexivity.
Defined.

(** C8. In the finalization of an overwriting upgrade for the target
    [darwin], the removal of the [Contents/Frameworks] directory of the
    destination bundle is best effort: whether it succeeds or throws (in
    which case a warning with the error is logged), the finalization goes
    on in the same way: the new [.app] bundle is copied over the one of
    the destination, with the [overwrite] flag of the configuration and
    timestamps preserved, the build output is removed, and the destination
    is the final path.  For any other target the removal of the frameworks
    is not attempted: the build directory is copied and removed. *)
Theorem upgradeFinalize_predelete_best_effort
        (w : World) (options : AppOptions.t) (appPath finalOutDirectory : string)
        (tr : Trace) :
  let packager := AppOptions.packager options in
  let bundle := Js.nullish (Packager.name packager) "" ++ ".app" in
  let frameworks := pathJoin w [finalOutDirectory; bundle; "Contents"; "Frameworks"] in
  let copyOptions :=
      Some {| copyOverwrite := Packager.overwrite packager;
              preserveTimestamps := true |} in
  let relocateBundle : M string :=
      fsCall w (Copy (pathJoin w [appPath; bundle])
                     (pathJoin w [finalOutDirectory; bundle]) copyOptions) ;;
      fsCall w (Remove appPath) ;;
      ret finalOutDirectory in
  let relocateDirectory : M string :=
      fsCall w (Copy appPath finalOutDirectory copyOptions) ;;
      fsCall w (Remove appPath) ;;
      ret finalOutDirectory in
  Js.truthyBool (Packager.upgrade packager) = true ->
  Js.truthyStr (Packager.upgradeFrom packager) = true ->
  Js.truthyBool (Packager.overwrite packager) = true ->
  (isPlatform (Packager.platform packager) "darwin" = true ->
   upgradeFinalize w options appPath finalOutDirectory tr
   = match fs w tr (Remove frameworks) with
     | Returned _ => relocateBundle (tr ++ [Fs (Remove frameworks)])%list
     | Threw err =>
       relocateBundle
         (tr ++ [Fs (Remove frameworks);
                 Log Warn [Text "Encountered an error when attempting to pre-delete old frameworks:";
                           Caught err]])%list
     end)
  /\ (isPlatform (Packager.platform packager) "darwin" = false ->
      upgradeFinalize w options appPath finalOutDirectory tr = relocateDirectory tr).
Proof.
  intros packager bundle frameworks copyOptions relocateBundle relocateDirectory
         Hupgrade Hfrom Hoverwrite.
  unfold upgradeFinalize. fold packager.
  rewrite Hupgrade, Hfrom, Hoverwrite. simpl.
  split; intros Hplatform; rewrite Hplatform.
  - subst relocateBundle. unfold bundleName, upgradeCopyOptions.
    fold packager. fold bundle. fold frameworks. fold copyOptions.
    unfold bind at 1 2. unfold tryCatch, fsCall at 1, perform at 1, log.
    destruct (fs w tr (Remove frameworks)) as [err|[]].
    + rewrite app_two. reflexivity.
    + reflexivity.
  - subst relocateDirectory. unfold upgradeCopyOptions. fold packager.
    fold copyOptions. unfold bind. reflexivity.
Qed.

(** an upgrade whose old frameworks cannot be removed, for the targets
    [darwin] and [linux] *)
Lemma upgradeFinalize_predelete_best_effort_witness :
  upgradeFinalize Scenario.stuckFrameworks (Scenario.overwritingUpgrade "darwin")
                  "/tmp/nativefier-appUpgrade/OldApp-darwin-x64" "/opt/OldApp" []
  = (Returned "/opt/OldApp",
     [Fs (Remove "/opt/OldApp/OldApp.app/Contents/Frameworks");
      Log Warn [Text "Encountered an error when attempting to pre-delete old frameworks:";
                Caught (mkError "ELOOP: too many symbolic links encountered")];
      Fs (Copy "/tmp/nativefier-appUpgrade/OldApp-darwin-x64/OldApp.app"
               "/opt/OldApp/OldApp.app"
               (Some {| copyOverwrite := Some true; preserveTimestamps := true |}));
      Fs (Remove "/tmp/nativefier-appUpgrade/OldApp-darwin-x64")])
  /\ upgradeFinalize Scenario.stuckFrameworks (Scenario.overwritingUpgrade "linux")
                     "/tmp/nativefier-appUpgrade/OldApp-linux-x64" "/opt/OldApp" []
     = (Returned "/opt/OldApp",
        [Fs (Copy "/tmp/nativefier-appUpgrade/OldApp-linux-x64" "/opt/OldApp"
                  (Some {| copyOverwrite := Some true; preserveTimestamps := true |}));
         Fs (Remove "/tmp/nativefier-appUpgrade/OldApp-linux-x64")]).
Proof.
  split.
  - rewrite (proj1 (upgradeFinalize_predelete_best_effort
                      Scenario.stuckFrameworks (Scenario.overwritingUpgrade "darwin")
                      "/tmp/nativefier-appUpgrade/OldApp-darwin-x64" "/opt/OldApp" []
                      eq_refl eq_refl eq_refl) eq_refl).
    reflexivity.
  - rewrite (proj2 (upgradeFinalize_predelete_best_effort
                      Scenario.stuckFrameworks (Scenario.overwritingUpgrade "linux")
                      "/tmp/nativefier-appUpgrade/OldApp-linux-x64" "/opt/OldApp" []
                      eq_refl eq_refl eq_refl) eq_refl).
    reflexivity.
Defined.

(** C6. Icon copying.  With no icon configured nothing is copied.  With
    an icon, for the targets [darwin] and [mas]: unless the tray mode is
    ['false'], the file [tray-icon.png] of the directory of the configured
    icon is copied to [icon.png] in the staged path, and with the tray mode
    ['false'] nothing is copied; for every other target (Windows, Linux)
    the configured icon is copied to [icon<ext>] in the staged path, [<ext>]
    being the extension of the configured icon. *)
Theorem copyIconsIfNecessary_cases
        (w : World) (options : AppOptions.t) (appPath : string) (tr : Trace) :
  let packager := AppOptions.packager options in
  let tray := Nativefier.tray (AppOptions.nativefier options) in
  let macFamily := isPlatform (Packager.platform packager) "darwin"
                   || isPlatform (Packager.platform packager) "mas" in
  let started := (tr ++ [Log Debug [Text "Copying icons if necessary"]])%list in
  (Js.truthyStr (Packager.icon packager) = false ->
   copyIconsIfNecessary w options appPath tr
   = (Returned tt,
      (started ++ [Log Debug [Text "No icon specified in options; aborting"]])%list))
  /\ (forall icon : string,
         Packager.icon packager = Some icon -> icon <> "" ->
         (macFamily = true -> isPlatform tray "false" = false ->
          let announced :=
              (started ++ [Log Debug [Text "Copying icon for tray application"]])%list in
          let copy := Copy (dirname (path w) icon ++ "/tray-icon.png")
                           (pathJoin w [appPath; "icon.png"]) None in
          copyIconsIfNecessary w options appPath tr
          = (fs w announced copy, (announced ++ [Fs copy])%list))
         /\ (macFamily = true -> isPlatform tray "false" = true ->
             copyIconsIfNecessary w options appPath tr
             = (Returned tt,
                (started ++ [Log Debug [Text "No copying necessary on macOS; aborting"]])%list))
         /\ (macFamily = false ->
             let dest := pathJoin w [appPath; "icon" ++ extname (path w) icon] in
             let announced :=
                 (started ++ [Log Debug [Text ("Copying icon " ++ icon ++ " to");
                                         Text dest]])%list in
             let copy := Copy icon dest None in
             copyIconsIfNecessary w options appPath tr
             = (fs w announced copy, (announced ++ [Fs copy])%list))).
Proof.
  intros packager tray macFamily started.
  unfold copyIconsIfNecessary. fold packager. fold tray. fold macFamily.
  split.
  - intros Hicon. destruct (Packager.icon packager) as [[|c s]|];
      try discriminate; reflexivity.
  - intros icon Hicon Hne. rewrite Hicon. destruct icon as [|c s]; [congruence|].
    repeat split.
    + intros Hmac Htray. rewrite Hmac, Htray. reflexivity.
    + intros Hmac Htray. rewrite Hmac, Htray. reflexivity.
    + intros Hmac. rewrite Hmac. reflexivity.
Qed.

(** no icon; [/x/icon.icns] for [darwin] with and without tray;
    [/x/icon.ico] for [win32] *)
Lemma copyIconsIfNecessary_cases_witness :
  copyIconsIfNecessary Scenario.linuxHost (Scenario.withIcon "linux" None None)
                       "/tmp/nativefier-app" []
  = (Returned tt,
     [Log Debug [Text "Copying icons if necessary"];
      Log Debug [Text "No icon specified in options; aborting"]])
  /\ copyIconsIfNecessary Scenario.linuxHost
                          (Scenario.withIcon "darwin" (Some "/x/icon.icns") (Some "true"))
                          "/tmp/nativefier-app" []
     = (Returned tt,
        [Log Debug [Text "Copying icons if necessary"];
         Log Debug [Text "Copying icon for tray application"];
         Fs (Copy "/x/tray-icon.png" "/tmp/nativefier-app/icon.png" None)])
  /\ copyIconsIfNecessary Scenario.linuxHost
                          (Scenario.withIcon "darwin" (Some "/x/icon.icns") (Some "false"))
                          "/tmp/nativefier-app" []
     = (Returned tt,
        [Log Debug [Text "Copying icons if necessary"];
         Log Debug [Text "No copying necessary on macOS; aborting"]])
  /\ copyIconsIfNecessary Scenario.linuxHost
                          (Scenario.withIcon "win32" (Some "/x/icon.ico") None)
                          "/tmp/nativefier-app" []
     = (Returned tt,
        [Log Debug [Text "Copying icons if necessary"];
         Log Debug [Text "Copying icon /x/icon.ico to"; Text "/tmp/nativefier-app/icon.ico"];
         Fs (Copy "/x/icon.ico" "/tmp/nativefier-app/icon.ico" None)]).
Proof.
  split; [|split; [|split]].
  - apply (proj1 (copyIconsIfNecessary_cases
                    Scenario.linuxHost (Scenario.withIcon "linux" None None)
                    "/tmp/nativefier-app" [])).
    reflexivity.
  - apply (proj1 (proj2 (copyIconsIfNecessary_cases
                           Scenario.linuxHost
                           (Scenario.withIcon "darwin" (Some "/x/icon.icns") (Some "true"))
                           "/tmp/nativefier-app" [])
                        "/x/icon.icns" eq_refl ltac:(discriminate)));
      reflexivity.
  - apply (proj1 (proj2 (proj2 (copyIconsIfNecessary_cases
                           Scenario.linuxHost
                           (Scenario.withIcon "darwin" (Some "/x/icon.icns") (Some "false"))
                           "/tmp/nativefier-app" [])
                        "/x/icon.icns" eq_refl ltac:(discriminate))));
      reflexivity.
  - apply (proj2 (proj2 (proj2 (copyIconsIfNecessary_cases
                           Scenario.linuxHost
                           (Scenario.withIcon "win32" (Some "/x/icon.ico") None)
                           "/tmp/nativefier-app" [])
                        "/x/icon.ico" eq_refl ltac:(discriminate))));
      reflexivity.
Defined.

(** C7, as the code has it.  On a host whose file system answers every
    call, the desktop launcher for the app name [MyApp] and the target URL
    [https://example.com] reads the build directory, writes the file
    [MyApp.desktop] INSIDE the build directory (not beside it) and marks it
    executable (mode 0o755).  The file holds [Name=MyApp],
    [Comment=App for https://example.com], an [Exec] line that ends in
    [%U], the [Icon] path [resources/app/icon.png] inside the build
    directory and [StartupWMClass=MyApp]. *)
Theorem desktop_launcher_for_MyApp (w : World) (appPath : string) (tr : Trace) :
  (forall (t : Trace) (p : string), exists files, readdir w t p = Returned files) ->
  (forall (t : Trace) (op : FsOp), fs w t op = Returned tt) ->
  let file := pathJoin w [appPath; "MyApp.desktop"] in
  let content :=
      "[Desktop Entry]
Version=1.0
Type=Application
Name=MyApp
Comment=App for https://example.com
Exec=" ++ pathJoin w [appPath; basename (path w) "MyApp"] ++ " %U
Icon=" ++ pathJoin w [appPath; "resources"; "app"; "icon.png"] ++ "
Terminal=false
Categories=Network;WebBrowser;
StartupWMClass=MyApp
StartupNotify=true
Actions=
Keywords=messenger;chat;
X-GNOME-UsesNotifications=true
" in
  createLinuxDesktopLauncher w appPath "MyApp" "https://example.com" tr
  = (Returned tt,
     (tr ++ [Readdir appPath;
             Fs (WriteFile file content);
             Fs (Chmod file 493);
             Log Info [Text ("Created desktop launcher at " ++ file)];
             Log Info [Text ("To install system-wide, run: cp " ++ Js.dquote ++ file
                             ++ Js.dquote ++ " ~/.local/share/applications/")]])%list).
Proof.
  intros Hreaddir Hfs file content.
  unfold createLinuxDesktopLauncher, createLinuxDesktopLauncherBody, tryCatch.
  unfold bind at 1. unfold perform at 1.
  destruct (Hreaddir tr appPath) as [files Hfiles]. rewrite Hfiles.
  rewrite find_or_self.
  unfold bind, fsCall, perform, log. rewrite !Hfs.
  subst file content. simpl.
  repeat rewrite <- app_assoc. simpl. reflexivity.
Qed.

(** the launcher of the build directory [/tmp/out/MyApp-linux-x64] *)
Lemma desktop_launcher_for_MyApp_witness :
  createLinuxDesktopLauncher Scenario.linuxHost "/tmp/out/MyApp-linux-x64" "MyApp"
                             "https://example.com" []
  = (Returned tt,
     [Readdir "/tmp/out/MyApp-linux-x64";
      Fs (WriteFile "/tmp/out/MyApp-linux-x64/MyApp.desktop"
                    "[Desktop Entry]
Version=1.0
Type=Application
Name=MyApp
Comment=App for https://example.com
Exec=/tmp/out/MyApp-linux-x64/MyApp %U
Icon=/tmp/out/MyApp-linux-x64/resources/app/icon.png
Terminal=false
Categories=Network;WebBrowser;
StartupWMClass=MyApp
StartupNotify=true
Actions=
Keywords=messenger;chat;
X-GNOME-UsesNotifications=true
");
      Fs (Chmod "/tmp/out/MyApp-linux-x64/MyApp.desktop" 493);
      Log Info [Text "Created desktop launcher at /tmp/out/MyApp-linux-x64/MyApp.desktop"];
      Log Info [Text ("To install system-wide, run: cp " ++ Js.dquote
                      ++ "/tmp/out/MyApp-linux-x64/MyApp.desktop" ++ Js.dquote
                      ++ " ~/.local/share/applications/")]])
  /\ insideDirectory Posix.api "/tmp/out/MyApp-linux-x64"
                     "/tmp/out/MyApp-linux-x64/MyApp.desktop".
Proof.
  split.
  - apply (desktop_launcher_for_MyApp Scenario.linuxHost "/tmp/out/MyApp-linux-x64" []).
    + intros t p. exists ["MyApp"; "resources"]. reflexivity.
    + intros t op. reflexivity.
  - reflexivity.
Defined.

(** C7, as the spec has it, fails: the launcher written for the build
    directory [/tmp/out/MyApp-linux-x64] is the file
    [/tmp/out/MyApp-linux-x64/MyApp.desktop], which lies inside the build
    directory and not beside it. *)
Lemma desktop_launcher_not_beside_build_directory :
  exists (file content : string),
    In (Fs (WriteFile file content))
       (snd (run (createLinuxDesktopLauncher Scenario.linuxHost
                                             "/tmp/out/MyApp-linux-x64" "MyApp"
                                             "https://example.com")))
    /\ (forall (file' content' : string),
           In (Fs (WriteFile file' content'))
              (snd (run (createLinuxDesktopLauncher Scenario.linuxHost
                                                    "/tmp/out/MyApp-linux-x64" "MyApp"
                                                    "https://example.com"))) ->
           file' = file)
    /\ insideDirectory Posix.api "/tmp/out/MyApp-linux-x64" file
    /\ ~ besideDirectory Posix.api "/tmp/out/MyApp-linux-x64" file.
Proof.
  eexists. eexists. split; [|split; [|split]].
  - vm_compute. right. left. reflexivity.
  - intros file' content' Hin. vm_compute in Hin.
    repeat (destruct Hin as [Hin|Hin]; [try discriminate|]); [|contradiction].
    injection Hin as Hfile _. symmetry. exact Hfile.
  - reflexivity.
  - unfold besideDirectory. vm_compute. discriminate.
Qed.

(** the stages before the platform guard never stage the app *)
Lemma staged_app (tr evs : Trace) :
  existsb isStaging evs = false -> staged (tr ++ evs)%list = staged tr.
Proof.
  intros H. unfold staged. rewrite existsb_app, H. apply orb_false_r.
Qed.

Lemma upgradeStage_events (w : World) (rawOptions : RawOptions.t) (tr : Trace) :
  exists evs, snd (upgradeStage w rawOptions tr) = (tr ++ evs)%list
              /\ existsb isStaging evs = false.
Proof.
  unfold upgradeStage.
  destruct (isUpgrade _) as [[|] r] eqn:Hup.
  - unfold bind at 1, log at 1.
    destruct (findUpgradeApp w _) as [oldApp|].
    + destruct (RawOptions.out (useOldAppOptions r oldApp)).
      * unfold_m; simpl; eexists; split; reflexivity.
      * destruct (Js.truthyBool _).
        -- unfold_m. destruct (getTempDir w _ _ _); simpl;
             rewrite app_two; eexists; split; reflexivity.
        -- unfold_m; simpl; eexists; split; reflexivity.
    + unfold_m; simpl; eexists; split; reflexivity.
  - exists []. split; [simpl; now rewrite app_nil_r | reflexivity].
Qed.

Lemma resolveStage_keeps_staged (w : World) (rawOptions : RawOptions.t) (tr : Trace) :
  staged (snd (resolveStage w rawOptions tr)) = staged tr.
Proof.
  unfold resolveStage.
  set (quietly := if Js.truthyBool (RawOptions.quiet rawOptions) then _ else _).
  assert (Hq : exists evs, quietly tr = (Returned tt, (tr ++ evs)%list)
                           /\ existsb isStaging evs = false).
  { subst quietly. destruct (Js.truthyBool _).
    - unfold_m; simpl; eexists; split; reflexivity.
    - exists []. split; [unfold ret; now rewrite app_nil_r | reflexivity]. }
  destruct Hq as (evs0 & Hq & Hs0).
  unfold bind at 1. rewrite Hq.
  unfold bind at 1. unfold log at 1.
  unfold bind at 1. unfold log at 1.
  unfold bind at 1.
  match goal with |- context [upgradeStage w rawOptions ?t] =>
    destruct (upgradeStage_events w rawOptions t) as (evs1 & H1 & Hs1);
    destruct (upgradeStage w rawOptions t) as [[e|[r f]] tr1]
  end; simpl in H1; subst tr1.
  - simpl. rewrite <- !app_assoc. apply staged_app.
    rewrite !existsb_app, Hs0, Hs1. reflexivity.
  - unfold_m. destruct (getOptions w _ r) as [e|o]; simpl;
      rewrite <- !app_assoc; apply staged_app;
        rewrite !existsb_app, Hs0, Hs1; reflexivity.
Qed.

(** C3, as the code has it.  For every build whose resolved target
    platform is [darwin] on a WINDOWS host, the build fails with the
    error [needsAdmin] before the app is staged, unless the host process
    holds administrator rights, in which case the guard lets the build
    go on. *)
Theorem mac_target_on_windows_needs_admin
        (w : World) (rawOptions rawOptions' : RawOptions.t) (finalOutDirectory : string)
        (options : AppOptions.t) (tr tr' : Trace) :
  resolveStage w rawOptions tr
  = (Returned (rawOptions', finalOutDirectory, options), tr') ->
  isPlatform (Packager.platform (AppOptions.packager options)) "darwin" = true ->
  isWindows w = true ->
  (isWindowsAdmin w = false ->
   buildNativefierApp w rawOptions tr = (Threw needsAdmin, tr')
   /\ staged tr' = staged tr)
  /\ (isWindowsAdmin w = true ->
      platformGuard w options tr' = (Returned tt, tr')).
Proof.
  intros Hresolve Hmac Hwin. split; intros Hadmin.
  - split.
    + unfold buildNativefierApp, packagedApp. unfold bind at 1 2.
      rewrite Hresolve. unfold bind at 1.
      unfold platformGuard. rewrite Hmac, Hwin, Hadmin. reflexivity.
    + pose proof (resolveStage_keeps_staged w rawOptions tr) as Hstaged.
      rewrite Hresolve in Hstaged. exact Hstaged.
  - unfold platformGuard. rewrite Hmac, Hwin, Hadmin. reflexivity.
Qed.

(** the request [macRequest] on a Windows host, without and with
    administrator rights *)
Lemma mac_target_on_windows_needs_admin_witness :
  fst (run (buildNativefierApp (Scenario.windowsHost false) Scenario.macRequest))
  = Threw needsAdmin
  /\ staged (snd (run (buildNativefierApp (Scenario.windowsHost false) Scenario.macRequest)))
     = false
  /\ fst (platformGuard
            (Scenario.windowsHost true)
            (Scenario.resolve
               (RawOptions.setOut (Some "/home/user/output-apps") Scenario.macRequest))
            (snd (run (resolveStage (Scenario.windowsHost true) Scenario.macRequest))))
     = Returned tt.
Proof.
  pose proof (mac_target_on_windows_needs_admin
                (Scenario.windowsHost false) Scenario.macRequest _ _ _ [] _
                eq_refl eq_refl eq_refl) as [Hdenied _].
  pose proof (mac_target_on_windows_needs_admin
                (Scenario.windowsHost true) Scenario.macRequest _ _ _ [] _
                eq_refl eq_refl eq_refl) as [_ Hgranted].
  destruct (Hdenied eq_refl) as [Hbuild Hstaged].
  specialize (Hgranted eq_refl).
  split; [|split].
  - unfold run. rewrite Hbuild. reflexivity.
  - unfold run. rewrite Hbuild. exact Hstaged.
  - exact (f_equal fst Hgranted).
Defined.

(** C3, as the spec has it, fails: on a Linux host, which is not macOS,
    without administrator rights, a build resolved for the target
    [darwin] is not stopped by the guard: the app is staged and the build
    returns the packaged path. *)
Lemma mac_target_on_linux_host_is_built :
  osPlatform Scenario.linuxBuilder <> "darwin"
  /\ isWindowsAdmin Scenario.linuxBuilder = false
  /\ (exists (r : RawOptions.t) (f : string) (o : AppOptions.t) (tr' : Trace),
         run (resolveStage Scenario.linuxBuilder Scenario.macRequest)
         = (Returned (r, f, o), tr')
         /\ Packager.platform (AppOptions.packager o) = Some "darwin")
  /\ fst (run (buildNativefierApp Scenario.linuxBuilder Scenario.macRequest))
     = Returned "/home/user/output-apps/MyApp-darwin-x64"
  /\ fst (run (buildNativefierApp Scenario.linuxBuilder Scenario.macRequest))
     <> Threw needsAdmin
  /\ staged (snd (run (buildNativefierApp Scenario.linuxBuilder Scenario.macRequest)))
     = true.
Proof.
  split; [discriminate|].
  split; [reflexivity|].
  split; [do 4 eexists; split; [vm_compute; reflexivity | reflexivity]|].
  split; [vm_compute; reflexivity|].
  split; [vm_compute; discriminate | vm_compute; reflexivity].
Qed.

(** the upgrade stage never redirects the final destination: the request
    always has an output directory when the redirection is considered *)
Lemma useOldAppOptions_keeps_out (rawOptions : RawOptions.t) (oldApp : UpgradeAppInfo.t)
      (out : string) :
  RawOptions.out rawOptions = Some out ->
  RawOptions.out (useOldAppOptions rawOptions oldApp) = Some out.
Proof. intros H. unfold useOldAppOptions. simpl. rewrite H. reflexivity. Qed.

Lemma isUpgrade_keeps_out (rawOptions : RawOptions.t) :
  RawOptions.out (snd (isUpgrade rawOptions)) = RawOptions.out rawOptions.
Proof.
  unfold isUpgrade. destruct (RawOptions.upgrade rawOptions) as [|b|[|c s]]; reflexivity.
Qed.

Lemma upgradeStage_final_directory
      (w : World) (rawOptions rawOptions' : RawOptions.t) (finalOutDirectory : string)
      (tr tr' : Trace) :
  upgradeStage w rawOptions tr = (Returned (rawOptions', finalOutDirectory), tr') ->
  finalOutDirectory
  = (if Js.truthyStr (RawOptions.out rawOptions)
     then asString (RawOptions.out rawOptions)
     else pathJoin w [cwd w; "output-apps"])
  /\ RawOptions.out rawOptions' = Some finalOutDirectory.
Proof.
  unfold upgradeStage.
  set (defaulted := if negb (Js.truthyStr (RawOptions.out rawOptions)) then _ else _).
  assert (Hout : RawOptions.out defaulted
                 = Some (if Js.truthyStr (RawOptions.out rawOptions)
                         then asString (RawOptions.out rawOptions)
                         else pathJoin w [cwd w; "output-apps"])).
  { subst defaulted. destruct (RawOptions.out rawOptions) as [[|c s]|] eqn:Ho; simpl;
      try reflexivity. exact Ho. }
  pose proof (isUpgrade_keeps_out defaulted) as Hkeep.
  destruct (isUpgrade defaulted) as [[|] r]; simpl in Hkeep.
  - unfold bind at 1, log at 1.
    destruct (findUpgradeApp w _) as [oldApp|]; [|discriminate].
    rewrite Hout in Hkeep.
    rewrite (useOldAppOptions_keeps_out r oldApp _ Hkeep).
    unfold ret. intros H. injection H as Hr Hf _. subst.
    rewrite Hout. simpl. split; [reflexivity|].
    now apply useOldAppOptions_keeps_out.
  - unfold ret. intros H. injection H as Hr Hf _. subst.
    rewrite Hout. simpl. split; [reflexivity|].
    rewrite Hkeep. exact Hout.
Qed.

(** C1, at the failing input.  The request [--upgrade /opt/OldApp
    --overwrite] names no output directory and the prior install sits at
    [/opt/OldApp]; the build returns [<cwd>/output-apps], not the root of
    the prior install. *)
Theorem upgrade_overwrite_lands_in_default_output :
  RawOptions.upgrade Scenario.upgradeRequest = UpgradePath "/opt/OldApp"
  /\ RawOptions.overwrite Scenario.upgradeRequest = Some true
  /\ RawOptions.out Scenario.upgradeRequest = None
  /\ option_map UpgradeAppInfo.appRoot (findUpgradeApp Scenario.linuxHost "/opt/OldApp")
     = Some "/opt/OldApp"
  /\ fst (run (buildNativefierApp Scenario.linuxHost Scenario.upgradeRequest))
     = Returned "/home/user/output-apps"
  /\ fst (run (upgradeStage Scenario.linuxHost Scenario.upgradeRequest))
     = Returned (useOldAppOptions
                   (snd (isUpgrade (RawOptions.setOut (Some "/home/user/output-apps")
                                                      Scenario.upgradeRequest)))
                   Scenario.oldApp,
                 "/home/user/output-apps").
Proof. repeat split. Qed.

(** the constraint filter looks at the properties of the options object
    itself, which are [nativefier] and [packager]: it never finds a
    property to clear in what the options resolver returns *)
Lemma trimUnprocessableOptions_declared_options
      (w : World) (options : AppOptions.t) (tr : Trace) :
  AppOptions.stray options = [] ->
  trimUnprocessableOptions w options tr = (Returned options, tr).
Proof.
  intros Hstray. unfold trimUnprocessableOptions, optionsPresent, AppOptions.entries.
  rewrite Hstray. simpl. destruct (_ && _); reflexivity.
Qed.

Lemma setUndefined_fold_keeps_packager (keys : list string) (options : AppOptions.t) :
  AppOptions.packager
    (fold_left (fun o keyToUnset => AppOptions.setUndefined keyToUnset o) keys options)
  = AppOptions.packager options.
Proof.
  revert options. induction keys as [|k keys IH]; intros options; simpl.
  - reflexivity.
  - rewrite IH. reflexivity.
Qed.

Lemma trimUnprocessableOptions_keeps_packager
      (w : World) (options : AppOptions.t) (tr : Trace) :
  exists (options' : AppOptions.t) (tr' : Trace),
    trimUnprocessableOptions w options tr = (Returned options', tr')
    /\ AppOptions.packager options' = AppOptions.packager options.
Proof.
  unfold trimUnprocessableOptions.
  destruct (_ && _); [|do 2 eexists; split; reflexivity].
  destruct (optionsPresent options) as [|k keys].
  - do 2 eexists; split; reflexivity.
  - unfold bind, log, ret. do 2 eexists. split; [reflexivity|].
    apply setUndefined_fold_keeps_packager.
Qed.

(** C2, at the failing input.  The configuration targets [win32] with
    the icon [/x/icon.ico], a copyright and an app version; the host is
    Linux without Wine.  The constraint filter leaves the configuration as
    it is, the icon included, and logs no warning. *)
Theorem windows_icon_survives_constraint_filter :
  Packager.platform (AppOptions.packager Scenario.windowsWithIcon) = Some "win32"
  /\ isWindows Scenario.linuxHost = false
  /\ hasWine Scenario.linuxHost = false
  /\ Packager.icon (AppOptions.packager Scenario.windowsWithIcon) = Some "/x/icon.ico"
  /\ run (trimUnprocessableOptions Scenario.linuxHost Scenario.windowsWithIcon)
     = (Returned Scenario.windowsWithIcon, []).
Proof. repeat split. Qed.

(** ** Footprints of the stages *)

Lemma emits_ret {A : Type} (P : Event -> bool) (a : A) : emits P (ret a).
Proof. intros tr. exists []. split; [simpl; now rewrite app_nil_r | reflexivity]. Qed.

Lemma emits_throw {A : Type} (P : Event -> bool) (e : Error) : emits P (@throw A e).
Proof. intros tr. exists []. split; [simpl; now rewrite app_nil_r | reflexivity]. Qed.

Lemma emits_perform {A : Type} (P : Event -> bool) (ev : Event)
      (answer : Trace -> Outcome A) :
  P ev = true -> emits P (perform ev answer).
Proof. intros H tr. exists [ev]. split; [reflexivity | simpl; now rewrite H]. Qed.

Lemma emits_log (P : Event -> bool) (lvl : Level) (args : list LogArg) :
  P (Log lvl args) = true -> emits P (log lvl args).
Proof. intros H tr. exists [Log lvl args]. split; [reflexivity | simpl; now rewrite H]. Qed.

Lemma emits_emit (P : Event -> bool) (ev : Event) :
  P ev = true -> emits P (emit ev).
Proof. intros H tr. exists [ev]. split; [reflexivity | simpl; now rewrite H]. Qed.

Lemma emits_bind {A B : Type} (P : Event -> bool) (c : M A) (k : A -> M B) :
  emits P c -> (forall a, emits P (k a)) -> emits P (bind c k).
Proof.
  intros Hc Hk tr. destruct (Hc tr) as (evs1 & H1 & F1). unfold bind.
  destruct (c tr) as [[e|a] tr1]; simpl in H1; subst tr1.
  - exists evs1. now split.
  - destruct (Hk a (tr ++ evs1)%list) as (evs2 & H2 & F2).
    exists (evs1 ++ evs2)%list. split.
    + now rewrite H2, app_assoc.
    + now rewrite forallb_app, F1, F2.
Qed.

Lemma emits_tryCatch {A : Type} (P : Event -> bool) (body : M A)
      (handler : Error -> M A) :
  emits P body -> (forall e, emits P (handler e)) -> emits P (tryCatch body handler).
Proof.
  intros Hb Hh tr. destruct (Hb tr) as (evs1 & H1 & F1). unfold tryCatch.
  destruct (body tr) as [[e|a] tr1]; simpl in H1; subst tr1.
  - destruct (Hh e (tr ++ evs1)%list) as (evs2 & H2 & F2).
    exists (evs1 ++ evs2)%list. split.
    + now rewrite H2, app_assoc.
    + now rewrite forallb_app, F1, F2.
  - exists evs1. now split.
Qed.

Lemma emits_weaken {A : Type} (P Q : Event -> bool) (c : M A) :
  (forall ev, P ev = true -> Q ev = true) -> emits P c -> emits Q c.
Proof.
  intros HPQ Hc tr. destruct (Hc tr) as (evs & H & F). exists evs. split; [exact H|].
  rewrite forallb_forall in *. auto.
Qed.

(** events of a kind the computation does not emit are neither added nor
    removed *)
Lemma emits_keeps {A : Type} (P Q : Event -> bool) (c : M A) (tr : Trace) :
  emits P c -> (forall ev, P ev = true -> Q ev = false) ->
  existsb Q (snd (c tr)) = existsb Q tr.
Proof.
  intros Hc HPQ. destruct (Hc tr) as (evs & H & F). rewrite H, existsb_app.
  assert (Hno : existsb Q evs = false).
  { clear H. induction evs as [|ev evs IH]; [reflexivity|].
    simpl in *. apply andb_true_iff in F. destruct F as [F1 F2].
    now rewrite (HPQ ev F1), (IH F2). }
  rewrite Hno. apply orb_false_r.
Qed.

Ltac emits_with known :=
  repeat first
         [ known
         | apply emits_ret
         | apply emits_throw
         | apply emits_log; reflexivity
         | apply emits_emit; reflexivity
         | apply emits_perform; reflexivity
         | apply emits_bind; [|intros ?]
         | apply emits_tryCatch; [|intros ?]
         | match goal with
           | |- emits _ (if ?b then _ else _) => destruct b
           | |- emits _ (match ?x with _ => _ end) => destruct x
           end ].

Ltac emits_tac := emits_with fail.

(** a footprint already proved, under a wider description *)
Ltac emits_from lemma :=
  eapply emits_weaken; [|apply lemma];
  let ev := fresh "ev" in
  let H := fresh "H" in
  intros ev H; destruct ev as [| | [] | | | | | | | | |];
  first [reflexivity | discriminate].

Lemma emits_copyIconsIfNecessary (w : World) (options : AppOptions.t) (appPath : string) :
  emits isIconCopyEvent (copyIconsIfNecessary w options appPath).
Proof. unfold copyIconsIfNecessary, fsCall. emits_tac. Qed.

Lemma emits_trimUnprocessableOptions (w : World) (options : AppOptions.t) :
  emits isLogCall (trimUnprocessableOptions w options).
Proof. unfold trimUnprocessableOptions. emits_tac. Qed.

Lemma emits_upgradeStage (w : World) (rawOptions : RawOptions.t) :
  emits (fun ev => isLog ev || match ev with GetTempDir _ _ => true | _ => false end)
        (upgradeStage w rawOptions).
Proof. unfold upgradeStage, tempDir. emits_tac. Qed.

Lemma emits_resolveStage (w : World) (rawOptions : RawOptions.t) :
  emits (fun ev => negb (isFinalization ev) && negb (isEngine ev) && negb (isStaging ev))
        (resolveStage w rawOptions).
Proof.
  unfold resolveStage.
  emits_with ltac:(emits_from emits_upgradeStage).
Qed.

Lemma emits_packageStage_events (w : World) (rawOptions : RawOptions.t)
      (options : AppOptions.t) :
  emits isPackageStageEvent (packageStage w rawOptions options).
Proof.
  unfold packageStage, tempDir.
  emits_with ltac:(first [ emits_from emits_copyIconsIfNecessary
                         | emits_from emits_trimUnprocessableOptions ]).
Qed.

Lemma emits_packageStage (w : World) (rawOptions : RawOptions.t) (options : AppOptions.t) :
  emits isPackaging (packageStage w rawOptions options).
Proof. emits_from emits_packageStage_events. Qed.

Lemma emits_finishStage (w : World) (options : AppOptions.t) (appPath : string) :
  emits isFinishEvent (finishStage w options appPath).
Proof.
  unfold finishStage, linuxFinalize, createLinuxDesktopLauncher,
    createLinuxDesktopLauncherBody, installLinuxApp, installLinuxAppBody,
    fsCall, spawn, import.
  emits_tac.
Qed.

Lemma emits_upgradeFinalize (w : World) (options : AppOptions.t)
      (appPath finalOutDirectory : string) :
  emits (fun ev => isDirectCopy ev || isLog ev)
        (upgradeFinalize w options appPath finalOutDirectory).
Proof. unfold upgradeFinalize, fsCall. emits_tac. Qed.

Lemma emits_packagedApp (w : World) (rawOptions : RawOptions.t) :
  emits isPackaging (packagedApp w rawOptions).
Proof.
  unfold packagedApp, platformGuard, appPathStage, getAppPath.
  emits_with ltac:(first [ emits_from emits_resolveStage
                         | apply emits_packageStage
                         | emits_from emits_upgradeFinalize ]).
Qed.

(** ** More properties of the build *)

(** X1. Upgrade normalization is one-shot: once [isUpgrade] has run, a
    second run on the request it left answers [false] and changes
    nothing; and a request whose [upgrade] is a boolean is never an
    upgrade. *)
Theorem isUpgrade_one_shot (r : RawOptions.t) (b : bool) :
  isUpgrade (snd (isUpgrade r)) = (false, snd (isUpgrade r))
  /\ isUpgrade (RawOptions.setUpgrade (UpgradeFlag b) r)
     = (false, RawOptions.setUpgrade (UpgradeFlag b) r).
Proof.
  split; [|reflexivity].
  unfold isUpgrade. destruct (RawOptions.upgrade r) as [|b'|[|c s]] eqn:Hup; simpl;
    try rewrite Hup; reflexivity.
Qed.

Lemma upgradeStage_not_found (w : World) (rawOptions : RawOptions.t) (p : string)
      (tr : Trace) :
  RawOptions.upgrade rawOptions = UpgradePath p -> p <> "" ->
  findUpgradeApp w p = None ->
  upgradeStage w rawOptions tr
  = (Threw (upgradeNotFound p),
     (tr ++ [Log Debug [Text "Attempting to upgrade from"; Maybe (Some p)]])%list).
Proof.
  intros Hup Hne Hfind. unfold upgradeStage, isUpgrade.
  destruct p as [|c s]; [congruence|].
  assert (Hup' : RawOptions.upgrade
                   (if negb (Js.truthyStr (RawOptions.out rawOptions))
                    then RawOptions.setOut (Some (pathJoin w [cwd w; "output-apps"]))
                                           rawOptions
                    else rawOptions) = UpgradePath (String c s)).
  { destruct (negb _); simpl; exact Hup. }
  rewrite Hup'. simpl. unfold bind, log. simpl. rewrite Hfind. reflexivity.
Qed.



(** X3. When the options resolver rejects the request of a build that is
    no upgrade, the build fails with the resolver's error, unchanged, and
    neither stages the app nor calls the packaging engine. *)
Theorem resolver_error_stops_build
        (w : World) (rawOptions : RawOptions.t) (e : Error) (tr : Trace) :
  (forall (t : Trace) (r : RawOptions.t), getOptions w t r = Threw e) ->
  fst (isUpgrade rawOptions) = false ->
  fst (buildNativefierApp w rawOptions tr) = Threw e
  /\ staged (snd (buildNativefierApp w rawOptions tr)) = staged tr
  /\ existsb isEngine (snd (buildNativefierApp w rawOptions tr)) = existsb isEngine tr.
Proof.
  intros Hreject Hfresh.
  assert (Hfresh' : forall r', RawOptions.upgrade r' = RawOptions.upgrade rawOptions ->
                               isUpgrade r' = (false, r')).
  { intros r' Hr'. unfold isUpgrade in *. rewrite Hr'.
    destruct (RawOptions.upgrade rawOptions) as [|b|[|c s]]; try reflexivity.
    discriminate. }
  assert (Hres : exists tr1, resolveStage w rawOptions tr = (Threw e, tr1)).
  { unfold resolveStage, upgradeStage.
    rewrite Hfresh' by (destruct (negb _); reflexivity).
    unfold bind. destruct (Js.truthyBool (RawOptions.quiet rawOptions));
      unfold emit, ret, log, perform; rewrite Hreject; eexists; reflexivity. }
  destruct Hres as [tr1 Hres].
  assert (Hbuild : buildNativefierApp w rawOptions tr = (Threw e, tr1)).
  { unfold buildNativefierApp, packagedApp, bind. rewrite Hres. reflexivity. }
  rewrite Hbuild. simpl.
  replace tr1 with (snd (resolveStage w rawOptions tr)) by now rewrite Hres.
  split; [reflexivity|]. split.
  - apply resolveStage_keeps_staged.
  - apply (emits_keeps _ isEngine _ tr (emits_resolveStage w rawOptions)).
    intros ev H. apply andb_true_iff in H. destruct H as [H _].
    apply andb_true_iff in H. destruct H as [_ H].
    now apply negb_true_iff in H.
Qed.

(** a host whose resolver rejects every request *)
Lemma resolver_error_stops_build_witness :
  fst (run (buildNativefierApp Cases.rejecting Scenario.linuxRequest))
  = Threw (mkError "Unsupported platform")
  /\ staged (snd (run (buildNativefierApp Cases.rejecting Scenario.linuxRequest))) = false.
Proof.
  destruct (resolver_error_stops_build
              Cases.rejecting Scenario.linuxRequest (mkError "Unsupported platform") []
              (fun _ _ => eq_refl) eq_refl) as (Hfail & Hstaged & _).
  split; [exact Hfail | exact Hstaged].
Defined.

(** X4. The path the build goes on with is the first path the packaging
    engine resolved to, provided it is not the empty string; a result
    without path, or whose first path is empty, fails the build with
    [noAppPath], whatever else the result holds. *)
Theorem appPathStage_first_path (r : PathResult) (tr : Trace) :
  fst (appPathStage r tr)
  = match firstPath r with
    | Some (String c s) => Returned (String c s)
    | _ => Threw noAppPath
    end.
Proof.
  unfold appPathStage, getAppPath, bind, log, ret.
  destruct r as [p|[|p [|q rest]]]; simpl; try reflexivity;
    destruct p; reflexivity.
Qed.

(** X5. A build that fails has not run any step of the Linux
    finalization: it has spawned no subprocess, written or marked no
    desktop entry, and not read the build directory. *)
Theorem failed_build_never_finalizes
        (w : World) (rawOptions : RawOptions.t) (e : Error) (tr : Trace) :
  fst (buildNativefierApp w rawOptions tr) = Threw e ->
  existsb isFinalization (snd (buildNativefierApp w rawOptions tr))
  = existsb isFinalization tr.
Proof.
  intros Hfail. unfold buildNativefierApp, bind in *.
  pose proof (emits_keeps isPackaging isFinalization (packagedApp w rawOptions) tr
                          (emits_packagedApp w rawOptions)) as Hkeep.
  destruct (packagedApp w rawOptions tr) as [[e'|[options appPath]] tr1].
  - simpl in *. apply Hkeep. intros ev H. now apply negb_true_iff in H.
  - simpl in Hfail. rewrite finishStage_returns in Hfail. discriminate.
Qed.

(** an upgrade whose prior install is missing *)
Lemma failed_build_never_finalizes_witness :
  existsb isFinalization
          (snd (run (buildNativefierApp Scenario.brokenDisk Cases.missingUpgrade)))
  = false.
Proof.
  apply (failed_build_never_finalizes
           Scenario.brokenDisk Cases.missingUpgrade
           (mkError ("Could not find an old Nativfier app in " ++ Js.dquote
                     ++ "/opt/Missing" ++ Js.dquote)) []).
  reflexivity.
Defined.

(** ** Counting calls *)

Lemma count_app (Q : Event -> bool) (l1 l2 : list Event) :
  count Q (l1 ++ l2)%list = count Q l1 + count Q l2.
Proof. unfold count. now rewrite filter_app, length_app. Qed.

Lemma count_none (P Q : Event -> bool) (evs : list Event) :
  forallb P evs = true -> (forall ev, P ev = true -> Q ev = false) ->
  count Q evs = 0.
Proof.
  intros F HPQ. unfold count. induction evs as [|ev evs IH]; [reflexivity|].
  simpl in *. apply andb_true_iff in F. destruct F as [F1 F2].
  rewrite (HPQ ev F1). auto.
Qed.

Lemma tally_ret {A : Type} (Q : Event -> bool) (a : A) : tally Q 0 (ret a).
Proof.
  intros tr. exists []. split; [simpl; now rewrite app_nil_r|].
  split; [apply Nat.le_refl | reflexivity].
Qed.

Lemma tally_throw {A : Type} (Q : Event -> bool) (n : nat) (e : Error) :
  tally Q n (@throw A e).
Proof.
  intros tr. exists []. split; [simpl; now rewrite app_nil_r|].
  split; [apply Nat.le_0_l | intros a H; discriminate].
Qed.

Lemma tally_emits {A : Type} (P Q : Event -> bool) (c : M A) :
  emits P c -> (forall ev, P ev = true -> Q ev = false) -> tally Q 0 c.
Proof.
  intros Hc HPQ tr. destruct (Hc tr) as (evs & H & F). exists evs.
  rewrite (count_none P Q evs F HPQ). split; [exact H|]. split; auto.
Qed.

Lemma tally_perform_hit {A : Type} (Q : Event -> bool) (ev : Event)
      (answer : Trace -> Outcome A) :
  Q ev = true -> tally Q 1 (perform ev answer).
Proof.
  intros H tr. exists [ev]. unfold count. simpl. rewrite H.
  split; [reflexivity|]. split; [apply Nat.le_refl | reflexivity].
Qed.

Lemma tally_bind {A B : Type} (Q : Event -> bool) (n m t : nat) (c : M A)
      (k : A -> M B) :
  tally Q n c -> (forall a, tally Q m (k a)) -> n + m = t ->
  tally Q t (bind c k).
Proof.
  intros Hc Hk Hsum tr. destruct (Hc tr) as (evs1 & H1 & L1 & R1). unfold bind.
  destruct (c tr) as [[e|a] tr1]; simpl in H1; subst tr1.
  - exists evs1. split; [reflexivity|]. split; [lia | intros b Hb; discriminate].
  - destruct (Hk a (tr ++ evs1)%list) as (evs2 & H2 & L2 & R2).
    exists (evs1 ++ evs2)%list. rewrite count_app.
    specialize (R1 a eq_refl). split; [|split].
    + now rewrite H2, app_assoc.
    + lia.
    + intros b Hb. specialize (R2 b Hb). lia.
Qed.

Lemma tally_perform_miss {A : Type} (Q : Event -> bool) (ev : Event)
      (answer : Trace -> Outcome A) :
  Q ev = false -> tally Q 0 (perform ev answer).
Proof.
  intros H tr. exists [ev]. unfold count. simpl. rewrite H.
  split; [reflexivity|]. split; [apply Nat.le_refl | reflexivity].
Qed.

Lemma tally_log (Q : Event -> bool) (lvl : Level) (args : list LogArg) :
  Q (Log lvl args) = false -> tally Q 0 (log lvl args).
Proof.
  intros H tr. exists [Log lvl args]. unfold count. simpl. rewrite H.
  split; [reflexivity|]. split; [apply Nat.le_refl | reflexivity].
Qed.

Lemma tally_emit (Q : Event -> bool) (ev : Event) :
  Q ev = false -> tally Q 0 (emit ev).
Proof.
  intros H tr. exists [ev]. unfold count. simpl. rewrite H.
  split; [reflexivity|]. split; [apply Nat.le_refl | reflexivity].
Qed.

(** a part of a stage that adds no event of the kind counted *)
Ltac tally_zero lemma :=
  eapply tally_emits; [apply lemma|];
  let ev := fresh "ev" in
  let H := fresh "H" in
  intros ev H; destruct ev as [| | [] | | | | | | | | |];
  first [reflexivity | discriminate].

Ltac tally_with known :=
  repeat first
         [ known
         | apply tally_ret
         | apply tally_throw
         | apply tally_perform_hit; reflexivity
         | apply tally_perform_miss; reflexivity
         | apply tally_log; reflexivity
         | apply tally_emit; reflexivity
         | eapply tally_bind; [|intros ?|]
         | match goal with
           | |- tally _ _ (if ?b then _ else _) => destruct b
           | |- tally _ _ (match ?x with _ => _ end) => destruct x
           | |- (_ + _ = _)%nat => reflexivity
           end ].

Lemma tally_resolveStage_resolver (w : World) (rawOptions : RawOptions.t) :
  tally isResolver 1 (resolveStage w rawOptions).
Proof.
  unfold resolveStage.
  tally_with ltac:(tally_zero (emits_upgradeStage w rawOptions)).
Qed.

Lemma tally_packageStage_staging (w : World) (rawOptions : RawOptions.t)
      (options : AppOptions.t) :
  tally isStaging 1 (packageStage w rawOptions options).
Proof.
  unfold packageStage, tempDir.
  tally_with ltac:(first [ tally_zero emits_copyIconsIfNecessary
                         | tally_zero emits_trimUnprocessableOptions ]).
Qed.

Lemma tally_packageStage_engine (w : World) (rawOptions : RawOptions.t)
      (options : AppOptions.t) :
  tally isEngine 1 (packageStage w rawOptions options).
Proof.
  unfold packageStage, tempDir.
  tally_with ltac:(first [ tally_zero emits_copyIconsIfNecessary
                         | tally_zero emits_trimUnprocessableOptions ]).
Qed.

(** X6. In every world, a build that returns a path has resolved the
    options exactly once, staged the app exactly once and called the
    packaging engine exactly once; a build that fails has done each at
    most once. *)
Theorem build_calls_collaborators_once (w : World) (rawOptions : RawOptions.t) :
  tally isResolver 1 (buildNativefierApp w rawOptions)
  /\ tally isStaging 1 (buildNativefierApp w rawOptions)
  /\ tally isEngine 1 (buildNativefierApp w rawOptions).
Proof.
  split; [|split];
    unfold buildNativefierApp, packagedApp, platformGuard, appPathStage, getAppPath;
    tally_with ltac:(first [ apply tally_resolveStage_resolver
                           | apply tally_packageStage_staging
                           | apply tally_packageStage_engine
                           | tally_zero emits_resolveStage
                           | tally_zero emits_packageStage_events
                           | tally_zero emits_upgradeFinalize
                           | tally_zero emits_finishStage ]).
Qed.

(** the build of [Scenario.linuxRequest] on a host where all goes well *)
Lemma build_calls_collaborators_once_witness :
  count isResolver (snd (run (buildNativefierApp Scenario.linuxHost Scenario.linuxRequest))) = 1
  /\ count isStaging (snd (run (buildNativefierApp Scenario.linuxHost Scenario.linuxRequest))) = 1
  /\ count isEngine (snd (run (buildNativefierApp Scenario.linuxHost Scenario.linuxRequest))) = 1.
Proof.
  destruct (build_calls_collaborators_once Scenario.linuxHost Scenario.linuxRequest)
    as (Hresolver & Hstaging & Hengine).
  destruct (Hresolver []) as (evs1 & H1 & _ & R1).
  destruct (Hstaging []) as (evs2 & H2 & _ & R2).
  destruct (Hengine []) as (evs3 & H3 & _ & R3).
  unfold run. split; [|split].
  - rewrite H1. apply (R1 "/home/user/output-apps/OldApp-linux-x64"). reflexivity.
  - rewrite H2. apply (R2 "/home/user/output-apps/OldApp-linux-x64"). reflexivity.
  - rewrite H3. apply (R3 "/home/user/output-apps/OldApp-linux-x64"). reflexivity.
Defined.

(** ** Events and results together *)

Lemma follows_ret {A : Type} (P : Event -> Prop) (R : A -> Prop) (a : A) :
  R a -> follows P R (ret a).
Proof.
  intros Ha tr. exists []. split; [simpl; now rewrite app_nil_r|].
  split; [constructor|]. intros a' H. injection H as <-. exact Ha.
Qed.

Lemma follows_perform {A : Type} (P : Event -> Prop) (R : A -> Prop) (ev : Event)
      (answer : Trace -> Outcome A) :
  P ev -> (forall t a, answer t = Returned a -> R a) ->
  follows P R (perform ev answer).
Proof.
  intros Hev Hans tr. exists [ev]. split; [reflexivity|].
  split; [now constructor|]. intros a H. exact (Hans tr a H).
Qed.

Lemma follows_emits {A : Type} (Pb : Event -> bool) (P : Event -> Prop)
      (R : A -> Prop) (c : M A) :
  emits Pb c -> (forall ev, Pb ev = true -> P ev) ->
  (forall tr a, fst (c tr) = Returned a -> R a) ->
  follows P R c.
Proof.
  intros Hc HP HR tr. destruct (Hc tr) as (evs & H & F). exists evs.
  split; [exact H|]. split; [|apply HR].
  rewrite forallb_forall in F. apply Forall_forall. auto.
Qed.

Lemma follows_bind {A B : Type} (P : Event -> Prop) (R1 : A -> Prop) (R : B -> Prop)
      (c : M A) (k : A -> M B) :
  follows P R1 c -> (forall a, R1 a -> follows P R (k a)) -> follows P R (bind c k).
Proof.
  intros Hc Hk tr. destruct (Hc tr) as (evs1 & H1 & F1 & Q1). unfold bind.
  destruct (c tr) as [[e|a] tr1]; simpl in H1; subst tr1.
  - exists evs1. split; [reflexivity|]. split; [exact F1|]. intros b H. discriminate.
  - destruct (Hk a (Q1 a eq_refl) (tr ++ evs1)%list) as (evs2 & H2 & F2 & Q2).
    exists (evs1 ++ evs2)%list. split; [now rewrite H2, app_assoc|].
    split; [now apply Forall_app | exact Q2].
Qed.

Lemma trimUnprocessableOptions_returns_packager
      (w : World) (options a : AppOptions.t) (tr : Trace) :
  fst (trimUnprocessableOptions w options tr) = Returned a ->
  AppOptions.packager a = AppOptions.packager options.
Proof.
  intros H.
  destruct (trimUnprocessableOptions_keeps_packager w options tr)
    as (o' & tr' & Heq & Hpk).
  rewrite Heq in H. simpl in H. injection H as <-. exact Hpk.
Qed.

Lemma follows_packageStage (w : World) (rawOptions : RawOptions.t)
      (options : AppOptions.t) :
  (forall (t : Trace) (o : AppOptions.t),
      Packager.dir (AppOptions.packager (convertIconIfNecessary w t o))
      = Packager.dir (AppOptions.packager o)) ->
  follows (engineConfigOk w rawOptions) (fun _ => True)
          (packageStage w rawOptions options).
Proof.
  intros Hkeep.
  assert (Hother : forall Pb : Event -> bool,
             (forall ev, Pb ev = true -> isEngine ev = false) ->
             forall ev, Pb ev = true -> engineConfigOk w rawOptions ev).
  { intros Pb HPb ev Hev pk Heq. subst ev. specialize (HPb _ Hev). discriminate. }
  assert (Hlog : forall lvl args, follows (engineConfigOk w rawOptions)
                                          (fun _ : unit => True) (log lvl args)).
  { intros lvl args.
    apply (follows_emits isLogCall); [now apply emits_log| |auto].
    apply Hother. intros []; try reflexivity; discriminate. }
  unfold packageStage.
  eapply follows_bind; [apply Hlog | intros _ _].
  apply (follows_bind _ (fun tmp => exists t, getTempDir w t "app" 493 = Returned tmp)).
  { apply follows_perform; [intros pk H; discriminate|]. intros t a H. now exists t. }
  intros tmpPath Htmp.
  eapply (follows_bind _ (fun _ => True)).
  { apply follows_perform; [intros pk H; discriminate | auto]. }
  intros _ _.
  eapply follows_bind; [apply Hlog | intros _ _].
  apply (follows_bind _ (fun o => Packager.dir (AppOptions.packager o) = tmpPath)).
  { apply follows_perform; [intros pk H; discriminate|].
    intros t a H. injection H as <-. now rewrite Hkeep. }
  intros converted Hdir.
  eapply (follows_bind _ (fun _ => True)).
  { apply (follows_emits isIconCopyEvent); [apply emits_copyIconsIfNecessary| |auto].
    apply Hother. intros [| |[]| | | | | | | | |]; try reflexivity; discriminate. }
  intros _ _. cbv zeta.
  eapply follows_bind; [apply Hlog | intros _ _].
  eapply (follows_bind _ (fun o => AppOptions.packager o = _)).
  { apply (follows_emits isLogCall); [apply emits_trimUnprocessableOptions| |].
    - apply Hother. intros []; try reflexivity; discriminate.
    - intros tr a. apply trimUnprocessableOptions_returns_packager. }
  intros trimmed Htrimmed.
  eapply (follows_bind _ (fun _ => True)).
  { apply (follows_emits (fun ev => negb (isEngine ev))); [now apply emits_emit| |auto].
    apply Hother. intros ev H. now apply negb_true_iff in H. }
  intros _ _.
  eapply (follows_bind _ (fun _ => True)).
  { apply follows_perform; [|auto].
    intros pk H. injection H as <-. rewrite Htrimmed. simpl.
    split; [reflexivity|]. destruct Htmp as [t Ht]. exists t. now rewrite Hdir. }
  intros appPathArray _. now apply follows_ret.
Qed.



(** X8. An overwriting upgrade whose copy onto the prior install fails
    throws the error of the copy and leaves the build output where it is:
    the only removal it may have attempted is the one of the frameworks of
    the old bundle. *)
Theorem failed_relocation_keeps_build_output
        (w : World) (options : AppOptions.t) (appPath finalOutDirectory : string)
        (e : Error) (tr : Trace) :
  let packager := AppOptions.packager options in
  Js.truthyBool (Packager.upgrade packager) = true ->
  Js.truthyStr (Packager.upgradeFrom packager) = true ->
  Js.truthyBool (Packager.overwrite packager) = true ->
  (forall (t : Trace) (src dest : string) (o : option CopyOptions),
      fs w t (Copy src dest o) = Threw e) ->
  fst (upgradeFinalize w options appPath finalOutDirectory tr) = Threw e
  /\ (forall q : string,
         In (Fs (Remove q)) (snd (upgradeFinalize w options appPath finalOutDirectory tr)) ->
         In (Fs (Remove q)) tr
         \/ q = pathJoin w [finalOutDirectory; bundleName options; "Contents"; "Frameworks"]).
Proof.
  intros packager Hupgrade Hfrom Hoverwrite Hcopy.
  unfold upgradeFinalize. fold packager. rewrite Hupgrade, Hfrom, Hoverwrite. simpl.
  destruct (isPlatform (Packager.platform packager) "darwin").
  - unfold_m.
    destruct (fs w tr (Remove _)) as [err|[]]; rewrite Hcopy; simpl;
      (split; [reflexivity|]); intros q Hin;
        repeat (apply in_app_or in Hin; destruct Hin as [Hin|Hin]); auto;
          simpl in Hin; destruct Hin as [Hin|Hin]; try contradiction;
            try discriminate; injection Hin as <-; now right.
  - unfold_m. rewrite Hcopy. simpl. split; [reflexivity|]. intros q Hin.
    apply in_app_or in Hin. destruct Hin as [Hin|Hin]; [now left|].
    simpl in Hin. destruct Hin as [Hin|[]]. discriminate.
Qed.

(** an upgrade for [linux] on a disk where every copy fails *)
Lemma failed_relocation_keeps_build_output_witness :
  upgradeFinalize Cases.rejecting (Scenario.overwritingUpgrade "linux")
                  "/tmp/nativefier-appUpgrade/OldApp-linux-x64" "/opt/OldApp" []
  = (Threw (mkError "EACCES: permission denied"),
     [Fs (Copy "/tmp/nativefier-appUpgrade/OldApp-linux-x64" "/opt/OldApp"
               (Some {| copyOverwrite := Some true; preserveTimestamps := true |}))]).
Proof.
  pose proof (failed_relocation_keeps_build_output
                Cases.rejecting (Scenario.overwritingUpgrade "linux")
                "/tmp/nativefier-appUpgrade/OldApp-linux-x64" "/opt/OldApp"
                (mkError "EACCES: permission denied") []
                eq_refl eq_refl eq_refl (fun _ _ _ _ => eq_refl)) as [Hfail _].
  destruct (upgradeFinalize _ _ _ _ _) as [o t] eqn:Hrun.
  simpl in Hfail. subst o. vm_compute in Hrun. injection Hrun as <-. reflexivity.
Defined.

(** X9. The install into [/opt] goes one of two ways, never both: run by
    root, or on a host whose [process] has no [getuid], it spawns no
    subprocess; run by any other user it removes and copies nothing
    itself, leaving both to [sudo]. *)
Theorem installLinuxApp_sudo_or_direct (w : World) (appPath appName : string) :
  (getuid w = Some 0%Z \/ getuid w = None ->
   emits (fun ev => negb (isSpawn ev)) (installLinuxApp w appPath appName))
  /\ (forall uid : Z, getuid w = Some uid -> uid <> 0%Z ->
      emits (fun ev => negb (isDirectCopy ev)) (installLinuxApp w appPath appName)).
Proof.
  split.
  - intros Huid. unfold installLinuxApp, installLinuxAppBody, fsCall, spawn, import.
    destruct Huid as [Huid|Huid]; rewrite Huid; cbn [Z.eqb negb]; emits_tac.
  - intros uid Huid Hne. unfold installLinuxApp, installLinuxAppBody, fsCall, spawn, import.
    rewrite Huid. rewrite (proj2 (Z.eqb_neq uid 0) Hne). cbn [negb]. emits_tac.
Qed.

(** the install run by root, and run by the user 1000 *)
Lemma installLinuxApp_sudo_or_direct_witness :
  existsb isSpawn (snd (run (installLinuxApp Cases.asRoot "/tmp/out/MyApp-linux-x64" "MyApp")))
  = false
  /\ existsb isDirectCopy
             (snd (run (installLinuxApp Scenario.linuxHost "/tmp/out/MyApp-linux-x64" "MyApp")))
     = false.
Proof.
  split.
  - apply (emits_keeps (fun ev => negb (isSpawn ev)) isSpawn _ []).
    + apply (proj1 (installLinuxApp_sudo_or_direct
                      Cases.asRoot "/tmp/out/MyApp-linux-x64" "MyApp")).
      left. reflexivity.
    + intros ev H. now apply negb_true_iff in H.
  - apply (emits_keeps (fun ev => negb (isDirectCopy ev)) isDirectCopy _ []).
    + apply (proj2 (installLinuxApp_sudo_or_direct
                      Scenario.linuxHost "/tmp/out/MyApp-linux-x64" "MyApp") 1000%Z).
      * reflexivity.
      * discriminate.
    + intros ev H. now apply negb_true_iff in H.
Defined.

Ltac trace_leaf :=
  repeat rewrite <- app_assoc; simpl; eexists; split; [reflexivity|];
  split; [reflexivity | simpl; tauto].

(** X10. Run by a user other than root, an install whose [sudo cp] does
    not succeed (it throws, is killed, or exits with a status other than
    0) gives up: it returns normally, writes and marks no desktop entry,
    and logs the instructions for a manual install.  A failed [sudo rm]
    alone does not make it give up: the copy is still attempted. *)
Theorem installLinuxApp_gives_up_when_copy_fails
        (w : World) (appPath appName : string) (uid : Z) (tr : Trace) :
  getuid w = Some uid -> uid <> 0%Z ->
  (forall t : Trace,
      match spawnSync w t "sudo" ["cp"; "-r"; appPath; pathJoin w ["/opt"; appName]] with
      | Returned status => statusNotZero status = true
      | Threw _ => True
      end) ->
  exists evs : list Event,
    installLinuxApp w appPath appName tr = (Returned tt, (tr ++ evs)%list)
    /\ existsb isDesktopEntryWrite evs = false
    /\ In manualInstall evs.
Proof.
  intros Huid Hne Hcp.
  unfold installLinuxApp, installLinuxAppBody, manualInstall.
  rewrite Huid. rewrite (proj2 (Z.eqb_neq uid 0) Hne). cbn [negb].
  unfold_m.
  destruct (importModule w tr "child_process") as [e1|[]]; [trace_leaf|].
  destruct (importModule w _ "os") as [e2|[]]; [trace_leaf|].
  destruct (spawnSync w _ "sudo" ["rm"; _; _]) as [e3|rm]; [trace_leaf|].
  destruct (statusNotZero rm).
  - match goal with
    | |- context [spawnSync w ?t "sudo" ["cp"; "-r"; appPath; ?o]] =>
      specialize (Hcp t); destruct (spawnSync w t "sudo" ["cp"; "-r"; appPath; o]) as [e4|cp]
    end; [trace_leaf|]. rewrite Hcp. trace_leaf.
  - match goal with
    | |- context [spawnSync w ?t "sudo" ["cp"; "-r"; appPath; ?o]] =>
      specialize (Hcp t); destruct (spawnSync w t "sudo" ["cp"; "-r"; appPath; o]) as [e4|cp]
    end; [trace_leaf|]. rewrite Hcp. trace_leaf.
Qed.

(** a host on which [sudo rm] is killed and [sudo cp] exits with 1 *)
Lemma installLinuxApp_gives_up_when_copy_fails_witness :
  installLinuxApp Cases.rejecting "/tmp/out/MyApp-linux-x64" "MyApp" []
  = (Returned tt,
     [ImportModule "child_process"; ImportModule "os";
      Log Info [Text "Installing MyApp to /opt/MyApp..."];
      SpawnSync "sudo" ["rm"; "-rf"; "/opt/MyApp"];
      Log Warn [Text "Failed to remove old installation at /opt/MyApp"];
      SpawnSync "sudo" ["cp"; "-r"; "/tmp/out/MyApp-linux-x64"; "/opt/MyApp"];
      Log Warn [Text "Failed to install app to /opt:";
                Caught (mkError "Failed to copy app to /opt/MyApp")];
      manualInstall]).
Proof.
  destruct (installLinuxApp_gives_up_when_copy_fails
              Cases.rejecting "/tmp/out/MyApp-linux-x64" "MyApp" 1000%Z []
              eq_refl ltac:(discriminate) (fun _ => eq_refl)) as (evs & Hrun & _).
  rewrite Hrun. vm_compute in Hrun. injection Hrun as <-. reflexivity.
Defined.

(** X11. Run by a user other than root on a host where [sudo cp] succeeds
    and the file system answers, the install writes the desktop entry
    into the applications directory of the user and marks it executable,
    whatever the statuses of [sudo rm] and [sudo chown]. *)
Theorem installLinuxApp_tolerates_rm_and_chown
        (w : World) (appPath appName : string) (uid : Z) (tr : Trace) :
  getuid w = Some uid -> uid <> 0%Z ->
  (forall (t : Trace) (m : string), importModule w t m = Returned tt) ->
  (forall (t : Trace) (cmd : string) (args : list string),
      exists status, spawnSync w t cmd args = Returned status) ->
  (forall t : Trace,
      spawnSync w t "sudo" ["cp"; "-r"; appPath; pathJoin w ["/opt"; appName]]
      = Returned (Some 0%Z)) ->
  (forall (t : Trace) (op : FsOp), fs w t op = Returned tt) ->
  let entry :=
      pathJoin w [pathJoin w [homedir w; ".local"; "share"; "applications"];
                  appName ++ ".desktop"] in
  fst (installLinuxApp w appPath appName tr) = Returned tt
  /\ (exists content : string,
         In (Fs (WriteFile entry content)) (snd (installLinuxApp w appPath appName tr)))
  /\ In (Fs (Chmod entry 493)) (snd (installLinuxApp w appPath appName tr))
  /\ ~ In manualInstall (skipn (length tr) (snd (installLinuxApp w appPath appName tr))).
Proof.
  intros Huid Hne Himport Hspawn Hcp Hfs entry.
  unfold installLinuxApp, installLinuxAppBody.
  rewrite Huid. rewrite (proj2 (Z.eqb_neq uid 0) Hne). cbn [negb].
  unfold_m. rewrite !Himport.
  match goal with
  | |- context [spawnSync w ?t "sudo" ["rm"; "-rf"; ?o]] =>
    destruct (Hspawn t "sudo" ["rm"; "-rf"; o]) as [rm Hrm]; rewrite Hrm
  end.
  destruct (statusNotZero rm); rewrite Hcp; cbn [statusNotZero Z.eqb negb];
    match goal with
    | |- context [spawnSync w ?t "sudo" ("chown" :: ?a)] =>
      destruct (Hspawn t "sudo" ("chown" :: a)) as [chown Hchown]; rewrite Hchown
    end; rewrite !Hfs; cbn [fst snd];
      repeat rewrite <- app_assoc; cbn [app];
        (split; [reflexivity|]);
        (split; [eexists; apply in_or_app; right; simpl; tauto|]);
        (split; [apply in_or_app; right; simpl; tauto|]);
        rewrite skipn_app, skipn_all, Nat.sub_diag; simpl;
          unfold manualInstall; intros Hin;
            repeat (destruct Hin as [Hin|Hin]; [discriminate|]); exact Hin.
Qed.

(** a host on which [sudo rm] exits with 1 and [sudo chown] is killed *)
Lemma installLinuxApp_tolerates_rm_and_chown_witness :
  fst (run (installLinuxApp Cases.stubbornOpt "/tmp/out/MyApp-linux-x64" "MyApp"))
  = Returned tt
  /\ In (Fs (Chmod "/home/user/.local/share/applications/MyApp.desktop" 493))
        (snd (run (installLinuxApp Cases.stubbornOpt "/tmp/out/MyApp-linux-x64" "MyApp")))
  /\ In (Log Warn [Text "Failed to remove old installation at /opt/MyApp"])
        (snd (run (installLinuxApp Cases.stubbornOpt "/tmp/out/MyApp-linux-x64" "MyApp"))).
Proof.
  destruct (installLinuxApp_tolerates_rm_and_chown
              Cases.stubbornOpt "/tmp/out/MyApp-linux-x64" "MyApp" 1000%Z []
              eq_refl ltac:(discriminate) (fun _ _ => eq_refl)
              (fun t cmd args => ex_intro _ _ eq_refl)
              (fun _ => eq_refl) (fun _ _ => eq_refl))
    as (Hret & _ & Hchmod & _).
  split; [exact Hret|]. split; [exact Hchmod|].
  vm_compute. do 4 right. left. reflexivity.
Defined.

Lemma removeWhitespace_plain_head (c : ascii) (rest : string) :
  (Js.byte c <? 128)%nat = true -> Js.space1 c = false ->
  Js.removeWhitespace (String c rest) = String c (Js.removeWhitespace rest).
Proof.
  intros Hlow Hspace. apply Nat.ltb_lt in Hlow.
  assert (H2 : forall c2, Js.space2 c c2 = false).
  { intros c2. unfold Js.space2.
    destruct (Nat.eqb_spec (Js.byte c) 194); [lia | reflexivity]. }
  assert (H3 : forall c2 c3, Js.space3 c c2 c3 = false).
  { intros c2 c3. unfold Js.space3.
    destruct (Nat.eqb_spec (Js.byte c) 225); [lia|].
    destruct (Nat.eqb_spec (Js.byte c) 226); [lia|].
    destruct (Nat.eqb_spec (Js.byte c) 227); [lia|].
    destruct (Nat.eqb_spec (Js.byte c) 239); [lia|]. reflexivity. }
  cbn [Js.removeWhitespace]. rewrite Hspace.
  destruct rest as [|c2 [|c3 r3]]; try reflexivity; rewrite H2; try reflexivity.
  now rewrite H3.
Qed.

(** X12. The window class derived from an app name (the name with its
    whitespace removed) never holds a tab, line feed, vertical tab, form
    feed, carriage return or space; and an app name made of ASCII
    characters other than those is its own window class. *)
Theorem window_class_of_app_name (appName : string) :
  noSpace1 (Js.removeWhitespace appName) = true
  /\ (plainAscii appName = true -> Js.removeWhitespace appName = appName).
Proof.
  split; [apply removeWhitespace_no_space|].
  unfold plainAscii. induction appName as [|c rest IH]; [reflexivity|].
  cbn [list_ascii_of_string forallb]. intros H.
  apply andb_true_iff in H. destruct H as [Hc Hrest].
  apply andb_true_iff in Hc. destruct Hc as [Hlow Hspace].
  apply negb_true_iff in Hspace.
  rewrite (removeWhitespace_plain_head c rest Hlow Hspace). now rewrite IH.
Qed.

(** the app name [MyApp] *)
Lemma window_class_of_app_name_witness :
  Js.removeWhitespace "MyApp" = "MyApp".
Proof.
  apply (proj2 (window_class_of_app_name "MyApp")). reflexivity.
Defined.

(** ** The main window: notification payloads *)

(** the number a value is, if it is one: [typeof v === 'number'] *)
Lemma getProp_string_is_object {number : Type} (k : string) (v : Dyn.value number)
      (s : string) :
  Dyn.getProp k v = Dyn.Str s -> Dyn.isObject v = true /\ Dyn.hasProp k v = true.
Proof.
  destruct v; simpl; try discriminate.
  destruct (Dyn.lookup k props); [auto | discriminate].
Qed.

(** X13. What [normalizeRendererNotificationPayload] accepts: exactly the
    payloads that are a string or have a string as [title].  For an
    accepted payload the title is that string, the id is the payload's
    [id] (none for a string), and the options are never [null] or
    [undefined]. *)
Theorem normalizeRendererNotificationPayload_accepts
        {number : Type} (rawPayload legacyOptions : Dyn.value number) :
  match MainWindow.normalizeRendererNotificationPayload rawPayload legacyOptions with
  | Some n =>
    Dyn.isNullish (MainWindow.options n) = false
    /\ ((rawPayload = Dyn.Str (MainWindow.title n)
         /\ MainWindow.id n = Dyn.Undefined
         /\ MainWindow.options n = Dyn.orElse legacyOptions (Dyn.Obj []))
        \/ (Dyn.getProp "title" rawPayload = Dyn.Str (MainWindow.title n)
            /\ MainWindow.id n = Dyn.getProp "id" rawPayload
            /\ MainWindow.options n
               = Dyn.orElse (Dyn.getProp "options" rawPayload) (Dyn.Obj [])))
  | None =>
    Dyn.isString rawPayload = false
    /\ Dyn.isString (Dyn.getProp "title" rawPayload) = false
  end.
Proof.
  assert (Hor : forall v : Dyn.value number,
             Dyn.isNullish (Dyn.orElse v (Dyn.Obj [])) = false).
  { intros []; reflexivity. }
  unfold MainWindow.normalizeRendererNotificationPayload.
  destruct rawPayload; simpl; auto; try (split; [apply Hor | left; auto]).
  destruct (Dyn.lookup "title" props) as [[]|]; simpl; auto.
Qed.

(** X14. The two readers of a payload agree on its id: for every payload
    that [normalizeRendererNotificationPayload] accepts,
    [extractNotificationId] finds a number exactly when the normalized id
    is a number, and then the same one; in particular an id that is a
    string, [null] or missing is no id for either. *)
Theorem extractNotificationId_agrees_with_normalized_id
        {number : Type} (rawPayload legacyOptions : Dyn.value number) :
  match MainWindow.normalizeRendererNotificationPayload rawPayload legacyOptions with
  | Some n =>
    MainWindow.extractNotificationId rawPayload
    = match MainWindow.id n with
      | Dyn.Num k => Some k
      | _ => None
      end
  | None => True
  end.
Proof.
  unfold MainWindow.normalizeRendererNotificationPayload, MainWindow.extractNotificationId.
  destruct rawPayload; simpl; auto.
  destruct (Dyn.lookup "title" props) as [[]|]; simpl; auto.
Qed.

(** X15. The title of a native notification is never empty: it is the
    title of the payload, or else the name of the app, or else
    [Notification]; applying the fallback twice, as the handler and
    [showNativeNotification] do, changes nothing. *)
Theorem nativeNotificationTitle_never_empty (normalizedTitle : string)
        (name : option string) :
  MainWindow.nativeNotificationTitle normalizedTitle name <> ""
  /\ MainWindow.nativeNotificationTitle normalizedTitle name
     = MainWindow.orString
         (MainWindow.orString normalizedTitle (Js.nullish name "")) "Notification".
Proof.
  unfold MainWindow.nativeNotificationTitle, MainWindow.orString.
  destruct normalizedTitle; destruct name as [[|]|]; simpl; split;
    first [discriminate | reflexivity].
Qed.

(** ** The main window: the [session-interaction] handler *)

Lemma eff_follows_ret {E A : Type} (P : E -> Prop) (R : A -> Prop) (a : A) :
  R a -> Eff.follows P R (Eff.ret a).
Proof.
  intros Ha tr. exists []. split; [simpl; now rewrite app_nil_r|].
  split; [constructor|]. intros a' H. injection H as <-. exact Ha.
Qed.

Lemma eff_follows_throw {E A : Type} (P : E -> Prop) (R : A -> Prop) (e : Error) :
  Eff.follows P R (@Eff.throw E A e).
Proof.
  intros tr. exists []. split; [simpl; now rewrite app_nil_r|].
  split; [constructor|]. intros a' H. discriminate.
Qed.

Lemma eff_follows_perform {E A : Type} (P : E -> Prop) (R : A -> Prop) (ev : E)
      (answer : list E -> Outcome A) :
  P ev -> (forall t a, answer t = Returned a -> R a) ->
  Eff.follows P R (Eff.perform ev answer).
Proof.
  intros Hev Hans tr. exists [ev]. split; [reflexivity|].
  split; [now constructor|]. intros a H. exact (Hans tr a H).
Qed.

Lemma eff_follows_emit {E : Type} (P : E -> Prop) (R : unit -> Prop) (ev : E) :
  P ev -> R tt -> Eff.follows P R (Eff.emit ev).
Proof.
  intros Hev HR tr. exists [ev]. split; [reflexivity|].
  split; [now constructor|]. intros [] _. exact HR.
Qed.

Lemma eff_follows_bind {E A B : Type} (P : E -> Prop) (R1 : A -> Prop)
      (R : B -> Prop) (c : Eff.Run E A) (k : A -> Eff.Run E B) :
  Eff.follows P R1 c -> (forall a, R1 a -> Eff.follows P R (k a)) ->
  Eff.follows P R (Eff.bind c k).
Proof.
  intros Hc Hk tr. destruct (Hc tr) as (evs1 & H1 & F1 & Q1). unfold Eff.bind.
  destruct (c tr) as [[e|a] tr1]; simpl in H1; subst tr1.
  - exists evs1. split; [reflexivity|]. split; [exact F1|]. intros b H. discriminate.
  - destruct (Hk a (Q1 a eq_refl) (tr ++ evs1)%list) as (evs2 & H2 & F2 & Q2).
    exists (evs1 ++ evs2)%list. split; [now rewrite H2, app_assoc|].
    split; [now apply Forall_app | exact Q2].
Qed.

Lemma eff_follows_tryCatch {E A : Type} (P : E -> Prop) (R : A -> Prop)
      (body : Eff.Run E A) (handler : Error -> Eff.Run E A) :
  Eff.follows P R body -> (forall e, Eff.follows P R (handler e)) ->
  Eff.follows P R (Eff.tryCatch body handler).
Proof.
  intros Hb Hh tr. destruct (Hb tr) as (evs1 & H1 & F1 & Q1). unfold Eff.tryCatch.
  destruct (body tr) as [[e|a] tr1] eqn:Hrun; simpl in H1; subst tr1.
  - destruct (Hh e (tr ++ evs1)%list) as (evs2 & H2 & F2 & Q2).
    exists (evs1 ++ evs2)%list. split; [now rewrite H2, app_assoc|].
    split; [now apply Forall_app | exact Q2].
  - exists evs1. split; [reflexivity|]. split; [exact F1|]. exact Q1.
Qed.

Lemma eff_follows_in {E A : Type} (P : E -> Prop) (R : A -> Prop) (c : Eff.Run E A)
      (tr : list E) (ev : E) :
  Eff.follows P R c -> In ev (snd (c tr)) -> In ev tr \/ P ev.
Proof.
  intros Hc Hin. destruct (Hc tr) as (evs & H & F & _). rewrite H in Hin.
  apply in_app_or in Hin. destruct Hin as [Hin|Hin]; [now left|].
  right. rewrite Forall_forall in F. auto.
Qed.

(** X16. Every reply of the [session-interaction] handler carries the id
    of the request; no reply carries a promise; and a reply that carries
    an error carries no value. *)
Theorem session_replies_echo_request
        {number : Type} (sw : MainWindow.SessionWorld number)
        (request : MainWindow.SessionInteractionRequest number)
        (tr : list (MainWindow.SessionEvent number))
        (r : MainWindow.SessionInteractionResult number) :
  In (MainWindow.Reply r) (snd (MainWindow.onSessionInteraction sw request tr)) ->
  In (MainWindow.Reply r) tr
  \/ (MainWindow.resultId r = MainWindow.requestId request
      /\ MainWindow.resultValue r <> MainWindow.Promise
      /\ (MainWindow.resultError r <> None ->
          MainWindow.resultValue r = MainWindow.Value Dyn.Undefined)).
Proof.
  intros Hin.
  set (P := fun ev : MainWindow.SessionEvent number =>
              forall r, ev = MainWindow.Reply r ->
                        MainWindow.resultId r = MainWindow.requestId request
                        /\ MainWindow.resultValue r <> MainWindow.Promise
                        /\ (MainWindow.resultError r <> None ->
                            MainWindow.resultValue r = MainWindow.Value Dyn.Undefined)).
  assert (Hother : forall ev, (forall r, ev <> MainWindow.Reply r) -> P ev).
  { intros ev Hev r' Heq. now destruct (Hev r'). }
  assert (Hfollows : Eff.follows P (fun _ => True)
                                 (MainWindow.onSessionInteraction sw request)).
  { unfold MainWindow.onSessionInteraction, MainWindow.sessionInteractionBody,
      MainWindow.sendReply.
    apply (eff_follows_bind _ (fun _ => True));
      [apply eff_follows_emit; [apply Hother; discriminate | exact I]|].
    intros _ _. apply eff_follows_tryCatch.
    - apply (eff_follows_bind
               _ (fun outcome : MainWindow.CallResult number * bool =>
                    snd outcome = false -> fst outcome <> MainWindow.Promise)).
      + destruct (MainWindow.func request) eqn:Hfunc;
          try (apply (eff_follows_bind _ (fun _ => True));
               [apply eff_follows_perform;
                [apply Hother; discriminate | intros; exact I]|];
               intros [v|] _; apply eff_follows_ret; simpl; discriminate).
        destruct (MainWindow.property request) eqn:Hproperty;
          try apply eff_follows_throw;
          (apply (eff_follows_bind _ (fun _ => True));
           [destruct (MainWindow.propertyValue request);
            first [ now apply eff_follows_ret
                  | apply eff_follows_perform;
                    [apply Hother; discriminate | intros; exact I] ]|]);
          intros _ _;
          (apply (eff_follows_bind _ (fun _ => True));
           [apply eff_follows_perform;
            [apply Hother; discriminate | intros; exact I]|]);
          intros v _; apply eff_follows_ret; simpl; discriminate.
      + intros [v [|]] Hv; [now apply eff_follows_ret|].
        apply (eff_follows_bind _ (fun _ => True));
          [apply eff_follows_emit; [apply Hother; discriminate | exact I]|].
        intros _ _. apply eff_follows_perform; [|auto].
        intros r' Heq. injection Heq as <-. simpl.
        split; [reflexivity|]. split; [now apply Hv|]. intros Herr. now destruct Herr.
    - intros err. apply (eff_follows_bind _ (fun _ => True));
        [apply eff_follows_emit; [apply Hother; discriminate | exact I]|].
      intros _ _. apply eff_follows_perform; [|auto].
      intros r' Heq. injection Heq as <-. simpl.
      split; [reflexivity|]. split; [discriminate | reflexivity]. }
  destruct (eff_follows_in P _ _ tr _ Hfollows Hin) as [Hold|Hnew]; [now left|].
  right. exact (Hnew r eq_refl).
Qed.

Ltac session_leaf :=
  eexists; split; [repeat rewrite <- app_assoc; simpl; reflexivity | reflexivity].

(** X17. A request that names a function calls it exactly once, with
    arguments that can be spread (no arguments when they are absent or
    [null], a one-element list for a value that cannot be iterated), and
    never reads or writes a property of the session, whatever else the
    request holds.  When the call gives a promise the handler returns
    without replying. *)
Theorem session_function_request
        {number : Type} (sw : MainWindow.SessionWorld number)
        (request : MainWindow.SessionInteractionRequest number)
        (tr : list (MainWindow.SessionEvent number)) :
  let args := MainWindow.normalizedFuncArgs (MainWindow.funcArgs request) in
  let called :=
      (tr ++ [MainWindow.LogDebug "ipcMain.session-interaction";
              MainWindow.SessionCall (MainWindow.func request) args])%list in
  MainWindow.isIterable args = true
  /\ (MainWindow.func request <> Dyn.Undefined ->
      (exists rest : list (MainWindow.SessionEvent number),
          snd (MainWindow.onSessionInteraction sw request tr) = (called ++ rest)%list
          /\ existsb MainWindow.isSessionAccess rest = false)
      /\ (MainWindow.sessionCall number sw
            (tr ++ [MainWindow.LogDebug "ipcMain.session-interaction"])%list
            (MainWindow.func request) args = Returned MainWindow.Promise ->
          MainWindow.onSessionInteraction sw request tr = (Returned tt, called))).
Proof.
  intros args called. split.
  { subst args. unfold MainWindow.normalizedFuncArgs.
    destruct (MainWindow.funcArgs request); reflexivity. }
  intros Hfunc. subst called.
  unfold MainWindow.onSessionInteraction, MainWindow.sessionInteractionBody,
    MainWindow.sendReply, Eff.bind, Eff.tryCatch, Eff.perform, Eff.emit, Eff.ret,
    Eff.throw.
  fold args.
  destruct (MainWindow.func request) eqn:Hf; try congruence; clear Hfunc;
    (destruct (MainWindow.sessionCall number sw _ _ args) as [e|[v|]];
     [ destruct (MainWindow.reply number sw _ _)
     | destruct (MainWindow.reply number sw _ _) as [e'|[]];
       [destruct (MainWindow.reply number sw _ _)|]
     | ]);
    (split; [session_leaf
            | intros Hp;
              first [discriminate | repeat rewrite <- app_assoc; reflexivity]]).
Qed.

(** the requests [getUserAgent] without arguments and [clearCache] *)
Lemma session_function_request_witness :
  MainWindow.onSessionInteraction
    MainCases.session
    (MainCases.request (Dyn.Str "clearCache") Dyn.Null (Dyn.Str "cookies") (Dyn.Num 1%Z)) []
  = (Returned tt,
     [MainWindow.LogDebug "ipcMain.session-interaction";
      MainWindow.SessionCall (Dyn.Str "clearCache") (Dyn.Arr [])]).
Proof.
  apply (proj2 (proj2 (session_function_request
                         MainCases.session
                         (MainCases.request (Dyn.Str "clearCache") Dyn.Null
                                            (Dyn.Str "cookies") (Dyn.Num 1%Z)) [])
                      ltac:(discriminate))).
  reflexivity.
Defined.

(** X18. A request that names no function reads the property it names,
    after writing it when, and only when, the request gives a value for
    it; a request that names neither is answered with the error
    [neitherFuncNorProperty], and the session is left alone. *)
Theorem session_property_request
        {number : Type} (sw : MainWindow.SessionWorld number)
        (request : MainWindow.SessionInteractionRequest number)
        (tr : list (MainWindow.SessionEvent number)) :
  MainWindow.func request = Dyn.Undefined ->
  let started := (tr ++ [MainWindow.LogDebug "ipcMain.session-interaction"])%list in
  (MainWindow.property request = Dyn.Undefined ->
   let failed :=
       (started ++ [MainWindow.LogError "session-interaction:error"
                                        (MainWindow.neitherFuncNorProperty)])%list in
   let answer :=
       {| MainWindow.resultId := MainWindow.requestId request;
          MainWindow.resultValue := MainWindow.Value Dyn.Undefined;
          MainWindow.resultError := Some MainWindow.neitherFuncNorProperty |} in
   MainWindow.onSessionInteraction sw request tr
   = (MainWindow.reply number sw failed answer,
      (failed ++ [MainWindow.Reply answer])%list))
  /\ (MainWindow.property request <> Dyn.Undefined ->
      exists rest : list (MainWindow.SessionEvent number),
        existsb MainWindow.isSessionAccess rest = false
        /\ (MainWindow.propertyValue request = Dyn.Undefined ->
            snd (MainWindow.onSessionInteraction sw request tr)
            = (started ++ MainWindow.SessionGet (MainWindow.property request) :: rest)%list)
        /\ (MainWindow.propertyValue request <> Dyn.Undefined ->
            MainWindow.sessionSet number sw started (MainWindow.property request)
                                  (MainWindow.propertyValue request) = Returned tt ->
            snd (MainWindow.onSessionInteraction sw request tr)
            = (started
                 ++ MainWindow.SessionSet (MainWindow.property request)
                                          (MainWindow.propertyValue request)
                 :: MainWindow.SessionGet (MainWindow.property request) :: rest)%list)).
Proof.
  intros Hfunc started. subst started.
  unfold MainWindow.onSessionInteraction, MainWindow.sessionInteractionBody,
    MainWindow.sendReply, Eff.bind, Eff.tryCatch, Eff.perform, Eff.emit, Eff.ret,
    Eff.throw.
  rewrite Hfunc. split.
  - intros Hproperty. rewrite Hproperty. reflexivity.
  - intros Hproperty.
    destruct (MainWindow.property request) eqn:Hp; try congruence; clear Hproperty;
      destruct (MainWindow.propertyValue request) eqn:Hpv;
      repeat match goal with
             | |- context [MainWindow.sessionSet number sw ?a ?b ?c] =>
               destruct (MainWindow.sessionSet number sw a b c) as [?|[]]
             | |- context [MainWindow.sessionGet number sw ?a ?b] =>
               destruct (MainWindow.sessionGet number sw a b)
             | |- context [MainWindow.reply number sw ?a ?b] =>
               destruct (MainWindow.reply number sw a b) as [?|[]]
             end;
      (eexists; split; [|split]; cycle 1;
       [ intros Hu;
         first [discriminate | repeat rewrite <- app_assoc; simpl; reflexivity]
       | intros Hd Hset;
         first [congruence | repeat rewrite <- app_assoc; simpl; reflexivity]
       | first [reflexivity | instantiate (1 := []); reflexivity] ]).
Qed.

(** a request that names neither a function nor a property *)
Lemma session_property_request_witness :
  MainWindow.onSessionInteraction
    MainCases.session
    (MainCases.request Dyn.Undefined Dyn.Undefined Dyn.Undefined (Dyn.Num 1%Z)) []
  = (Returned tt,
     [MainWindow.LogDebug "ipcMain.session-interaction";
      MainWindow.LogError "session-interaction:error" MainWindow.neitherFuncNorProperty;
      MainWindow.Reply
        {| MainWindow.resultId := Dyn.Str "req-1";
           MainWindow.resultValue := MainWindow.Value Dyn.Undefined;
           MainWindow.resultError := Some MainWindow.neitherFuncNorProperty |}]).
Proof.
  rewrite (proj1 (session_property_request
                    MainCases.session
                    (MainCases.request Dyn.Undefined Dyn.Undefined Dyn.Undefined
                                       (Dyn.Num 1%Z)) [] eq_refl) eq_refl).
  reflexivity.
Defined.

(** the second reply to a request whose first answer cannot be serialized *)
Lemma session_replies_echo_request_witness :
  let answer :=
      {| MainWindow.resultId := Dyn.Str "req-1";
         MainWindow.resultValue := MainWindow.Value (@Dyn.Undefined Z);
         MainWindow.resultError := Some (mkError "An object could not be cloned.") |} in
  MainWindow.resultId answer = Dyn.Str "req-1"
  /\ MainWindow.resultValue answer <> MainWindow.Promise.
Proof.
  intros answer.
  assert (Hin : In (MainWindow.Reply answer)
                   (snd (MainWindow.onSessionInteraction
                           MainCases.session
                           (MainCases.request Dyn.Undefined Dyn.Null (Dyn.Str "cookies")
                                              Dyn.Undefined) []))).
  { vm_compute. do 5 right. left. reflexivity. }
  destruct (session_replies_echo_request
              MainCases.session
              (MainCases.request Dyn.Undefined Dyn.Null (Dyn.Str "cookies") Dyn.Undefined)
              [] answer Hin) as [[]|(Hid & Hvalue & _)].
  split; [exact Hid | exact Hvalue].
Defined.

(** ** The preload script: the notification bridge *)

Ltac unfold_p :=
  unfold Preload.pbind, Preload.pget, Preload.pmodify, Preload.pcall, Preload.pemit,
    Preload.pret, Preload.pthrow, Preload.ptry, Preload.now in *.

Lemma lookup_setProp {number : Type} (k : string) (v : Dyn.value number)
      (props : list (string * Dyn.value number)) :
  Dyn.lookup k (Dyn.setProp k v props) = Some v.
Proof.
  induction props as [|[k' v'] rest IH]; simpl.
  - now rewrite String.eqb_refl.
  - destruct (String.eqb_spec k' k) as [->|Hne]; simpl.
    + now rewrite String.eqb_refl.
    + destruct (String.eqb_spec k' k); [contradiction | exact IH].
Qed.

Lemma lookup_setProp_other {number : Type} (k k0 : string) (v : Dyn.value number)
      (props : list (string * Dyn.value number)) :
  k0 <> k -> Dyn.lookup k0 (Dyn.setProp k v props) = Dyn.lookup k0 props.
Proof.
  intros Hne. induction props as [|[k' v'] rest IH]; simpl.
  - destruct (String.eqb_spec k k0); [congruence | reflexivity].
  - destruct (String.eqb_spec k' k) as [->|Hk]; simpl.
    + destruct (String.eqb_spec k k0); [congruence | reflexivity].
    + destruct (String.eqb_spec k' k0); [reflexivity | exact IH].
Qed.

(** X19. What the renderer sends, the main process understands: the
    payload of a [notification] message is accepted by
    [normalizeRendererNotificationPayload] with the id and the title of
    the renderer, its options hold the normalized body of the renderer and
    every other option of the page unchanged, and both of the renderer's
    payloads give their id to [extractNotificationId]. *)
Theorem renderer_payloads_are_understood
        {number : Type} (ofInt : Z -> number) (id : Z) (normalizedTitle : string)
        (options : list (string * Dyn.value number)) (normalizedBody : option string)
        (legacyOptions : Dyn.value number) :
  let payload :=
      Preload.notificationPayload ofInt id normalizedTitle options normalizedBody in
  let body := match normalizedBody with
              | Some b => Dyn.Str b
              | None => Dyn.Undefined
              end in
  (exists n,
      MainWindow.normalizeRendererNotificationPayload payload legacyOptions = Some n
      /\ MainWindow.id n = Dyn.Num (ofInt id)
      /\ MainWindow.title n = normalizedTitle
      /\ Dyn.getProp "body" (MainWindow.options n) = body
      /\ (forall k : string,
             k <> "body" ->
             Dyn.getProp k (MainWindow.options n) = Dyn.getProp k (Dyn.Obj options)))
  /\ MainWindow.extractNotificationId payload = Some (ofInt id)
  /\ MainWindow.extractNotificationId (Preload.closePayload ofInt id) = Some (ofInt id).
Proof.
  intros payload body. split; [|split; reflexivity].
  eexists. split; [reflexivity|]. simpl.
  split; [reflexivity|]. split; [reflexivity|]. split.
  - now rewrite lookup_setProp.
  - intros k Hk. now rewrite lookup_setProp_other.
Qed.

(** the payloads of notification 7, titled [Hi] *)
Lemma renderer_payloads_are_understood_witness :
  MainWindow.extractNotificationId
    (Preload.notificationPayload (fun z : Z => z) 7 "Hi" [("tag", Dyn.Str "t")] None)
  = Some 7%Z
  /\ MainWindow.extractNotificationId (Preload.closePayload (fun z : Z => z) 7) = Some 7%Z.
Proof.
  destruct (renderer_payloads_are_understood
              (fun z : Z => z) 7 "Hi" [("tag", Dyn.Str "t")] None Dyn.Undefined)
    as (_ & Hopen & Hclose).
  split; [exact Hopen | exact Hclose].
Defined.

Lemma mapGet_mapSet (id : Z) (r : Preload.NotificationRecord)
      (m : list (Z * Preload.NotificationRecord)) :
  Preload.mapGet id (Preload.mapSet id r m) = Some r.
Proof.
  induction m as [|[k r'] rest IH]; simpl.
  - now rewrite Z.eqb_refl.
  - destruct (Z.eqb_spec k id) as [->|Hne]; simpl.
    + now rewrite Z.eqb_refl.
    + destruct (Z.eqb_spec k id); [contradiction | exact IH].
Qed.

Lemma mapGet_mapSet_other (id k : Z) (r : Preload.NotificationRecord)
      (m : list (Z * Preload.NotificationRecord)) :
  k <> id -> Preload.mapGet k (Preload.mapSet id r m) = Preload.mapGet k m.
Proof.
  intros Hne. induction m as [|[k' r'] rest IH]; simpl.
  - destruct (Z.eqb_spec id k); [congruence | reflexivity].
  - destruct (Z.eqb_spec k' id) as [->|Hk]; simpl.
    + destruct (Z.eqb_spec id k); [congruence | reflexivity].
    + destruct (Z.eqb_spec k' k); [reflexivity | exact IH].
Qed.

Lemma in_mapSet (id k : Z) (r r0 : Preload.NotificationRecord)
      (m : list (Z * Preload.NotificationRecord)) :
  In (k, r0) (Preload.mapSet id r m) -> k = id \/ In (k, r0) m.
Proof.
  induction m as [|[k' r'] rest IH]; simpl.
  - intros [H|[]]. injection H as <- _. now left.
  - destruct (Z.eqb_spec k' id) as [->|Hne]; simpl.
    + intros [H|H]; [injection H as <- _; now left | right; now right].
    + intros [H|H]; [right; now left|]. destruct (IH H); [now left | right; now right].
Qed.

Lemma mapGet_none_of_bound (id : Z) (m : list (Z * Preload.NotificationRecord)) :
  (forall k r, In (k, r) m -> (k < id)%Z) -> Preload.mapGet id m = None.
Proof.
  induction m as [|[k r] rest IH]; intros Hbound; simpl; [reflexivity|].
  destruct (Z.eqb_spec k id) as [->|Hne].
  - specialize (Hbound id r (or_introl eq_refl)). lia.
  - apply IH. intros k' r' Hin. apply (Hbound k' r'). now right.
Qed.





(** X22. Sound notifications are opt-in and throttled.  While the flag
    from the [params] message is off, as it is initially, a sound that
    plays changes nothing and sends nothing.  With the flag on, a sound
    playing within 2000 ms of the last notification, or within 1000 ms of
    the last sound notification, only reads the clock; and a handler that
    does raise a notification leaves both times at its clock reading, so
    that the sounds of the next second raise none. *)
Theorem sound_notifications_are_throttled
        {number : Type} (showNumber : number -> string) (ofInt : Z -> number)
        (stringOf : Dyn.value number -> string) (pw : Preload.PreloadWorld number)
        (title body : string) (st : Preload.State) (tr : list (Preload.PEvent number)) :
  let t := Preload.clock pw tr in
  let run := Preload.onAudioPlay showNumber ofInt stringOf pw title body in
  Preload.audioNotificationsEnabled Preload.initial = false
  /\ (Preload.audioNotificationsEnabled st = false -> run st tr = (Returned tt, st, tr))
  /\ (Preload.audioNotificationsEnabled st = true ->
      (t - Preload.lastNotificationTime st <= 2000
       \/ t - Preload.lastNotifiedSoundTime st <= 1000)%Z ->
      run st tr = (Returned tt, st, (tr ++ [Preload.Now])%list))
  /\ (forall st' tr',
         run st tr = (Returned tt, st', tr') ->
         tr' <> tr -> tr' <> (tr ++ [Preload.Now])%list ->
         Preload.lastNotifiedSoundTime st' = t
         /\ Preload.lastNotificationTime st' = t
         /\ (forall tr'' : list (Preload.PEvent number),
                (Preload.clock pw tr'' - t <= 1000)%Z ->
                run st' tr'' = (Returned tt, st', (tr'' ++ [Preload.Now])%list))).
Proof.
  intros t run. subst run. split; [reflexivity|].
  unfold Preload.onAudioPlay. unfold_p. split; [|split].
  - intros Hoff. rewrite Hoff. reflexivity.
  - intros Hon Hsoon. rewrite Hon. simpl. fold t.
    destruct (Z.ltb_spec 2000 (t - Preload.lastNotificationTime st));
      destruct (Z.ltb_spec 1000 (t - Preload.lastNotifiedSoundTime st));
      try reflexivity; lia.
  - intros st' tr'.
    destruct (Preload.audioNotificationsEnabled st) eqn:Hon; simpl;
      [|intros H; injection H as <- <-; congruence].
    fold t.
    destruct ((2000 <? t - Preload.lastNotificationTime st)%Z
              && (1000 <? t - Preload.lastNotifiedSoundTime st)%Z);
      [|intros H; injection H as <- <-; congruence].
    destruct (Preload.construct _ _ _ _ _ _ _ _) as [[[e|id] st1] tr1] eqn:Hc;
      [discriminate|].
    intros H _ _. injection H as <- <-. simpl.
    assert (Henabled : Preload.audioNotificationsEnabled st1 = true).
    { unfold Preload.construct in Hc. unfold_p. simpl in Hc.
      destruct (Preload.shouldSend _ _ _);
        [destruct (Preload.send pw _ _ _) as [e|[]]; [discriminate|]|];
        injection Hc as _ <- _; exact Hon. }
    split; [reflexivity|]. split; [reflexivity|].
    intros tr'' Hsoon. rewrite Henabled. simpl.
    destruct (Z.ltb_spec 2000 (Preload.clock pw tr'' - t)); [lia | reflexivity].
Qed.

(** a sound on a page whose flag is off *)
Lemma sound_notifications_are_throttled_witness :
  Preload.onAudioPlay Preload.Lab.showNumber (fun z : Z => z) Preload.Lab.stringOf
                      (Preload.Lab.world 5000 [] "")
                      "New Notification" "You have a new notification"
                      Preload.Lab.watched []
  = (Returned tt, Preload.Lab.watched, []).
Proof.
  apply (proj1 (proj2 (sound_notifications_are_throttled
                         Preload.Lab.showNumber (fun z : Z => z) Preload.Lab.stringOf
                         (Preload.Lab.world 5000 [] "")
                         "New Notification" "You have a new notification"
                         Preload.Lab.watched []))).
  reflexivity.
Defined.

Lemma mapGet_mapDelete (id : Z) (m : list (Z * Preload.NotificationRecord)) :
  Preload.mapGet id (Preload.mapDelete id m) = None.
Proof.
  induction m as [|[k r] rest IH]; simpl; [reflexivity|].
  destruct (Z.eqb_spec k id) as [->|Hne]; [exact IH|].
  simpl. destruct (Z.eqb_spec k id); [contradiction | exact IH].
Qed.

Lemma mapGet_mapDelete_other (id k : Z) (m : list (Z * Preload.NotificationRecord)) :
  k <> id -> Preload.mapGet k (Preload.mapDelete id m) = Preload.mapGet k m.
Proof.
  intros Hne. induction m as [|[k' r] rest IH]; simpl; [reflexivity|].
  destruct (Z.eqb_spec k' id) as [->|Hk]; simpl.
  - destruct (Z.eqb_spec id k); [congruence | exact IH].
  - destruct (Z.eqb_spec k' k); [reflexivity | exact IH].
Qed.

(** X23. The listeners of a notification are isolated from each other:
    the loop over the listeners of an event calls every listener once, in
    the order of their registration, whatever any of them throws; it logs
    each error, never throws itself and changes no variable of the
    module. *)
Theorem listeners_are_isolated
        {number : Type} (pw : Preload.PreloadWorld number) (eventName : string)
        (l : list Preload.Handler) (st : Preload.State)
        (tr : list (Preload.PEvent number)) :
  exists evs : list (Preload.PEvent number),
    Preload.notifyListeners pw eventName l st tr = (Returned tt, st, (tr ++ evs)%list)
    /\ filter Preload.isInvoke evs = map (fun h => Preload.Invoke h eventName) l
    /\ (forall ev, In ev evs ->
                   Preload.isInvoke ev = true
                   \/ exists e, ev = Preload.LogError "Notification listener error" (Some e)).
Proof.
  revert tr. induction l as [|h rest IH]; intros tr; simpl.
  - exists []. split; [now rewrite app_nil_r|]. split; [reflexivity|]. intros ev [].
  - unfold_p.
    destruct (Preload.invoke pw tr h eventName) as [e|[]].
    + destruct (IH ((tr ++ [Preload.Invoke h eventName])
                      ++ [Preload.LogError "Notification listener error" (Some e)])%list)
        as (evs & Hrun & Hcalls & Hkinds).
      exists (Preload.Invoke h eventName
                :: Preload.LogError "Notification listener error" (Some e) :: evs).
      rewrite Hrun. repeat rewrite <- app_assoc. simpl.
      split; [reflexivity|]. split; [now rewrite Hcalls|].
      intros ev [<-|[<-|Hin]]; [now left | right; now exists e | now apply Hkinds].
    + destruct (IH (tr ++ [Preload.Invoke h eventName])%list)
        as (evs & Hrun & Hcalls & Hkinds).
      exists (Preload.Invoke h eventName :: evs).
      rewrite Hrun. repeat rewrite <- app_assoc. simpl.
      split; [reflexivity|]. split; [now rewrite Hcalls|].
      intros ev [<-|Hin]; [now left | now apply Hkinds].
Qed.

(** X24. A [close] event that is delivered unregisters the notification:
    afterwards nothing is registered under its id, the other records are
    as before, and any further event for the id calls no handler and
    changes nothing.  An event for an id that is not registered does
    nothing; and when the handler [onclose] of the page throws, the error
    goes to the caller, the listeners are not called and the notification
    stays registered. *)
Theorem close_event_unregisters
        {number : Type} (pw : Preload.PreloadWorld number) (id : Z)
        (st : Preload.State) (tr : list (Preload.PEvent number)) :
  (forall st' tr',
      Preload.emitNotificationEvent pw id "close" st tr = (Returned tt, st', tr') ->
      Preload.mapGet id (Preload.rendererNotifications st') = None
      /\ (forall k, k <> id ->
                    Preload.mapGet k (Preload.rendererNotifications st')
                    = Preload.mapGet k (Preload.rendererNotifications st))
      /\ (forall eventName tr'',
             Preload.emitNotificationEvent pw id eventName st' tr''
             = (Returned tt, st', tr'')))
  /\ (forall (record : Preload.NotificationRecord) (h : Preload.Handler) (e : Error),
         Preload.mapGet id (Preload.rendererNotifications st) = Some record ->
         Preload.onclose record = Some h ->
         Preload.invoke pw tr h "close" = Threw e ->
         Preload.emitNotificationEvent pw id "close" st tr
         = (Threw e, st, (tr ++ [Preload.Invoke h "close"])%list)).
Proof.
  split.
  - intros st' tr'. unfold Preload.emitNotificationEvent. unfold_p.
    destruct (Preload.mapGet id (Preload.rendererNotifications st)) as [record|] eqn:Hget.
    + simpl.
      assert (Hdone : forall t,
                 (let (p, tr'0) :=
                      Preload.notifyListeners pw "close"
                                              (Preload.close (Preload.listeners record)) st t in
                  let (o, st'0) := p in
                  match o with
                  | Threw e => (Threw e, st'0, tr'0)
                  | Returned _ =>
                    (Returned tt,
                     {| Preload.rendererNotifications :=
                          Preload.mapDelete id (Preload.rendererNotifications st'0);
                        Preload.notificationCounter := Preload.notificationCounter st'0;
                        Preload.lastNotificationTime := Preload.lastNotificationTime st'0;
                        Preload.lastWebNotification := Preload.lastWebNotification st'0;
                        Preload.lastNotifiedSoundTime := Preload.lastNotifiedSoundTime st'0;
                        Preload.audioNotificationsEnabled :=
                          Preload.audioNotificationsEnabled st'0 |}, tr'0)
                  end) = (Returned tt, st', tr') ->
                 Preload.rendererNotifications st'
                 = Preload.mapDelete id (Preload.rendererNotifications st)).
      { intros t.
        destruct (listeners_are_isolated pw "close"
                                         (Preload.close (Preload.listeners record)) st t)
          as (evs & Hrun & _).
        rewrite Hrun. intros H. injection H as <- _. reflexivity. }
      intros Hrun.
      assert (Hreg : Preload.rendererNotifications st'
                     = Preload.mapDelete id (Preload.rendererNotifications st)).
      { destruct (Preload.onclose record) as [h|].
        - destruct (Preload.invoke pw tr h "close") as [e|[]]; [discriminate|].
          exact (Hdone _ Hrun).
        - exact (Hdone _ Hrun). }
      rewrite Hreg. split; [apply mapGet_mapDelete|].
      split; [intros k Hk; now apply mapGet_mapDelete_other|].
      intros eventName tr''. rewrite mapGet_mapDelete. reflexivity.
    + intros H. injection H as <- <-. rewrite Hget.
      split; [reflexivity|]. split; [reflexivity|].
      intros eventName tr''. reflexivity.
  - intros record h e Hget Hclose Hthrow.
    unfold Preload.emitNotificationEvent. unfold_p.
    rewrite Hget. simpl. rewrite Hclose, Hthrow. reflexivity.
Qed.

(** the close of a notification whose first listener fails *)
Lemma close_event_unregisters_witness :
  Preload.mapGet 1 (Preload.rendererNotifications
                      (snd (fst (Preload.emitNotificationEvent
                                   (Preload.Lab.world 5000 [] "") 1 "close"
                                   Preload.Lab.watched []))))
  = None.
Proof.
  refine (proj1 (proj1 (close_event_unregisters
                          (Preload.Lab.world 5000 [] "") 1 Preload.Lab.watched [])
                       _ _ _)).
  vm_compute. reflexivity.
Defined.

(** ** The preload script: injected scripts *)

Lemma requireAll_runs {number : Type} (pw : Preload.PreloadWorld number)
      (files : list string) (st : Preload.State) (tr : list (Preload.PEvent number)) :
  exists (evs : list (Preload.PEvent number)) (o : Outcome unit),
    Preload.requireAll pw files st tr = (o, st, (tr ++ evs)%list)
    /\ (exists k, Preload.requiredFiles evs = firstn k files)
    /\ (forall file, In file (Preload.requiredFiles evs) -> In file files)
    /\ ((forall t file, Preload.require pw t file = Returned tt) ->
        o = Returned tt /\ Preload.requiredFiles evs = files).
Proof.
  revert tr. induction files as [|file rest IH]; intros tr; simpl.
  - exists [], (Returned tt). split; [now rewrite app_nil_r|].
    split; [now exists 0|]. split; [intros f []|]. intros _. now split.
  - unfold_p. destruct (Preload.require pw _ file) as [e|[]] eqn:Hreq.
    + exists [Preload.LogDebug "Injecting JS file" file; Preload.Require file],
             (Threw e).
      rewrite <- app_assoc. split; [reflexivity|]. simpl.
      split; [now exists 1|]. split; [intros f [<-|[]]; now left|].
      intros Hall. rewrite Hall in Hreq. discriminate.
    + destruct (IH ((tr ++ [Preload.LogDebug "Injecting JS file" file])
                      ++ [Preload.Require file])%list)
        as (evs & o & Hrun & (k & Hprefix) & Hin & Hall).
      exists (Preload.LogDebug "Injecting JS file" file :: Preload.Require file :: evs), o.
      rewrite Hrun. repeat rewrite <- app_assoc. simpl.
      split; [reflexivity|].
      split; [exists (S k); simpl; now rewrite Hprefix|].
      split; [intros f [<-|Hf]; [now left | right; now apply Hin]|].
      intros Hok. destruct (Hall Hok) as [-> ->]. now split.
Qed.


(** X26. An event whose name is none of [click], [close] and [reply],
    which [dispatchEvent] lets through, is taken for a reply as far as
    the handler goes and then fails: for a registered notification the
    handler [onreply] of the page is called with it, after which a
    [TypeError] is thrown, no listener is called and the notification
    stays registered. *)
Theorem unknown_event_name_calls_onreply
        {number : Type} (pw : Preload.PreloadWorld number) (id : Z) (eventName : string)
        (record : Preload.NotificationRecord) (h : Preload.Handler)
        (st : Preload.State) (tr : list (Preload.PEvent number)) :
  eventName <> "click" -> eventName <> "close" -> eventName <> "reply" ->
  Preload.mapGet id (Preload.rendererNotifications st) = Some record ->
  Preload.onreply record = Some h ->
  Preload.invoke pw tr h eventName = Returned tt ->
  Preload.emitNotificationEvent pw id eventName st tr
  = (Threw Preload.typeError, st, (tr ++ [Preload.Invoke h eventName])%list).
Proof.
  intros Hclick Hclose Hreply Hget Hon Hinvoke.
  unfold Preload.emitNotificationEvent, Preload.listenersFor. unfold_p. rewrite Hget.
  destruct (String.eqb_spec eventName "click"); [contradiction|].
  destruct (String.eqb_spec eventName "close"); [contradiction|].
  destruct (String.eqb_spec eventName "reply"); [contradiction|].
  rewrite Hon. simpl. rewrite Hinvoke. reflexivity.
Qed.

(** the event [show] dispatched on a watched notification *)
Lemma unknown_event_name_calls_onreply_witness :
  Preload.emitNotificationEvent (Preload.Lab.world 5000 [] "") 1 "show"
                                Preload.Lab.watched []
  = (Threw Preload.typeError, Preload.Lab.watched, [Preload.Invoke 9 "show"]).
Proof.
  apply (unknown_event_name_calls_onreply
           (Preload.Lab.world 5000 [] "") 1 "show"
           {| Preload.onclick := None; Preload.onclose := Some 7;
              Preload.onreply := Some 9;
              Preload.listeners := {| Preload.click := []; Preload.close := [13; 21];
                                      Preload.reply := [] |} |}
           9 Preload.Lab.watched []);
    first [discriminate | reflexivity].
Defined.
